(** * app-graphql: schema and resolver generation from ORM models

    A shallow embedding of [src/lib/GraphQLHelper.ts], of the decorator
    metadata store ([decorators/index.ts]) and of the parts of
    [src/utils/schemaGenerator.ts] that the properties below talk about.

    - JavaScript objects used as maps are [gmap string _]; insertion-ordered
      [Map]s and [Object.entries] walks are association lists.
    - SDL text is built as a list of lines ([SDL.item]) with a printer
      [SDL.render] that produces the characters the source concatenates.
    - Resolvers are asynchronous closures over the ORM; they are embedded as
      programs ([Async]) whose nodes are the ORM calls they await, and [run]
      executes such a program against an ORM implementation. *)

From Stdlib Require Import ZArith String Ascii List Bool Lia.
From stdpp Require Import base option list gmap strings pretty fin_maps.

Set Warnings "-register-all".

Local Open Scope string_scope.
Local Open Scope Z_scope.
Local Open Scope list_scope.

(** ** Text helpers *)

Definition nl : string := String "010"%char EmptyString.
Definition dq : string := String "034"%char EmptyString.
(** The [triple-quote] delimiter of SDL descriptions. *)
Definition tq : string := dq +:+ dq +:+ dq.

(** [String.prototype.toLowerCase] on the ASCII range. *)
Definition lower_ascii (c : ascii) : ascii :=
  let n := nat_of_ascii c in
  if (Nat.leb 65 n && Nat.leb n 90)%bool then ascii_of_nat (n + 32) else c.

Fixpoint toLowerCase (s : string) : string :=
  match s with
  | EmptyString => EmptyString
  | String c r => String (lower_ascii c) (toLowerCase r)
  end.

(** [s.charAt(0).toLowerCase() + s.slice(1)] *)
Definition lowerFirst (s : string) : string :=
  match s with
  | EmptyString => EmptyString
  | String c r => String (lower_ascii c) r
  end.

(** [a || b] on strings: the empty string is falsy. *)
Definition str_or (a : option string) (b : string) : string :=
  match a with
  | Some (String c r) => String c r
  | _ => b
  end.

Definition opt_str_or (a b : option string) : option string :=
  match a with
  | Some (String c r) => Some (String c r)
  | _ => b
  end.

(** Truthiness of an optional boolean property ([undefined] is falsy). *)
Definition truthy_bool (b : option bool) : bool := default false b.

(** Truthiness of an optional string property. *)
Definition truthy_str (s : option string) : bool :=
  match s with
  | Some (String _ _) => true
  | _ => false
  end.

(** ** JavaScript values *)

Inductive JSVal : Type :=
| JUndefined
| JNull
| JBool (b : bool)
| JNum (n : Z)
| JStr (s : string)
| JArr (l : list JSVal)
| JObj (o : gmap string JSVal).

(** A plain object, and property access [o[k]]. *)
Abbreviation Obj := (gmap string JSVal).

Definition prop (o : Obj) (k : string) : JSVal := default JUndefined (o !! k).

Definition truthy (v : JSVal) : bool :=
  match v with
  | JUndefined | JNull => false
  | JBool b => b
  | JNum n => negb (n =? 0)
  | JStr s => negb (String.eqb s "")
  | JArr _ | JObj _ => true
  end.

(** Object spread [{ ...a, ...b }]: the keys of [b] win. *)
Definition spread (a b : Obj) : Obj := b ∪ a.

(** Spreading [undefined] contributes nothing. *)
Definition spread_opt (a : option Obj) (b : Obj) : Obj := spread (default ∅ a) b.

(** Property access [v[k]] on a value the execution engine hands to a field
    resolver (always an object there; other values have no own property
    of that name). *)
Definition member (v : JSVal) (k : string) : JSVal :=
  match v with
  | JObj o => prop o k
  | _ => JUndefined
  end.

(** Own enumerable properties, as object spread sees them: [{ ...v }].
    [undefined], [null], numbers and booleans contribute nothing. *)
Fixpoint indexed (i : nat) (l : list JSVal) : Obj :=
  match l with
  | [] => ∅
  | x :: r => <[pretty i := x]> (indexed (S i) r)
  end.

Fixpoint chars (s : string) : list JSVal :=
  match s with
  | EmptyString => []
  | String c r => JStr (String c EmptyString) :: chars r
  end.

Definition own_props (v : JSVal) : Obj :=
  match v with
  | JObj o => o
  | JArr l => indexed 0 l
  | JStr s => indexed 0 (chars s)
  | _ => ∅
  end.

(** ** The ORM as a collaborator: asynchronous resolver programs

    A resolver is an [async] function whose only effects are calls into the
    ORM and exceptions.  [Async A] is the tree of such a computation: each
    [Await*] node is one ORM call with the arguments the code passes and a
    continuation that receives what the ORM resolved to. *)

Record Instance := { inst_class : string; dataValues : Obj }.

(** [instance.toJSON()] *)
Definition toJSON (i : Instance) : JSVal := JObj (dataValues i).

Inductive Async (A : Type) : Type :=
| Ret (a : A)
| Throw (msg : string)
| AwaitFindOne (cls : string) (options : Obj) (k : option Instance -> Async A)
| AwaitFindAll (cls : string) (options : Obj) (k : list Instance -> Async A)
| AwaitFindByPk (cls : string) (pk : JSVal) (options : option Obj)
    (k : option Instance -> Async A)
| AwaitCreate (cls : string) (values : JSVal) (k : Instance -> Async A)
| AwaitUpdate (inst : Instance) (values : JSVal) (k : Instance -> Async A)
| AwaitDestroy (inst : Instance) (k : unit -> Async A).

Arguments Ret {A} a.
Arguments Throw {A} msg.
Arguments AwaitFindOne {A} cls options k.
Arguments AwaitFindAll {A} cls options k.
Arguments AwaitFindByPk {A} cls pk options k.
Arguments AwaitCreate {A} cls values k.
Arguments AwaitUpdate {A} inst values k.
Arguments AwaitDestroy {A} inst k.

Fixpoint bind {A B} (m : Async A) (f : A -> Async B) : Async B :=
  match m with
  | Ret a => f a
  | Throw msg => Throw msg
  | AwaitFindOne c o k => AwaitFindOne c o (fun r => bind (k r) f)
  | AwaitFindAll c o k => AwaitFindAll c o (fun r => bind (k r) f)
  | AwaitFindByPk c p o k => AwaitFindByPk c p o (fun r => bind (k r) f)
  | AwaitCreate c v k => AwaitCreate c v (fun r => bind (k r) f)
  | AwaitUpdate i v k => AwaitUpdate i v (fun r => bind (k r) f)
  | AwaitDestroy i k => AwaitDestroy i (fun r => bind (k r) f)
  end.

Notation "'let*' x ':=' m 'in' k" := (bind m (fun x => k))
  (at level 10, x name, m at level 100, k at level 200).

(** What a resolver hands back to the execution engine: a plain structure,
    or the ORM's live instance wrapper(s). *)
Inductive ResolverResult :=
| Plain (v : JSVal)
| Live (i : Instance)
| LiveAll (l : list Instance).

(** The first ORM call of a program, if it makes one. *)
Inductive OrmCall :=
| CallFindOne (cls : string) (options : Obj)
| CallFindAll (cls : string) (options : Obj)
| CallFindByPk (cls : string) (pk : JSVal) (options : option Obj)
| CallCreate (cls : string) (values : JSVal)
| CallUpdate (inst : Instance) (values : JSVal)
| CallDestroy (inst : Instance).

Definition first_call {A} (m : Async A) : option OrmCall :=
  match m with
  | Ret _ | Throw _ => None
  | AwaitFindOne c o _ => Some (CallFindOne c o)
  | AwaitFindAll c o _ => Some (CallFindAll c o)
  | AwaitFindByPk c p o _ => Some (CallFindByPk c p o)
  | AwaitCreate c v _ => Some (CallCreate c v)
  | AwaitUpdate i v _ => Some (CallUpdate i v)
  | AwaitDestroy i _ => Some (CallDestroy i)
  end.

(** An ORM implementation over some database state: every method answers
    with a value or rejects. *)
Inductive Outcome (A : Type) : Type :=
| Returned (a : A)
| Rejected (msg : string).

Arguments Returned {A} a.
Arguments Rejected {A} msg.

Record Orm (DB : Type) := {
  findOne : string -> Obj -> DB -> Outcome (option Instance) * DB;
  findAll : string -> Obj -> DB -> Outcome (list Instance) * DB;
  findByPk : string -> JSVal -> option Obj -> DB -> Outcome (option Instance) * DB;
  create : string -> JSVal -> DB -> Outcome Instance * DB;
  update : Instance -> JSVal -> DB -> Outcome Instance * DB;
  destroy : Instance -> DB -> Outcome unit * DB
}.

Arguments findOne {DB} _ _ _ _.
Arguments findAll {DB} _ _ _ _.
Arguments findByPk {DB} _ _ _ _ _.
Arguments create {DB} _ _ _ _.
Arguments update {DB} _ _ _ _.
Arguments destroy {DB} _ _ _.

(** Running a resolver against an ORM: the outcome, the final database and
    the ORM calls issued, oldest first.  A rejection by the ORM propagates
    as the resolver's failure (nothing in the resolvers catches it). *)
Section Run.
Context {DB : Type} (orm : Orm DB).

Definition step {X A} (r : Outcome X * DB) (c : OrmCall)
    (continue : X -> DB -> Outcome A * DB * list OrmCall)
    : Outcome A * DB * list OrmCall :=
  match r with
  | (Returned x, db') =>
      let '(o, db'', cs) := continue x db' in (o, db'', c :: cs)
  | (Rejected msg, db') => (Rejected msg, db', [c])
  end.

Fixpoint run {A} (m : Async A) (db : DB) : Outcome A * DB * list OrmCall :=
  match m with
  | Ret a => (Returned a, db, [])
  | Throw msg => (Rejected msg, db, [])
  | AwaitFindOne c o k =>
      step (findOne orm c o db) (CallFindOne c o) (fun x => run (k x))
  | AwaitFindAll c o k =>
      step (findAll orm c o db) (CallFindAll c o) (fun x => run (k x))
  | AwaitFindByPk c p o k =>
      step (findByPk orm c p o db) (CallFindByPk c p o) (fun x => run (k x))
  | AwaitCreate c v k =>
      step (create orm c v db) (CallCreate c v) (fun x => run (k x))
  | AwaitUpdate i v k =>
      step (update orm i v db) (CallUpdate i v) (fun x => run (k x))
  | AwaitDestroy i k =>
      step (destroy orm i db) (CallDestroy i) (fun x => run (k x))
  end.
End Run.

(** ** Decorator metadata ([decorators/index.ts]) *)

Record Context := { req : JSVal }.

(** A user-supplied resolver function [(parent, args, context) => any]. *)
Definition CustomFn := JSVal -> Obj -> Context -> Async ResolverResult.

Record GQLOperations := {
  op_query : option bool;
  op_mutation : option bool;
  op_subscription : option bool
}.

Record GQLFieldConfig := {
  fc_type : option string;
  fc_nullable : option bool;
  fc_list : option bool;
  fc_description : option string;
  fc_resolver : option CustomFn;
  fc_exclude : option bool;
  fc_customType : option string;
  fc_operations : option GQLOperations
}.

Record AuthResult := {
  success : bool;
  auth_where : option Obj;
  allowedOperations : option (list string)
}.

(** ['query' | 'create' | 'update' | 'delete'] *)
Inductive AuthOperation := OpQuery | OpCreate | OpUpdate | OpDelete.

(** What a hook answers: a legacy boolean or a structured result. *)
Inductive AuthReturn :=
| LegacyBool (b : bool)
| Structured (r : AuthResult).

Definition AuthHandler := JSVal -> JSVal -> AuthOperation -> AuthReturn.

Record GQLModelConfig := {
  typeName : option string;
  description : option string;
  exclude : option bool;
  operations : option GQLOperations;
  customFields : option (list (string * GQLFieldConfig));
  excludeFields : option (list string);
  authRequired : option bool;
  authHandler : option AuthHandler
}.

(** The object literal [{}]. *)
Definition emptyModelConfig : GQLModelConfig :=
  {| typeName := None; description := None; exclude := None;
     operations := None; customFields := None; excludeFields := None;
     authRequired := None; authHandler := None |}.

Definition emptyFieldConfig : GQLFieldConfig :=
  {| fc_type := None; fc_nullable := None; fc_list := None;
     fc_description := None; fc_resolver := None; fc_exclude := None;
     fc_customType := None; fc_operations := None |}.

(** ** ORM model classes, as the generators read them *)

Record AttrType := { key : option string; constructor_name : option string }.

Record Attribute := { attr_type : option AttrType; allowNull : option bool }.

Record Target := { target_name : option string }.

Record Association := {
  target : option Target;
  targetModel : option Target;
  associationType : string
}.

(** A model class: the ORM descriptors plus the two metadata slots that the
    decorators define on the class ([GQL_MODEL_KEY], [GQL_FIELDS_KEY]). *)
Record ModelClass := {
  name : string;
  rawAttributes : option (list (string * Attribute));
  attributes : option (list (string * Attribute));
  associations : option (list (string * Association));
  tableName : option string;
  primaryKeyAttribute : option string;
  gql_model : option GQLModelConfig;
  gql_fields : option (gmap string GQLFieldConfig)
}.

(** [@GQLModel(config)] *)
Definition GQLModel (config : GQLModelConfig) (target_ : ModelClass) : ModelClass :=
  {| name := name target_; rawAttributes := rawAttributes target_;
     attributes := attributes target_; associations := associations target_;
     tableName := tableName target_;
     primaryKeyAttribute := primaryKeyAttribute target_;
     gql_model := Some config; gql_fields := gql_fields target_ |}.

(** [@GQLField(config)] on property [propertyKey] *)
Definition GQLField (config : GQLFieldConfig) (propertyKey : string)
    (target_ : ModelClass) : ModelClass :=
  let existingFields := default ∅ (gql_fields target_) in
  {| name := name target_; rawAttributes := rawAttributes target_;
     attributes := attributes target_; associations := associations target_;
     tableName := tableName target_;
     primaryKeyAttribute := primaryKeyAttribute target_;
     gql_model := gql_model target_;
     gql_fields := Some (<[propertyKey := config]> existingFields) |}.

(** [Reflect.getMetadata(GQL_FIELDS_KEY, target) || {}] *)
Definition getGQLFields (target_ : ModelClass) : gmap string GQLFieldConfig :=
  default ∅ (gql_fields target_).

(** [Reflect.getMetadata(GQL_MODEL_KEY, target) || {}] *)
Definition getGQLModelMetadata (target_ : ModelClass) : GQLModelConfig :=
  default emptyModelConfig (gql_model target_).

(** ** SDL text as lines *)

Module SDL.
Inductive item :=
| Raw (text : string)               (* text, verbatim *)
| Doc (indent text : string)        (* indent, then the quoted description *)
| TypeOpen (n : string)             (* type n {         *)
| InputOpen (n : string)            (* input nInput {   *)
| FieldLine (n ty : string)         (*   n: ty          *)
| OpLine (n args ret : string)      (*   n args: ret    *)
| Close.                            (* }                *)

Definition render_item (i : item) : string :=
  match i with
  | Raw text => text
  | Doc indent text => indent +:+ tq +:+ text +:+ tq +:+ nl
  | TypeOpen n => "type " +:+ n +:+ " {" +:+ nl
  | InputOpen n => "input " +:+ n +:+ "Input {" +:+ nl
  | FieldLine n ty => "  " +:+ n +:+ ": " +:+ ty +:+ nl
  | OpLine n args ret => "  " +:+ n +:+ args +:+ ": " +:+ ret +:+ nl
  | Close => "}" +:+ nl
  end.

Definition render (l : list item) : string :=
  foldr (fun i acc => render_item i +:+ acc) "" l.

(** The names of the fields a block declares. *)
Definition field_names (l : list item) : list string :=
  omap (fun i => match i with FieldLine n _ => Some n | _ => None end) l.

(** The names of the root operations a block declares. *)
Definition op_names (l : list item) : list string :=
  omap (fun i => match i with OpLine n _ _ => Some n | _ => None end) l.
End SDL.

(** ** [lib/types.ts] *)

Record SequelizeModel := {
  sm_name : string;
  sm_attributes : list (string * Attribute);
  sm_associations : list (string * Association);
  sm_tableName : string;
  sm_primaryKeyAttribute : string
}.

Record GraphQLFieldType := {
  f_name : string;
  f_type : string;
  isNullable : bool;
  isList : bool;
  isRelation : bool;
  relationType : option string;
  relatedModel : option string
}.

Record GraphQLQueryHandler := {
  q_name : string;
  q_type : string;
  q_resolver : CustomFn;
  q_description : option string
}.

Record GraphQLMutationHandler := {
  m_name : string;
  m_inputType : option string;
  m_outputType : string;
  m_resolver : CustomFn;
  m_description : option string
}.

Record GraphQLSubscriptionHandler := {
  s_name : string;
  s_type : string;
  s_resolver : CustomFn;
  s_description : option string
}.

(** A contributed resolver object: type name, then field name. *)
Abbreviation GraphQLResolver := (gmap string (gmap string CustomFn)).

(** [Map.prototype.set] on an insertion-ordered map: an existing key keeps
    its position, a new key goes last. *)
Fixpoint map_set {V} (k : string) (v : V) (l : list (string * V)) : list (string * V) :=
  match l with
  | [] => [(k, v)]
  | (k', v') :: r =>
      if String.eqb k' k then (k, v) :: r else (k', v') :: map_set k v r
  end.

(** The handle a resolver obtains for its model: the ORM's class when the
    ORM instance knows the model, else the registry's plain descriptor
    (which has none of the ORM's methods). *)
Inductive ModelHandle :=
| OrmClass (cls : string)
| Descriptor (m : SequelizeModel).

Definition callFindOne (hd : ModelHandle) (options : Obj) : Async (option Instance) :=
  match hd with
  | OrmClass cls => AwaitFindOne cls options Ret
  | Descriptor _ => Throw "ModelClass.findOne is not a function"
  end.

Definition callFindAll (hd : ModelHandle) (options : Obj) : Async (list Instance) :=
  match hd with
  | OrmClass cls => AwaitFindAll cls options Ret
  | Descriptor _ => Throw "ModelClass.findAll is not a function"
  end.

Definition callCreate (hd : ModelHandle) (values : JSVal) : Async Instance :=
  match hd with
  | OrmClass cls => AwaitCreate cls values Ret
  | Descriptor _ => Throw "ModelClass.create is not a function"
  end.

(** The ORM instance handed to the constructor: [sequelize.models] maps a
    model name to the ORM's class of that name. *)
Record Sequelize := { seq_models : option (gmap string string) }.

(** Lookup in an object literal used as a table, at the literal's own keys.
    (Indexing a literal at a name that every object inherits, [constructor]
    or [toString] for one, finds the inherited member in the source; such
    keys are outside this table, see [inheritedKeys].) *)
Fixpoint table_get (t : list (string * string)) (k : string) : option string :=
  match t with
  | [] => None
  | (k', v) :: r => if String.eqb k' k then Some v else table_get r k
  end.

(** [x !== false] on an optional boolean property. *)
(** The names of the members that every object inherits from
    [Object.prototype]. *)
Definition inheritedKeys : list string :=
  [ "constructor"; "__defineGetter__"; "__defineSetter__"; "hasOwnProperty";
    "__lookupGetter__"; "__lookupSetter__"; "isPrototypeOf"; "propertyIsEnumerable";
    "toString"; "valueOf"; "__proto__"; "toLocaleString" ].

(** [attr.type?.key || attr.type?.constructor?.name || 'STRING']: the key at
    which [convertSequelizeAttributeToGraphQLField] reads its type table. *)
Definition sequelizeTypeOf (attr : Attribute) : string :=
  str_or (opt_str_or (attr_type attr ≫= key) (attr_type attr ≫= constructor_name)) "STRING".

Definition not_false (b : option bool) : bool :=
  match b with
  | Some false => false
  | _ => true
  end.

(** ** [lib/GraphQLHelper.ts] *)

Module Helper.

Record GraphQLHelper := {
  models : list (string * SequelizeModel);
  customResolvers : list GraphQLResolver;
  customTypes : list string;
  customQueries : list GraphQLQueryHandler;
  customMutations : list GraphQLMutationHandler;
  customSubscriptions : list GraphQLSubscriptionHandler;
  blackList : gset string;
  whiteList : gset string;
  modelMetadata : gmap string (GQLModelConfig * gmap string GQLFieldConfig);
  sequelize : option Sequelize
}.

(** [new GraphQLHelper(sequelize)] *)
Definition new (sequelize_ : option Sequelize) : GraphQLHelper :=
  {| models := []; customResolvers := []; customTypes := [];
     customQueries := []; customMutations := []; customSubscriptions := [];
     blackList := ∅; whiteList := ∅; modelMetadata := ∅;
     sequelize := sequelize_ |}.

Definition with_models (this : GraphQLHelper) ms md : GraphQLHelper :=
  {| models := ms; customResolvers := customResolvers this;
     customTypes := customTypes this; customQueries := customQueries this;
     customMutations := customMutations this;
     customSubscriptions := customSubscriptions this;
     blackList := blackList this; whiteList := whiteList this;
     modelMetadata := md; sequelize := sequelize this |}.

Definition addModel (this : GraphQLHelper) (model : ModelClass) : GraphQLHelper :=
  let modelName := name model in
  if decide (modelName ∈ blackList this) then this else
  let modelConfig := getGQLModelMetadata model in
  let fieldConfigs := getGQLFields model in
  (* [!modelConfig]: [modelConfig] is an object, which is never falsy *)
  if (false || truthy_bool (exclude modelConfig))%bool then this else
  let sequelizeModel :=
    {| sm_name := modelName;
       sm_attributes :=
         match rawAttributes model with
         | Some a => a
         | None => default [] (attributes model)
         end;
       sm_associations := default [] (associations model);
       sm_tableName := str_or (tableName model) (toLowerCase modelName);
       sm_primaryKeyAttribute := str_or (primaryKeyAttribute model) "id" |} in
  with_models this
    (map_set modelName sequelizeModel (models this))
    (<[modelName := (modelConfig, fieldConfigs)]> (modelMetadata this)).

Definition addResolver (this : GraphQLHelper) (resolver : GraphQLResolver) : GraphQLHelper :=
  {| models := models this;
     customResolvers := customResolvers this ++ [resolver];
     customTypes := customTypes this; customQueries := customQueries this;
     customMutations := customMutations this;
     customSubscriptions := customSubscriptions this;
     blackList := blackList this; whiteList := whiteList this;
     modelMetadata := modelMetadata this; sequelize := sequelize this |}.

Definition addType (this : GraphQLHelper) (typeDefinition : string) : GraphQLHelper :=
  {| models := models this; customResolvers := customResolvers this;
     customTypes := customTypes this ++ [typeDefinition];
     customQueries := customQueries this;
     customMutations := customMutations this;
     customSubscriptions := customSubscriptions this;
     blackList := blackList this; whiteList := whiteList this;
     modelMetadata := modelMetadata this; sequelize := sequelize this |}.

Definition addQuery (this : GraphQLHelper) (queryHandler : GraphQLQueryHandler) : GraphQLHelper :=
  {| models := models this; customResolvers := customResolvers this;
     customTypes := customTypes this;
     customQueries := customQueries this ++ [queryHandler];
     customMutations := customMutations this;
     customSubscriptions := customSubscriptions this;
     blackList := blackList this; whiteList := whiteList this;
     modelMetadata := modelMetadata this; sequelize := sequelize this |}.

Definition addMutation (this : GraphQLHelper) (mutationHandler : GraphQLMutationHandler) : GraphQLHelper :=
  {| models := models this; customResolvers := customResolvers this;
     customTypes := customTypes this; customQueries := customQueries this;
     customMutations := customMutations this ++ [mutationHandler];
     customSubscriptions := customSubscriptions this;
     blackList := blackList this; whiteList := whiteList this;
     modelMetadata := modelMetadata this; sequelize := sequelize this |}.

Definition addSubscription (this : GraphQLHelper)
    (subscriptionHandler : GraphQLSubscriptionHandler) : GraphQLHelper :=
  {| models := models this; customResolvers := customResolvers this;
     customTypes := customTypes this; customQueries := customQueries this;
     customMutations := customMutations this;
     customSubscriptions := customSubscriptions this ++ [subscriptionHandler];
     blackList := blackList this; whiteList := whiteList this;
     modelMetadata := modelMetadata this; sequelize := sequelize this |}.

Definition addToBlackList (this : GraphQLHelper) (pattern : string) : GraphQLHelper :=
  {| models := models this; customResolvers := customResolvers this;
     customTypes := customTypes this; customQueries := customQueries this;
     customMutations := customMutations this;
     customSubscriptions := customSubscriptions this;
     blackList := {[ pattern ]} ∪ blackList this; whiteList := whiteList this;
     modelMetadata := modelMetadata this; sequelize := sequelize this |}.

Definition addToWhiteList (this : GraphQLHelper) (modelName : string) : GraphQLHelper :=
  {| models := models this; customResolvers := customResolvers this;
     customTypes := customTypes this; customQueries := customQueries this;
     customMutations := customMutations this;
     customSubscriptions := customSubscriptions this;
     blackList := blackList this; whiteList := {[ modelName ]} ∪ whiteList this;
     modelMetadata := modelMetadata this; sequelize := sequelize this |}.

(** The guard at the head of every loop over the registry:
    [this.whiteList.size > 0 && !this.whiteList.has(modelName)]. *)
Definition skipped (this : GraphQLHelper) (modelName : string) : bool :=
  (negb (bool_decide (whiteList this = ∅))
   && negb (bool_decide (modelName ∈ whiteList this)))%bool.

Definition isFieldBlacklisted (this : GraphQLHelper) (modelName fieldName : string) : bool :=
  (bool_decide (modelName +:+ "." +:+ fieldName ∈ blackList this)
   || bool_decide (fieldName ∈ blackList this)
   || bool_decide (modelName ∈ blackList this))%bool.

Definition typeMap : list (string * string) :=
  [ ("STRING", "String"); ("TEXT", "String"); ("INTEGER", "Int");
    ("BIGINT", "String"); ("FLOAT", "Float"); ("DOUBLE", "Float");
    ("DECIMAL", "Float"); ("BOOLEAN", "Boolean"); ("DATE", "String");
    ("DATEONLY", "String"); ("TIME", "String"); ("JSON", "String");
    ("UUID", "String") ].

Definition convertSequelizeAttributeToGraphQLField (name_ : string) (attr : Attribute)
    (fieldConfig : option GQLFieldConfig) : option GraphQLFieldType :=
  let sequelizeType :=
    str_or (opt_str_or (attr_type attr ≫= key)
                       (attr_type attr ≫= constructor_name)) "STRING" in
  let graphQLType := str_or (table_get typeMap sequelizeType) "String" in
  let isNullable_ :=
    match fieldConfig ≫= fc_nullable with
    | Some b => b
    | None => not_false (allowNull attr)
    end in
  let isList_ := truthy_bool (fieldConfig ≫= fc_list) in
  Some {| f_name := name_; f_type := graphQLType; isNullable := isNullable_;
          isList := isList_; isRelation := false;
          relationType := None; relatedModel := None |}.

Definition convertSequelizeAssociationToGraphQLField (name_ : string) (assoc : Association)
    (fieldConfig : option GQLFieldConfig) : option GraphQLFieldType :=
  match opt_str_or (target assoc ≫= target_name)
                   (targetModel assoc ≫= target_name) with
  | Some (String c r) =>
      let targetModel_ := String c r in
      let isList_ :=
        match fieldConfig ≫= fc_list with
        | Some b => b
        | None => (String.eqb (associationType assoc) "HasMany"
                   || String.eqb (associationType assoc) "BelongsToMany")%bool
        end in
      let isNullable_ :=
        match fieldConfig ≫= fc_nullable with
        | Some b => b
        | None => if String.eqb (associationType assoc) "BelongsTo" then false else true
        end in
      Some {| f_name := name_; f_type := targetModel_; isNullable := isNullable_;
              isList := isList_; isRelation := true;
              relationType := Some (associationType assoc);
              relatedModel := Some targetModel_ |}
  | _ => None
  end.

Definition fieldConfigsOf (this : GraphQLHelper) (modelName : string)
    : gmap string GQLFieldConfig :=
  match modelMetadata this !! modelName with
  | Some metadata => snd metadata
  | None => ∅
  end.

Definition modelConfigOf (this : GraphQLHelper) (modelName : string)
    : option GQLModelConfig :=
  fst <$> modelMetadata this !! modelName.

Definition extractModelFields (this : GraphQLHelper) (model : SequelizeModel)
    : list GraphQLFieldType :=
  let fieldConfigs := fieldConfigsOf this (sm_name model) in
  let fromAttributes :=
    omap (fun '(attrName, attrDef) =>
            if isFieldBlacklisted this (sm_name model) attrName then None else
            let fieldConfig := fieldConfigs !! attrName in
            if truthy_bool (fieldConfig ≫= fc_exclude) then None else
            convertSequelizeAttributeToGraphQLField attrName attrDef fieldConfig)
         (sm_attributes model) in
  let fromAssociations :=
    omap (fun '(assocName, assocDef) =>
            if isFieldBlacklisted this (sm_name model) assocName then None else
            let fieldConfig := fieldConfigs !! assocName in
            if truthy_bool (fieldConfig ≫= fc_exclude) then None else
            convertSequelizeAssociationToGraphQLField assocName assocDef fieldConfig)
         (sm_associations model) in
  fromAttributes ++ fromAssociations.

(** The type of a field as printed: list brackets, then [!] unless nullable. *)
Definition printedType (field : GraphQLFieldType) : string :=
  let fieldType := f_type field in
  let fieldType := if isList field then "[" +:+ fieldType +:+ "]" else fieldType in
  if isNullable field then fieldType +:+ "" else fieldType +:+ "!".

Definition fieldLines (fieldConfigs : gmap string GQLFieldConfig)
    (field : GraphQLFieldType) : list SDL.item :=
  let fieldConfig := fieldConfigs !! f_name field in
  (match fieldConfig ≫= fc_description with
   | Some (String c r) => [SDL.Doc "  " (String c r)]
   | _ => []
   end) ++ [SDL.FieldLine (f_name field) (printedType field)].

Definition generateModelType (this : GraphQLHelper) (model : SequelizeModel)
    : list SDL.item :=
  let fields := extractModelFields this model in
  let modelConfig := modelConfigOf this (sm_name model) in
  let fieldConfigs := fieldConfigsOf this (sm_name model) in
  let header :=
    match modelConfig ≫= description with
    | Some (String c r) =>
        let description_ := String c r in
        let description_ :=
          if truthy_bool (modelConfig ≫= authRequired)
          then description_ +:+ " (Requires authentication)" else description_ in
        [SDL.Doc "" description_]
    | _ =>
        if truthy_bool (modelConfig ≫= authRequired)
        then [SDL.Doc "" "Requires authentication"] else []
    end in
  header ++ [SDL.TypeOpen (sm_name model)]
    ++ flat_map (fun field =>
                   if isFieldBlacklisted this (sm_name model) (f_name field) then []
                   else fieldLines fieldConfigs field) fields
    ++ [SDL.Close].

Definition generateModelInputType (this : GraphQLHelper) (model : SequelizeModel)
    : list SDL.item :=
  let fields := extractModelFields this model in
  let fieldConfigs := fieldConfigsOf this (sm_name model) in
  [SDL.InputOpen (sm_name model)]
    ++ flat_map (fun field =>
                   if (isFieldBlacklisted this (sm_name model) (f_name field)
                       || isRelation field)%bool then []
                   else fieldLines fieldConfigs field) fields
    ++ [SDL.Close].

(** [{ query: true, mutation: true, subscription: true }] *)
Definition allOperations : GQLOperations :=
  {| op_query := Some true; op_mutation := Some true; op_subscription := Some true |}.

(** [modelConfig?.operations || { query: true, mutation: true, subscription: true }] *)
Definition operationsOf (this : GraphQLHelper) (modelName : string) : GQLOperations :=
  default allOperations (modelConfigOf this modelName ≫= operations).

Definition sp8 : string := "        ".
Definition sp12 : string := "            ".

(** One round of the loop of [generateRootTypes]: what a model adds to
    [queryFields], [mutationFields] and [subscriptionFields]. *)
Definition modelQueryFields (this : GraphQLHelper) (modelName : string) : list SDL.item :=
  if skipped this modelName then [] else
  let operations_ := operationsOf this modelName in
  let queryName := lowerFirst modelName in
  if truthy_bool (op_query operations_) then
    [ SDL.OpLine queryName "(id: String!)" modelName;
      SDL.OpLine (queryName +:+ "List")
        "(where: JSON, limit: Int, offset: Int, order: String)"
        ("[" +:+ modelName +:+ "]") ]
  else [].

Definition modelMutationFields (this : GraphQLHelper) (modelName : string) : list SDL.item :=
  if skipped this modelName then [] else
  let operations_ := operationsOf this modelName in
  if truthy_bool (op_mutation operations_) then
    [ SDL.OpLine ("create" +:+ modelName)
        ("(input: " +:+ modelName +:+ "Input!)") modelName;
      SDL.OpLine ("update" +:+ modelName)
        ("(id: String!, input: " +:+ modelName +:+ "Input!)") modelName;
      SDL.OpLine ("delete" +:+ modelName) "(id: String!)" "Boolean" ]
  else [].

Definition modelSubscriptionFields (this : GraphQLHelper) (modelName : string) : list SDL.item :=
  if skipped this modelName then [] else
  let operations_ := operationsOf this modelName in
  let queryName := lowerFirst modelName in
  if truthy_bool (op_subscription operations_) then
    [ SDL.OpLine (queryName +:+ "Created") "" modelName;
      SDL.OpLine (queryName +:+ "Updated") "" modelName;
      SDL.OpLine (queryName +:+ "Deleted") "(id: String!)" modelName ]
  else [].

Definition docLine (d : option string) : list SDL.item :=
  match d with
  | Some (String c r) => [SDL.Doc "  " (String c r)]
  | _ => []
  end.

Definition queryFields (this : GraphQLHelper) : list SDL.item :=
  flat_map (fun entry => modelQueryFields this (fst entry)) (models this)
    ++ flat_map (fun query =>
                   docLine (q_description query)
                     ++ [SDL.OpLine (q_name query) "" (q_type query)])
         (customQueries this).

Definition mutationFields (this : GraphQLHelper) : list SDL.item :=
  flat_map (fun entry => modelMutationFields this (fst entry)) (models this)
    ++ flat_map (fun mutation =>
                   let inputType :=
                     match m_inputType mutation with
                     | Some (String c r) => "(input: " +:+ String c r +:+ "!)"
                     | _ => ""
                     end in
                   docLine (m_description mutation)
                     ++ [SDL.OpLine (m_name mutation) inputType (m_outputType mutation)])
         (customMutations this).

Definition subscriptionFields (this : GraphQLHelper) : list SDL.item :=
  flat_map (fun entry => modelSubscriptionFields this (fst entry)) (models this)
    ++ flat_map (fun subscription =>
                   docLine (s_description subscription)
                     ++ [SDL.OpLine (s_name subscription) "" (s_type subscription)])
         (customSubscriptions this).

Definition generateRootTypes (this : GraphQLHelper) : list SDL.item :=
  [SDL.Raw (nl +:+ sp12 +:+ "type Query {" +:+ nl)]
    ++ queryFields this
    ++ [SDL.Raw (nl +:+ sp12 +:+ "}" +:+ nl +:+ sp12 +:+ "type Mutation {" +:+ nl)]
    ++ mutationFields this
    ++ [SDL.Raw (nl +:+ sp12 +:+ "}" +:+ nl +:+ sp12 +:+ "type Subscription {" +:+ nl)]
    ++ subscriptionFields this
    ++ [SDL.Raw (nl +:+ sp12 +:+ "}" +:+ nl +:+ sp8)].

(** The object types generated from the registry, in registration order. *)
Definition modelTypes (this : GraphQLHelper) : list SDL.item :=
  flat_map (fun '(modelName, model) =>
              if skipped this modelName then []
              else generateModelType this model ++ [SDL.Raw nl])
           (models this).

(** The input types generated from the registry. *)
Definition modelInputTypes (this : GraphQLHelper) : list SDL.item :=
  flat_map (fun '(modelName, model) =>
              if skipped this modelName then []
              else generateModelInputType this model ++ [SDL.Raw nl])
           (models this).

Definition generateTypeDefs_lines (this : GraphQLHelper) : list SDL.item :=
  [SDL.Raw ("scalar JSON" +:+ nl +:+ nl)]
    ++ map (fun type => SDL.Raw (type +:+ nl)) (customTypes this)
    ++ modelTypes this
    ++ modelInputTypes this
    ++ generateRootTypes this.

Definition generateTypeDefs (this : GraphQLHelper) : string :=
  SDL.render (generateTypeDefs_lines this).

(** *** Resolvers *)

Definition getModelClass (this : GraphQLHelper) (modelName : string) : option ModelHandle :=
  match sequelize this ≫= seq_models with
  | Some registered => OrmClass <$> registered !! modelName
  | None =>
      Descriptor <$>
        List.find (fun m => String.eqb (sm_name m) modelName) (map snd (models this))
  end.

(** A generated resolver: a closure over the helper ([this], read when the
    resolver is called) taking [(parent, args, context)]. *)
Definition Resolver := GraphQLHelper -> JSVal -> Obj -> Context -> Async ResolverResult.

Definition liftCustom (f : CustomFn) : Resolver := fun _ => f.

(** The authorization block that opens every CRUD resolver.  It yields the
    [where] of a structured, successful hook result, if there is one. *)
Definition authorize (modelConfig : option GQLModelConfig) (request conditions : JSVal)
    (operation : AuthOperation) : Async (option Obj) :=
  if truthy_bool (modelConfig ≫= authRequired) then
    match modelConfig ≫= authHandler with
    | None => Throw "Access denied"
    | Some handler =>
        match handler request conditions operation with
        | LegacyBool authResult =>
            if authResult then Ret None else Throw "Access denied"
        | Structured authResult =>
            if success authResult then Ret (auth_where authResult)
            else Throw "Access denied"
        end
    end
  else Ret None.

(** [if (authResult.where) whereConditions = { ...whereConditions, ...authResult.where }] *)
Definition mergeWhere (whereConditions : Obj) (hookWhere : option Obj) : Obj :=
  match hookWhere with
  | Some w => spread whereConditions w
  | None => whereConditions
  end.

Definition generateQueryResolver (model : SequelizeModel) : Resolver :=
  fun this parent args context =>
    match getModelClass this (sm_name model) with
    | None => Ret (Plain JNull)
    | Some ModelClass_ =>
        let modelConfig := modelConfigOf this (sm_name model) in
        let id := prop args "id" in
        let whereConditions : Obj := {[ "id" := id ]} in
        let* hookWhere :=
          authorize modelConfig (req context) (JObj whereConditions) OpQuery in
        let whereConditions := mergeWhere whereConditions hookWhere in
        let* result := callFindOne ModelClass_ {[ "where" := JObj whereConditions ]} in
        Ret (Plain (match result with
                    | Some r => toJSON r
                    | None => JNull
                    end))
    end.

(** [if (v) options.k = v] *)
Definition set_if_truthy (k : string) (v : JSVal) (options : Obj) : Obj :=
  if truthy v then <[k := v]> options else options.

Definition generateListQueryResolver (model : SequelizeModel) : Resolver :=
  fun this parent args context =>
    match getModelClass this (sm_name model) with
    | None => Ret (Plain (JArr []))
    | Some ModelClass_ =>
        let modelConfig := modelConfigOf this (sm_name model) in
        let where_ := prop args "where" in
        let limit := prop args "limit" in
        let offset := prop args "offset" in
        let order := prop args "order" in
        let inputWhere := where_ in
        let* hookWhere := authorize modelConfig (req context) inputWhere OpQuery in
        let inputWhere :=
          match hookWhere with
          | Some w => JObj (spread (own_props inputWhere) w)
          | None => inputWhere
          end in
        let options : Obj := <[ "where" := inputWhere ]> ∅ in
        let options := set_if_truthy "limit" limit options in
        let options := set_if_truthy "offset" offset options in
        let options := set_if_truthy "order" order options in
        let* results := callFindAll ModelClass_ options in
        Ret (Plain (JArr (map toJSON results)))
    end.

Definition generateCreateMutationResolver (model : SequelizeModel) : Resolver :=
  fun this parent args context =>
    match getModelClass this (sm_name model) with
    | None => Ret (Plain JNull)
    | Some ModelClass_ =>
        let modelConfig := modelConfigOf this (sm_name model) in
        let input := prop args "input" in
        let _input := JNull in
        let* _ := authorize modelConfig (req context) input OpCreate in
        let* created := callCreate ModelClass_ _input in
        Ret (Live created)
    end.

Definition generateUpdateMutationResolver (model : SequelizeModel) : Resolver :=
  fun this parent args context =>
    match getModelClass this (sm_name model) with
    | None => Ret (Plain JNull)
    | Some ModelClass_ =>
        let modelConfig := modelConfigOf this (sm_name model) in
        let id := prop args "id" in
        let input := prop args "input" in
        let whereConditions : Obj := {[ "id" := id ]} in
        let* hookWhere :=
          authorize modelConfig (req context) (JObj whereConditions) OpUpdate in
        let whereConditions := mergeWhere whereConditions hookWhere in
        let* instance := callFindOne ModelClass_ {[ "where" := JObj whereConditions ]} in
        match instance with
        | None => Ret (Plain JNull)
        | Some instance =>
            (* [await instance.update(input); return instance]: what [update]
               resolves to is dropped, the object of the lookup is returned *)
            AwaitUpdate instance input (fun _ => Ret (Live instance))
        end
    end.

Definition generateDeleteMutationResolver (model : SequelizeModel) : Resolver :=
  fun this parent args context =>
    match getModelClass this (sm_name model) with
    | None => Ret (Plain (JBool false))
    | Some ModelClass_ =>
        let modelConfig := modelConfigOf this (sm_name model) in
        let id := prop args "id" in
        let whereConditions : Obj := {[ "id" := id ]} in
        let* hookWhere :=
          authorize modelConfig (req context) (JObj whereConditions) OpDelete in
        let whereConditions := mergeWhere whereConditions hookWhere in
        let* instance := callFindOne ModelClass_ {[ "where" := JObj whereConditions ]} in
        match instance with
        | None => Ret (Plain (JBool false))
        | Some instance =>
            AwaitDestroy instance (fun _ => Ret (Plain (JBool true)))
        end
    end.

(** The resolver installed for an association field. *)
Definition associationResolver (assocName : string) : Resolver :=
  fun this parent args context => Ret (Plain (member parent assocName)).

Definition generateFieldResolvers (this : GraphQLHelper) (model : SequelizeModel)
    : gmap string Resolver :=
  foldl (fun resolvers '(assocName, assocDef) =>
           if isFieldBlacklisted this (sm_name model) assocName then resolvers
           else <[assocName := associationResolver assocName]> resolvers)
        ∅ (sm_associations model).

Abbreviation ResolverMap := (gmap string (gmap string Resolver)).

(** [resolvers[group]![key] = r] *)
Definition set_in (group key : string) (r : Resolver) (resolvers : ResolverMap)
    : ResolverMap :=
  <[group := <[key := r]> (default ∅ (resolvers !! group))]> resolvers.

(** [Object.assign(resolvers[group]!, source || {})] *)
Definition assign_in (group : string) (source : option (gmap string CustomFn))
    (resolvers : ResolverMap) : ResolverMap :=
  <[group := (liftCustom <$> default ∅ source) ∪ default ∅ (resolvers !! group)]>
    resolvers.

Definition isRootKey (k : string) : bool :=
  (String.eqb k "Query" || String.eqb k "Mutation" || String.eqb k "Subscription")%bool.

(** One round of the model loop of [generateResolvers]. *)
Definition addModelResolvers (this : GraphQLHelper) (resolvers : ResolverMap)
    (entry : string * SequelizeModel) : ResolverMap :=
  let '(modelName, model) := entry in
  if skipped this modelName then resolvers else
  let operations_ := operationsOf this modelName in
  let resolvers :=
    if truthy_bool (op_query operations_) then
      let queryName := lowerFirst modelName in
      set_in "Query" (queryName +:+ "List") (generateListQueryResolver model)
        (set_in "Query" queryName (generateQueryResolver model) resolvers)
    else resolvers in
  let resolvers :=
    if truthy_bool (op_mutation operations_) then
      set_in "Mutation" ("delete" +:+ modelName) (generateDeleteMutationResolver model)
        (set_in "Mutation" ("update" +:+ modelName) (generateUpdateMutationResolver model)
           (set_in "Mutation" ("create" +:+ modelName)
              (generateCreateMutationResolver model) resolvers))
    else resolvers in
  <[modelName := generateFieldResolvers this model]> resolvers.

(** One round of the loop that merges the contributed resolver objects. *)
Definition mergeCustomResolver (resolvers : ResolverMap) (customResolver : GraphQLResolver)
    : ResolverMap :=
  let resolvers := assign_in "Query" (customResolver !! "Query") resolvers in
  let resolvers := assign_in "Mutation" (customResolver !! "Mutation") resolvers in
  let resolvers := assign_in "Subscription" (customResolver !! "Subscription") resolvers in
  union_with (fun existing value => Some (value ∪ existing)) resolvers
    ((fun value : gmap string CustomFn => liftCustom <$> value)
       <$> filter (fun kv => isRootKey (fst kv) = false) customResolver).

Definition generateResolvers (this : GraphQLHelper) : ResolverMap :=
  let resolvers : ResolverMap :=
    <[ "Subscription" := ∅ ]> (<[ "Mutation" := ∅ ]> (<[ "Query" := ∅ ]> ∅)) in
  let resolvers := foldl (addModelResolvers this) resolvers (models this) in
  let resolvers := foldl mergeCustomResolver resolvers (customResolvers this) in
  let resolvers :=
    foldl (fun rs query => set_in "Query" (q_name query) (liftCustom (q_resolver query)) rs)
          resolvers (customQueries this) in
  let resolvers :=
    foldl (fun rs mutation =>
             set_in "Mutation" (m_name mutation) (liftCustom (m_resolver mutation)) rs)
          resolvers (customMutations this) in
  foldl (fun rs subscription =>
           set_in "Subscription" (s_name subscription)
             (liftCustom (s_resolver subscription)) rs)
        resolvers (customSubscriptions this).

Record Schema := { typeDefs : string; resolvers : ResolverMap }.

(** [getSchema()]: the schema, and the helper as the call leaves it. *)
Definition getSchema (this : GraphQLHelper) : Schema * GraphQLHelper :=
  let typeDefs_ := generateTypeDefs this in
  let resolvers_ := generateResolvers this in
  ({| typeDefs := typeDefs_; resolvers := resolvers_ |}, this).

End Helper.

(** ** [utils/schemaGenerator.ts] (the parts the properties below read) *)

Module SchemaGenerator.

(** [abstract/AbstractGraphQLModelConfig.ts] *)
Record AbstractGraphQLModelConfig := {
  modelName : string;
  config : GQLModelConfig
}.

Definition getTypeName (c : AbstractGraphQLModelConfig) : string :=
  str_or (typeName (config c)) (modelName c).

Definition getExcludeFields (c : AbstractGraphQLModelConfig) : list string :=
  default ["createdAt"; "updatedAt"] (excludeFields (config c)).

Definition sequelizeToGraphQLTypes : list (string * string) :=
  [ ("STRING", "String"); ("TEXT", "String"); ("INTEGER", "Int");
    ("BIGINT", "Int"); ("FLOAT", "Float"); ("DOUBLE", "Float");
    ("DECIMAL", "Float"); ("BOOLEAN", "Boolean"); ("DATE", "String");
    ("DATEONLY", "String"); ("TIME", "String"); ("JSON", "JSON");
    ("JSONB", "JSON"); ("UUID", "String"); ("ENUM", "String") ].

Record GraphQLSchemaGenerator := {
  blackList : list string
}.

Definition includes (l : list string) (x : string) : bool :=
  existsb (String.eqb x) l.

Definition getGraphQLType (attribute : Attribute) (fieldConfig : GQLFieldConfig) : string :=
  match fc_customType fieldConfig with
  | Some (String c r) => String c r
  | _ =>
      let baseType :=
        match attr_type attribute with
        | Some ty =>
            let sequelizeType := opt_str_or (constructor_name ty) (key ty) in
            str_or (sequelizeType ≫= table_get sequelizeToGraphQLTypes) "String"
        | None => "String"
        end in
      let baseType :=
        if truthy_bool (fc_list fieldConfig) then "[" +:+ baseType +:+ "]" else baseType in
      if (negb (truthy_bool (fc_nullable fieldConfig))
          && negb (truthy_bool (allowNull attribute)))%bool
      then baseType +:+ "!" else baseType
  end.

Definition getAssociationType (association : Association) : option string :=
  match target association ≫= target_name with
  | Some (String c r) =>
      let targetModel_ := String c r in
      let associationType_ := associationType association in
      if (String.eqb associationType_ "HasOne"
          || String.eqb associationType_ "BelongsTo")%bool then Some targetModel_
      else if (String.eqb associationType_ "HasMany"
               || String.eqb associationType_ "BelongsToMany")%bool
           then Some ("[" +:+ targetModel_ +:+ "]")
      else None
  | _ => None
  end.

Definition isFieldExcluded (this : GraphQLSchemaGenerator) (modelName_ fieldName : string)
    (config_ : option AbstractGraphQLModelConfig) : bool :=
  let excludeFields_ :=
    match config_ with
    | Some c => getExcludeFields c
    | None => ["createdAt"; "updatedAt"]
    end in
  (includes excludeFields_ fieldName
   || includes (blackList this) (modelName_ +:+ "." +:+ fieldName)
   || includes (blackList this) fieldName)%bool.

(** [config?.getTypeName() || modelName] *)
Definition typeNameOf (model : ModelClass) (config_ : option AbstractGraphQLModelConfig)
    : string :=
  str_or (getTypeName <$> config_) (name model).

(** The closures [generateModelResolvers] installs under
    [Mutation.create<Type>], [Mutation.update<Type>] and
    [Mutation.delete<Type>]; [model] is the ORM class itself. *)
Definition createMutation (model : ModelClass) : CustomFn :=
  fun parent args context =>
    AwaitCreate (name model) (prop args "input") (fun created => Ret (Live created)).

Definition updateMutation (model : ModelClass) (typeName_ : string) : CustomFn :=
  fun parent args context =>
    AwaitFindByPk (name model) (prop args "id") None (fun instance =>
      match instance with
      | None => Throw (typeName_ +:+ " not found")
      | Some instance =>
          AwaitUpdate instance (prop args "input") (fun updated => Ret (Live updated))
      end).

Definition deleteMutation (model : ModelClass) (typeName_ : string) : CustomFn :=
  fun parent args context =>
    AwaitFindByPk (name model) (prop args "id") None (fun instance =>
      match instance with
      | None => Throw (typeName_ +:+ " not found")
      | Some instance =>
          AwaitDestroy instance (fun _ => Ret (Plain (JBool true)))
      end).

(** The closure [generateFieldResolvers] installs for an association. *)
Definition associationResolver (model : ModelClass) (assocName : string) : CustomFn :=
  fun parent args context =>
    if negb (truthy (member parent assocName)) then
      AwaitFindByPk (name model) (member parent "id")
        (Some {[ "include" := JArr [JObj {[ "association" := JStr assocName ]}] ]})
        (fun instance =>
           Ret (Plain (match instance with
                       | Some i => prop (dataValues i) assocName
                       | None => JUndefined
                       end)))
    else Ret (Plain (member parent assocName)).

Definition generateFieldResolvers (this : GraphQLSchemaGenerator) (model : ModelClass)
    (config_ : option AbstractGraphQLModelConfig) : gmap string CustomFn :=
  let resolvers :=
    foldl (fun resolvers '(assocName, association) =>
             if isFieldExcluded this (name model) assocName config_ then resolvers
             else <[assocName := associationResolver model assocName]> resolvers)
          ∅ (default [] (associations model)) in
  foldl (fun resolvers '(fieldName, fieldConfig) =>
           match fc_resolver fieldConfig with
           | Some resolver => <[fieldName := resolver]> resolvers
           | None => resolvers
           end)
        resolvers
        (default [] (config_ ≫= (fun c => customFields (config c)))).

End SchemaGenerator.

(** ** Calling into a generated schema *)

(** Look a resolver up in the generated map, as the execution engine does. *)
Definition lookupResolver (rs : Helper.ResolverMap) (group field : string)
    : option Helper.Resolver :=
  rs !! group ≫= (fun fields => fields !! field).

(** An ORM over a database whose tables hold no rows. *)
Definition emptyTables : Orm unit :=
  {| findOne := fun _ _ db => (Returned None, db);
     findAll := fun _ _ db => (Returned [], db);
     findByPk := fun _ _ _ db => (Returned None, db);
     create := fun cls values db =>
       (Returned {| inst_class := cls; dataValues := own_props values |}, db);
     update := fun inst values db =>
       (Returned {| inst_class := inst_class inst;
                    dataValues := spread (dataValues inst) (own_props values) |}, db);
     destroy := fun _ db => (Returned tt, db) |}.

(** ** Sample models *)

Module Sample.

Definition column (ty : string) (allowNull_ : option bool) : Attribute :=
  {| attr_type := Some {| key := Some ty; constructor_name := Some ty |};
     allowNull := allowNull_ |}.

Definition belongsTo (other : string) : Association :=
  {| target := Some {| target_name := Some other |}; targetModel := None;
     associationType := "BelongsTo" |}.

(** [Post { id, title, authorId }] with an [author] association and no
    decorator. *)
Definition PostClass : ModelClass :=
  {| name := "Post";
     rawAttributes :=
       Some [ ("id", column "STRING" (Some false));
              ("title", column "STRING" None);
              ("authorId", column "STRING" (Some true)) ];
     attributes := None;
     associations := Some [ ("author", belongsTo "User") ];
     tableName := None; primaryKeyAttribute := None;
     gql_model := None; gql_fields := None |}.

(** [@GQLModel({ operations: { query: true, mutation: true } })] *)
Definition Post : ModelClass :=
  GQLModel
    {| typeName := None; description := None; exclude := None;
       operations := Some {| op_query := Some true; op_mutation := Some true;
                             op_subscription := None |};
       customFields := None; excludeFields := None;
       authRequired := None; authHandler := None |}
    PostClass.

(** [@GQLModel({ authRequired: true })]: no hook. *)
Definition Secret : ModelClass :=
  GQLModel
    {| typeName := None; description := None; exclude := None;
       operations := None; customFields := None; excludeFields := None;
       authRequired := Some true; authHandler := None |}
    {| name := "Secret";
       rawAttributes := Some [ ("id", column "STRING" (Some false)) ];
       attributes := None; associations := None;
       tableName := None; primaryKeyAttribute := None;
       gql_model := None; gql_fields := None |}.

(** A hook that admits everyone and confines them to their own rows. *)
Definition ownRows : AuthHandler :=
  fun _ _ _ =>
    Structured {| success := true;
                  auth_where := Some {[ "ownerId" := JStr "u1" ]};
                  allowedOperations := None |}.

(** [@GQLModel({ authRequired: true, authHandler: ownRows })] *)
Definition Note : ModelClass :=
  GQLModel
    {| typeName := None; description := None; exclude := None;
       operations := None; customFields := None; excludeFields := None;
       authRequired := Some true; authHandler := Some ownRows |}
    {| name := "Note";
       rawAttributes := Some [ ("id", column "STRING" (Some false));
                               ("ownerId", column "STRING" (Some false)) ];
       attributes := None; associations := None;
       tableName := None; primaryKeyAttribute := None;
       gql_model := None; gql_fields := None |}.

(** An ORM instance that knows [Post], [Secret] and [Note]. *)
Definition db : Sequelize :=
  {| seq_models :=
       Some (<[ "Post" := "Post" ]> (<[ "Secret" := "Secret" ]> {[ "Note" := "Note" ]})) |}.

(** An ORM instance that knows no model. *)
Definition emptyDb : Sequelize := {| seq_models := Some ∅ |}.

Definition registerAll (h : Helper.GraphQLHelper) : Helper.GraphQLHelper :=
  Helper.addModel (Helper.addModel (Helper.addModel h Post) Secret) Note.

Definition helper : Helper.GraphQLHelper := registerAll (Helper.new (Some db)).

(** The same registry with an ORM instance that lacks the models. *)
Definition detached : Helper.GraphQLHelper := registerAll (Helper.new (Some emptyDb)).

(** The descriptor [addModel] stores for a class. *)
Definition descriptorOf (h : Helper.GraphQLHelper) (n : string) : SequelizeModel :=
  default {| sm_name := n; sm_attributes := []; sm_associations := [];
             sm_tableName := n; sm_primaryKeyAttribute := "id" |}
          (snd <$> List.find (fun e => String.eqb (fst e) n) (Helper.models h)).

Definition context : Context := {| req := JObj {[ "user" := JStr "u1" ]} |}.

End Sample.


(** Call the resolver the schema of [this] installs under [group.field]. *)
Definition invoke (this : Helper.GraphQLHelper) (group field : string)
    (parent : JSVal) (args : Obj) (context : Context) : option (Async ResolverResult) :=
  (fun r => r this parent args context)
    <$> lookupResolver (Helper.resolvers (fst (Helper.getSchema this))) group field.

(** The helper as it would be had [modelName] never been registered. *)
Definition unregister (this : Helper.GraphQLHelper) (modelName : string)
    : Helper.GraphQLHelper :=
  Helper.with_models this
    (List.filter (fun entry => negb (String.eqb (fst entry) modelName)) (Helper.models this))
    (Helper.modelMetadata this).

(** Every entry of the registry is filed under the name of its model, as
    [addModel] files it. *)
Definition filedByName (this : Helper.GraphQLHelper) : Prop :=
  Forall (fun entry => sm_name (snd entry) = fst entry) (Helper.models this).

(** ** More sample data *)

Module Fixture.

(** A hook that turns everyone away, in the legacy boolean form. *)
Definition denyAll : AuthHandler := fun _ _ _ => LegacyBool false.

(** [@GQLModel({ authRequired: true, authHandler: denyAll })] *)
Definition Vault : ModelClass :=
  GQLModel
    {| typeName := None; description := None; exclude := None;
       operations := None; customFields := None; excludeFields := None;
       authRequired := Some true; authHandler := Some denyAll |}
    {| name := "Vault";
       rawAttributes := Some [ ("id", Sample.column "STRING" (Some false)) ];
       attributes := None; associations := None;
       tableName := None; primaryKeyAttribute := None;
       gql_model := None; gql_fields := None |}.

Definition hasMany (other : string) : Association :=
  {| target := Some {| target_name := Some other |}; targetModel := None;
     associationType := "HasMany" |}.

Definition hidden : GQLFieldConfig :=
  {| fc_type := None; fc_nullable := None; fc_list := None;
     fc_description := None; fc_resolver := None; fc_exclude := Some true;
     fc_customType := None; fc_operations := None |}.

(** [User { id, email, @GQLField({ exclude: true }) password }] with its
    [posts]. *)
Definition User : ModelClass :=
  GQLField hidden "password"
    (GQLModel emptyModelConfig
       {| name := "User";
          rawAttributes :=
            Some [ ("id", Sample.column "STRING" (Some false));
                   ("email", Sample.column "STRING" (Some false));
                   ("password", Sample.column "STRING" (Some false)) ];
          attributes := None;
          associations := Some [ ("posts", hasMany "Post") ];
          tableName := None; primaryKeyAttribute := None;
          gql_model := None; gql_fields := None |}).

Definition db : Sequelize :=
  {| seq_models :=
       Some (<[ "Post" := "Post" ]> (<[ "User" := "User" ]> {[ "Vault" := "Vault" ]})) |}.

Definition helper : Helper.GraphQLHelper :=
  Helper.addModel (Helper.addModel (Helper.addModel (Helper.new (Some db)) Sample.Post) User)
    Vault.

(** The same registry without an ORM instance. *)
Definition offline : Helper.GraphQLHelper :=
  Helper.addModel (Helper.addModel (Helper.addModel (Helper.new None) Sample.Post) User)
    Vault.



(** A contributed query that takes the name of a generated one. *)
Definition shadow : GraphQLQueryHandler :=
  {| q_name := "post"; q_type := "String";
     q_resolver := fun _ _ _ => Ret (Plain (JStr "custom"));
     q_description := None |}.

(** A contributed resolver object for the [author] field of [Post]. *)
Definition authorByHand : GraphQLResolver :=
  {[ "Post" := {[ "author" := (fun _ _ _ => Ret (Plain (JStr "by hand"))) : CustomFn ]} ]}.

End Fixture.

(** ** [utils/schemaGenerator.ts]: the generator as a whole *)

Module Generator.

(** What a resolver of this generator does: a program over the ORM as
    before, or the one call [model.count(options)] whose number it
    returns. *)
Inductive Program :=
| Crud (p : Async ResolverResult)
| CountRows (cls : string) (options : Obj).

Definition Fn := JSVal -> Obj -> Context -> Program.

Definition ofCustom (f : CustomFn) : Fn := fun parent args context => Crud (f parent args context).

(** A resolver object: type name, then field name. *)
Abbreviation ResolverTree := (gmap string (gmap string Fn)).

Record GraphQLSchemaGenerator := {
  models : list (string * ModelClass);
  modelConfigs : gmap string SchemaGenerator.AbstractGraphQLModelConfig;
  customResolvers : ResolverTree;
  customTypes : list string;
  blackList : list string
}.

Definition new : GraphQLSchemaGenerator :=
  {| models := []; modelConfigs := ∅; customResolvers := ∅; customTypes := [];
     blackList := [] |}.

(** [mergeObjects(target, source)] on resolver objects: a group of [source]
    is merged into the group of that name (created when missing), and a
    function of [source] takes the place of whatever [target] had. *)
Definition mergeObjects (target_ source : ResolverTree) : ResolverTree :=
  union_with (fun existing group => Some (group ∪ existing)) target_ source.

Definition addModel (this : GraphQLSchemaGenerator) (model : ModelClass)
    (config_ : option SchemaGenerator.AbstractGraphQLModelConfig) : GraphQLSchemaGenerator :=
  let modelName_ := name model in
  {| models := map_set modelName_ model (models this);
     modelConfigs :=
       match config_ with
       | Some c => <[modelName_ := c]> (modelConfigs this)
       | None => modelConfigs this
       end;
     customResolvers := customResolvers this; customTypes := customTypes this;
     blackList := blackList this |}.

Definition addResolvers (this : GraphQLSchemaGenerator) (resolvers : ResolverTree)
    : GraphQLSchemaGenerator :=
  {| models := models this; modelConfigs := modelConfigs this;
     customResolvers := mergeObjects (customResolvers this) resolvers;
     customTypes := customTypes this; blackList := blackList this |}.

Definition addCustomType (this : GraphQLSchemaGenerator) (typeDef : string)
    : GraphQLSchemaGenerator :=
  {| models := models this; modelConfigs := modelConfigs this;
     customResolvers := customResolvers this;
     customTypes := customTypes this ++ [typeDef]; blackList := blackList this |}.

Definition addToBlackList (this : GraphQLSchemaGenerator) (items : list string)
    : GraphQLSchemaGenerator :=
  {| models := models this; modelConfigs := modelConfigs this;
     customResolvers := customResolvers this; customTypes := customTypes this;
     blackList := blackList this ++ items |}.

(** The part of the generator that the field-level functions read. *)
Definition core (this : GraphQLSchemaGenerator) : SchemaGenerator.GraphQLSchemaGenerator :=
  {| SchemaGenerator.blackList := blackList this |}.

(** [abstract/AbstractGraphQLModelConfig.ts], the remaining accessors *)
Definition isExcluded (c : SchemaGenerator.AbstractGraphQLModelConfig) : bool :=
  truthy_bool (exclude (SchemaGenerator.config c)).

Definition queryOnly : GQLOperations :=
  {| op_query := Some true; op_mutation := Some false; op_subscription := Some false |}.

Definition getOperations (c : SchemaGenerator.AbstractGraphQLModelConfig) : GQLOperations :=
  default queryOnly (operations (SchemaGenerator.config c)).

Definition getCustomFields (c : SchemaGenerator.AbstractGraphQLModelConfig)
    : list (string * GQLFieldConfig) :=
  default [] (customFields (SchemaGenerator.config c)).

Definition isModelExcluded (this : GraphQLSchemaGenerator) (modelName_ : string) : bool :=
  (match modelConfigs this !! modelName_ with
   | Some c => isExcluded c
   | None => false
   end
   || SchemaGenerator.includes (blackList this) modelName_)%bool.

Definition toCamelCase (str : string) : string := lowerFirst str.

Definition sp4 : string := "    ".
Definition sp6 : string := "      ".
Definition sp8 : string := "        ".

Definition generateBaseTypeDefs : string :=
  nl +:+ sp6 +:+ "scalar JSON" +:+ nl
     +:+ sp6 +:+ "scalar DateTime" +:+ nl
     +:+ sp6 +:+ nl
     +:+ sp6 +:+ "type Query {" +:+ nl
     +:+ sp8 +:+ "_health: String" +:+ nl
     +:+ sp6 +:+ "}" +:+ nl
     +:+ sp6 +:+ nl
     +:+ sp6 +:+ "type Mutation {" +:+ nl
     +:+ sp8 +:+ "_dummy: String" +:+ nl
     +:+ sp6 +:+ "}" +:+ nl
     +:+ sp6 +:+ nl
     +:+ sp6 +:+ "type Subscription {" +:+ nl
     +:+ sp8 +:+ "_dummy: String" +:+ nl
     +:+ sp6 +:+ "}" +:+ nl
     +:+ sp6 +:+ nl
     +:+ sp4.

(** [s.replace(c, '')] for a one-character pattern: the first occurrence
    goes, later ones stay. *)
Fixpoint removeFirst (c : ascii) (s : string) : string :=
  match s with
  | EmptyString => EmptyString
  | String c' r => if Ascii.eqb c' c then r else String c' (removeFirst c r)
  end.

(** [(model as any).rawAttributes || {}] *)
Definition columnsOf (model : ModelClass) : list (string * Attribute) :=
  default [] (rawAttributes model).

(** [fieldsMetadata[fieldName] || {}] *)
Definition fieldConfigOf (model : ModelClass) (fieldName : string) : GQLFieldConfig :=
  default emptyFieldConfig (getGQLFields model !! fieldName).

Definition attributeLines (this : GraphQLSchemaGenerator) (model : ModelClass)
    (config_ : option SchemaGenerator.AbstractGraphQLModelConfig) : list SDL.item :=
  flat_map (fun '(fieldName, attribute) =>
              if SchemaGenerator.isFieldExcluded (core this) (name model) fieldName config_
              then []
              else [SDL.FieldLine fieldName
                      (SchemaGenerator.getGraphQLType attribute
                         (fieldConfigOf model fieldName))])
           (columnsOf model).

Definition associationLines (this : GraphQLSchemaGenerator) (model : ModelClass)
    (config_ : option SchemaGenerator.AbstractGraphQLModelConfig) : list SDL.item :=
  flat_map (fun '(assocName, association) =>
              if SchemaGenerator.isFieldExcluded (core this) (name model) assocName config_
              then []
              else match SchemaGenerator.getAssociationType association with
                   | Some (String c r) => [SDL.FieldLine assocName (String c r)]
                   | _ => []
                   end)
           (default [] (associations model)).

Definition customFieldLines (config_ : option SchemaGenerator.AbstractGraphQLModelConfig)
    : list SDL.item :=
  map (fun '(fieldName, fieldConfig) =>
         SDL.FieldLine fieldName (str_or (fc_customType fieldConfig) "String"))
      (default [] (getCustomFields <$> config_)).

Definition generateInputTypes (this : GraphQLSchemaGenerator) (model : ModelClass)
    (config_ : option SchemaGenerator.AbstractGraphQLModelConfig) : list SDL.item :=
  let typeName_ := SchemaGenerator.typeNameOf model config_ in
  [SDL.InputOpen typeName_]
    ++ flat_map (fun '(fieldName, attribute) =>
                   if SchemaGenerator.isFieldExcluded (core this) (name model) fieldName config_
                   then []
                   else if String.eqb fieldName "id" then []
                   else
                     let graphqlType :=
                       SchemaGenerator.getGraphQLType attribute (fieldConfigOf model fieldName) in
                     [SDL.FieldLine fieldName (removeFirst "!" graphqlType)])
         (columnsOf model)
    ++ [SDL.Close; SDL.Raw nl].

(** [config?.getOperations() || { query: true, mutation: false, subscription: false }] *)
Definition operationsFor (config_ : option SchemaGenerator.AbstractGraphQLModelConfig)
    : GQLOperations :=
  match config_ with
  | Some c => getOperations c
  | None => queryOnly
  end.

Definition generateModelOperations (model : ModelClass)
    (config_ : option SchemaGenerator.AbstractGraphQLModelConfig) : list SDL.item :=
  let modelName_ := name model in
  let typeName_ := SchemaGenerator.typeNameOf model config_ in
  let operations_ := operationsFor config_ in
  (if truthy_bool (op_query operations_) then
     [ SDL.Raw ("extend type Query {" +:+ nl);
       SDL.OpLine (toCamelCase modelName_) "(id: String!)" typeName_;
       SDL.OpLine (toCamelCase modelName_ +:+ "List")
         "(limit: Int, offset: Int, where: JSON)" ("[" +:+ typeName_ +:+ "]");
       SDL.OpLine (toCamelCase modelName_ +:+ "Count") "(where: JSON)" "Int";
       SDL.Close; SDL.Raw nl ]
   else [])
  ++ (if truthy_bool (op_mutation operations_) then
        [ SDL.Raw ("extend type Mutation {" +:+ nl);
          SDL.OpLine ("create" +:+ typeName_) ("(input: " +:+ typeName_ +:+ "Input!)")
            typeName_;
          SDL.OpLine ("update" +:+ typeName_)
            ("(id: String!, input: " +:+ typeName_ +:+ "Input!)") typeName_;
          SDL.OpLine ("delete" +:+ typeName_) "(id: String!)" "Boolean";
          SDL.Close; SDL.Raw nl ]
      else [])
  ++ (if truthy_bool (op_subscription operations_) then
        [ SDL.Raw ("extend type Subscription {" +:+ nl);
          SDL.OpLine (toCamelCase modelName_ +:+ "Updated") "(id: String)" typeName_;
          SDL.Close; SDL.Raw nl ]
      else []).

Definition generateModelTypeDef (this : GraphQLSchemaGenerator) (model : ModelClass)
    (config_ : option SchemaGenerator.AbstractGraphQLModelConfig) : list SDL.item :=
  let typeName_ := SchemaGenerator.typeNameOf model config_ in
  [SDL.TypeOpen typeName_]
    ++ attributeLines this model config_
    ++ associationLines this model config_
    ++ customFieldLines config_
    ++ [SDL.Close; SDL.Raw nl]
    ++ generateInputTypes this model config_
    ++ generateModelOperations model config_.

(** The three closures installed under [Query]. *)
Definition findOneQuery (model : ModelClass) : Fn :=
  fun parent args context =>
    Crud (AwaitFindByPk (name model) (prop args "id") None (fun found =>
            Ret (match found with
                 | Some instance => Live instance
                 | None => Plain JNull
                 end))).

Definition listQuery (model : ModelClass) : Fn :=
  fun parent args context =>
    let options : Obj := ∅ in
    let options := Helper.set_if_truthy "limit" (prop args "limit") options in
    let options := Helper.set_if_truthy "offset" (prop args "offset") options in
    let options := Helper.set_if_truthy "where" (prop args "where") options in
    Crud (AwaitFindAll (name model) options (fun found => Ret (LiveAll found))).

Definition countQuery (model : ModelClass) : Fn :=
  fun parent args context =>
    let options : Obj := ∅ in
    let options := Helper.set_if_truthy "where" (prop args "where") options in
    CountRows (name model) options.

(** [if (!resolvers[group]) resolvers[group] = {}], then the assignments. *)
Definition install (group : string) (entries : list (string * Fn)) (resolvers : ResolverTree)
    : ResolverTree :=
  <[group := foldl (fun fields '(k, fn) => <[k := fn]> fields)
                   (default ∅ (resolvers !! group)) entries]> resolvers.

Definition generateModelResolvers (this : GraphQLSchemaGenerator) (model : ModelClass)
    (config_ : option SchemaGenerator.AbstractGraphQLModelConfig) : ResolverTree :=
  let modelName_ := name model in
  let typeName_ := SchemaGenerator.typeNameOf model config_ in
  let operations_ := operationsFor config_ in
  let resolvers : ResolverTree :=
    {[ typeName_ := ofCustom <$> SchemaGenerator.generateFieldResolvers (core this) model config_ ]} in
  let resolvers :=
    if truthy_bool (op_query operations_) then
      install "Query"
        [ (toCamelCase modelName_, findOneQuery model);
          (toCamelCase modelName_ +:+ "List", listQuery model);
          (toCamelCase modelName_ +:+ "Count", countQuery model) ]
        resolvers
    else resolvers in
  if truthy_bool (op_mutation operations_) then
    install "Mutation"
      [ ("create" +:+ typeName_, ofCustom (SchemaGenerator.createMutation model));
        ("update" +:+ typeName_, ofCustom (SchemaGenerator.updateMutation model typeName_));
        ("delete" +:+ typeName_, ofCustom (SchemaGenerator.deleteMutation model typeName_)) ]
      resolvers
  else resolvers.

(** [l.join(sep)] *)
Fixpoint join (sep : string) (l : list string) : string :=
  match l with
  | [] => ""
  | [x] => x
  | x :: r => x +:+ sep +:+ join sep r
  end.

Record GraphQLSchema := { typeDefs : string; resolvers : ResolverTree }.

(** The lines of [typeDefs] that come from the registered models. *)
Definition modelTypeDefs (this : GraphQLSchemaGenerator) : list SDL.item :=
  flat_map (fun '(modelName_, model) =>
              if isModelExcluded this modelName_ then []
              else generateModelTypeDef this model (modelConfigs this !! modelName_))
           (models this).

(** The resolver object as the loop over the models leaves it. *)
Definition modelResolvers (this : GraphQLSchemaGenerator) : ResolverTree :=
  foldl (fun resolvers '(modelName_, model) =>
           if isModelExcluded this modelName_ then resolvers
           else mergeObjects resolvers
                  (generateModelResolvers this model (modelConfigs this !! modelName_)))
        (<[ "Subscription" := ∅ ]> (<[ "Mutation" := ∅ ]> (<[ "Query" := ∅ ]> ∅)))
        (models this).

Definition generateSchema (this : GraphQLSchemaGenerator) : GraphQLSchema :=
  {| typeDefs :=
       generateBaseTypeDefs +:+ SDL.render (modelTypeDefs this)
         +:+ join nl (customTypes this);
     resolvers := mergeObjects (modelResolvers this) (customResolvers this) |}.

(** The generator as it would be had [modelName_] never been added. *)
Definition forget (this : GraphQLSchemaGenerator) (modelName_ : string)
    : GraphQLSchemaGenerator :=
  {| models :=
       List.filter (fun entry => negb (String.eqb (fst entry) modelName_)) (models this);
     modelConfigs := modelConfigs this; customResolvers := customResolvers this;
     customTypes := customTypes this; blackList := blackList this |}.

(** How often a character occurs in a text. *)
Fixpoint occurrences (c : ascii) (s : string) : nat :=
  match s with
  | EmptyString => 0%nat
  | String c' r => ((if Ascii.eqb c' c then 1 else 0) + occurrences c r)%nat
  end.

End Generator.

(** ** [AppGraphQLMain.ts]: what the application registers before it builds
    the schema *)

Module App.

Record GraphQLAppConfig := {
  endpoint : option string;
  playground : option bool;
  introspection : option bool;
  enableMutations : option bool
}.

Record AppGraphQL := {
  graphqlHelper : Helper.GraphQLHelper;
  config : GraphQLAppConfig;
  models : list ModelClass;
  customResolvers : list GraphQLResolver;
  customTypes : list string;
  customQueries : list GraphQLQueryHandler;
  customMutations : list GraphQLMutationHandler;
  customSubscriptions : list GraphQLSubscriptionHandler;
  whiteListedModels : list string;
  blackListedFields : list string
}.

(** The collections the application manager gathered from all apps, each a
    list of [{ appId, item }]. *)
Record CollectionStorage := {
  storedQueries : option (list (string * GraphQLQueryHandler));
  storedMutations : option (list (string * GraphQLMutationHandler));
  storedSubscriptions : option (list (string * GraphQLSubscriptionHandler));
  storedTypes : option (list (string * string))
}.

Definition orElse {A} (a b : option A) : option A :=
  match a with
  | Some x => Some x
  | None => b
  end.

(** [new AppGraphQL(appManager, config)] *)
Definition constructor (sequelize_ : option Sequelize) (config_ : GraphQLAppConfig)
    : AppGraphQL :=
  {| graphqlHelper := Helper.new sequelize_;
     config :=
       {| endpoint := orElse (endpoint config_) (Some "/graphql");
          playground := orElse (playground config_) (Some true);
          introspection := orElse (introspection config_) (Some true);
          enableMutations := orElse (enableMutations config_) (Some false) |};
     models := []; customResolvers := []; customTypes := [];
     customQueries := []; customMutations := []; customSubscriptions := [];
     whiteListedModels := []; blackListedFields := [] |}.

Definition withHelper (this : AppGraphQL) (h : Helper.GraphQLHelper) : AppGraphQL :=
  {| graphqlHelper := h; config := config this; models := models this;
     customResolvers := customResolvers this; customTypes := customTypes this;
     customQueries := customQueries this; customMutations := customMutations this;
     customSubscriptions := customSubscriptions this;
     whiteListedModels := whiteListedModels this;
     blackListedFields := blackListedFields this |}.

Definition processModels (this : AppGraphQL) : AppGraphQL :=
  withHelper this (foldl Helper.addModel (graphqlHelper this) (models this)).

Definition processCustomResolvers (this : AppGraphQL) : AppGraphQL :=
  withHelper this (foldl Helper.addResolver (graphqlHelper this) (customResolvers this)).

Definition processCustomTypes (this : AppGraphQL) : AppGraphQL :=
  withHelper this (foldl Helper.addType (graphqlHelper this) (customTypes this)).

Definition processCustomQueries (this : AppGraphQL) : AppGraphQL :=
  withHelper this (foldl Helper.addQuery (graphqlHelper this) (customQueries this)).

Definition processCustomMutations (this : AppGraphQL) : AppGraphQL :=
  withHelper this (foldl Helper.addMutation (graphqlHelper this) (customMutations this)).

Definition processCustomSubscriptions (this : AppGraphQL) : AppGraphQL :=
  withHelper this
    (foldl Helper.addSubscription (graphqlHelper this) (customSubscriptions this)).

Definition processWhiteList (this : AppGraphQL) : AppGraphQL :=
  withHelper this (foldl Helper.addToWhiteList (graphqlHelper this) (whiteListedModels this)).

Definition processBlackList (this : AppGraphQL) : AppGraphQL :=
  withHelper this (foldl Helper.addToBlackList (graphqlHelper this) (blackListedFields this)).

Definition processAllAppCollections (this : AppGraphQL)
    (collectionStorage : option CollectionStorage) : AppGraphQL :=
  match collectionStorage with
  | None => this
  | Some storage =>
      let h := graphqlHelper this in
      let h := foldl (fun h queryItem => Helper.addQuery h (snd queryItem)) h
                 (default [] (storedQueries storage)) in
      let h := foldl (fun h mutationItem => Helper.addMutation h (snd mutationItem)) h
                 (default [] (storedMutations storage)) in
      let h := foldl (fun h subscriptionItem => Helper.addSubscription h (snd subscriptionItem))
                 h (default [] (storedSubscriptions storage)) in
      let h := foldl (fun h typeItem => Helper.addType h (snd typeItem)) h
                 (default [] (storedTypes storage)) in
      withHelper this h
  end.

(** [mount()], up to the schema it hands to the execution engine. *)
Definition register (this : AppGraphQL) (collectionStorage : option CollectionStorage)
    : AppGraphQL :=
  let this := processModels this in
  let this := processCustomResolvers this in
  let this := processCustomTypes this in
  let this := processCustomQueries this in
  let this := processCustomMutations this in
  let this := processCustomSubscriptions this in
  let this := processWhiteList this in
  let this := processBlackList this in
  processAllAppCollections this collectionStorage.

Definition mountSchema (this : AppGraphQL) (collectionStorage : option CollectionStorage)
    : Helper.Schema :=
  fst (Helper.getSchema (graphqlHelper (register this collectionStorage))).

(** The public [addModel(model)] *)
Definition addModel (this : AppGraphQL) (model : ModelClass) : AppGraphQL :=
  {| graphqlHelper := Helper.addModel (graphqlHelper this) model;
     config := config this; models := models this ++ [model];
     customResolvers := customResolvers this; customTypes := customTypes this;
     customQueries := customQueries this; customMutations := customMutations this;
     customSubscriptions := customSubscriptions this;
     whiteListedModels := whiteListedModels this;
     blackListedFields := blackListedFields this |}.

(** [handlers/GQLModelHandler.ts], [process]: an item is a model class, or
    not one ([None]). *)
Definition processItems (graphqlApp : AppGraphQL) (collectionItems : list (string * option ModelClass))
    : AppGraphQL :=
  foldl (fun app collectionItem =>
           match snd collectionItem with
           | None => app
           | Some model =>
               let modelMetadata := getGQLModelMetadata model in
               if negb (truthy_bool (exclude modelMetadata)) then addModel app model
               else app
           end)
        graphqlApp collectionItems.

End App.

Module AppFixture.

(** An application with two models, one of them blacklisted by name, and the
    default configuration. *)
Definition app : App.AppGraphQL :=
  let fresh :=
    App.constructor (Some Sample.db)
      {| App.endpoint := None; App.playground := None; App.introspection := None;
         App.enableMutations := None |} in
  {| App.graphqlHelper := App.graphqlHelper fresh; App.config := App.config fresh;
     App.models := [Sample.Post; Sample.Secret];
     App.customResolvers := []; App.customTypes := [];
     App.customQueries := []; App.customMutations := []; App.customSubscriptions := [];
     App.whiteListedModels := []; App.blackListedFields := ["Post"] |}.

End AppFixture.

(** ** [utils/configGenerator.ts] *)

Module ConfigGenerator.

Record GenerateGraphQLConfigOptions := {
  opt_excludeFields : option (list string);
  override : option GQLModelConfig;
  enableOperations : option GQLOperations
}.

(** [options = {}] *)
Definition noOptions : GenerateGraphQLConfigOptions :=
  {| opt_excludeFields := None; override := None; enableOperations := None |}.

(** [Array.from(new Set(l))]: the first occurrence of each element. *)
Fixpoint uniq (l : list string) : list string :=
  match l with
  | [] => []
  | x :: r => x :: List.filter (fun y => negb (String.eqb y x)) (uniq r)
  end.

(** A property of [{ ...a, ...b }] where [a] and [b] are partial objects:
    the one of [b] when [b] has it. *)
Definition later {A} (a b : option A) : option A :=
  match b with
  | Some x => Some x
  | None => a
  end.

(** [{ query: true, mutation: false, subscription: false,
      ...modelMeta.operations, ...options.enableOperations }] *)
Definition mergedOperations (fromMeta fromOptions : option GQLOperations) : GQLOperations :=
  let flag (get : GQLOperations -> option bool) (start : bool) :=
    later (later (Some start) (fromMeta ≫= get)) (fromOptions ≫= get) in
  {| op_query := flag op_query true;
     op_mutation := flag op_mutation false;
     op_subscription := flag op_subscription false |}.

(** The object literal that opens [generateGraphQLModelConfig]. *)
Definition initialConfig (modelClass : ModelClass) (options : GenerateGraphQLConfigOptions)
    : GQLModelConfig :=
  let modelMeta := getGQLModelMetadata modelClass in
  let exclude_ := uniq (default ["createdAt"; "updatedAt"] (opt_excludeFields options)) in
  let fromOverride {A} (get : GQLModelConfig -> option A) : option A := override options ≫= get in
  {| typeName :=
       later (later (Some (default (name modelClass) (typeName modelMeta)))
                    (fromOverride typeName))
             (typeName modelMeta);
     description :=
       later (later (description modelMeta) (fromOverride description))
             (description modelMeta);
     exclude :=
       later (later (Some (default false (exclude modelMeta))) (fromOverride exclude))
             (exclude modelMeta);
     operations :=
       later (later (Some (mergedOperations (operations modelMeta) (enableOperations options)))
                    (fromOverride operations))
             (operations modelMeta);
     customFields :=
       later (later (Some []) (fromOverride customFields)) (customFields modelMeta);
     excludeFields :=
       later (later (Some exclude_) (fromOverride excludeFields)) (excludeFields modelMeta);
     authRequired := later (fromOverride authRequired) (authRequired modelMeta);
     authHandler := later (fromOverride authHandler) (authHandler modelMeta) |}.

Definition pushExcluded (config_ : GQLModelConfig) (fieldName : string) : GQLModelConfig :=
  {| typeName := typeName config_; description := description config_;
     exclude := exclude config_; operations := operations config_;
     customFields := customFields config_;
     excludeFields := Some (default [] (excludeFields config_) ++ [fieldName]);
     authRequired := authRequired config_; authHandler := authHandler config_ |}.

Definition setCustomField (config_ : GQLModelConfig) (fieldName : string)
    (fieldConfig : GQLFieldConfig) : GQLModelConfig :=
  {| typeName := typeName config_; description := description config_;
     exclude := exclude config_; operations := operations config_;
     customFields := Some (map_set fieldName fieldConfig (default [] (customFields config_)));
     excludeFields := excludeFields config_;
     authRequired := authRequired config_; authHandler := authHandler config_ |}.

(** One round of the loop over the decorated fields. *)
Definition processField (exclude_ : list string) (config_ : GQLModelConfig)
    (entry : string * GQLFieldConfig) : GQLModelConfig :=
  let '(fieldName, fieldConfig) := entry in
  if SchemaGenerator.includes exclude_ fieldName then pushExcluded config_ fieldName
  else if truthy_bool (fc_exclude fieldConfig) then pushExcluded config_ fieldName
  else if (match fc_resolver fieldConfig with Some _ => true | None => false end
           || truthy_str (fc_customType fieldConfig))%bool
       then setCustomField config_ fieldName fieldConfig
  else config_.

(** [generateGraphQLModelConfig(modelClass, options)], as the configuration
    it returns; the decorated fields are visited in the order in which the
    metadata map enumerates them.  (That a list taken over from the
    decorator or from [override] is also extended in place is outside this
    definition.) *)
Definition generateGraphQLModelConfig (modelClass : ModelClass)
    (options : GenerateGraphQLConfigOptions) : SchemaGenerator.AbstractGraphQLModelConfig :=
  let fieldMeta := getGQLFields modelClass in
  let exclude_ := uniq (default ["createdAt"; "updatedAt"] (opt_excludeFields options)) in
  let config_ := initialConfig modelClass options in
  let config_ := foldl (processField exclude_) config_ (map_to_list fieldMeta) in
  {| SchemaGenerator.modelName := name modelClass; SchemaGenerator.config := config_ |}.

(** [generateGraphQLModelConfigs(models, options)] *)
Definition generateGraphQLModelConfigs (models : list ModelClass)
    (options : GenerateGraphQLConfigOptions)
    : list SchemaGenerator.AbstractGraphQLModelConfig :=
  map (fun model => generateGraphQLModelConfig model options) models.

(** [createGraphQLModelConfig(modelClass, config)] *)
Definition createGraphQLModelConfig (modelClass : ModelClass) (config_ : GQLModelConfig)
    : SchemaGenerator.AbstractGraphQLModelConfig :=
  {| SchemaGenerator.modelName := name modelClass; SchemaGenerator.config := config_ |}.

End ConfigGenerator.


Module ConfigFixture.

(** [@GQLField({ customType: 'Upload' })] *)
Definition upload : GQLFieldConfig :=
  {| fc_type := None; fc_nullable := None; fc_list := None;
     fc_description := None; fc_resolver := None; fc_exclude := None;
     fc_customType := Some "Upload"; fc_operations := None |}.

(** [Fixture.User] with one more decorated property, [avatar]. *)
Definition Account : ModelClass := GQLField upload "avatar" Fixture.User.

End ConfigFixture.
(** * Properties *)

(** ** Object spread *)



(** ** The authorization block *)

Lemma authorize_off (cfg : option GQLModelConfig) req conds op :
  truthy_bool (cfg ≫= authRequired) = false ->
  Helper.authorize cfg req conds op = Ret None.
Proof.
  intros H. unfold Helper.authorize. rewrite H. reflexivity.
Qed.

Lemma authorize_no_hook (cfg : GQLModelConfig) req conds op :
  authRequired cfg = Some true -> authHandler cfg = None ->
  Helper.authorize (Some cfg) req conds op = Throw "Access denied".
Proof.
  intros Hr Hh. unfold Helper.authorize. simpl. rewrite Hr, Hh. reflexivity.
Qed.


(** Every outcome of the block: it lets the resolver go on, with or without
    a [where] from the hook, or it throws the access-denied error. *)
Lemma authorize_cases (cfg : option GQLModelConfig) req conds op :
  (exists hw, Helper.authorize cfg req conds op = Ret hw)
  \/ Helper.authorize cfg req conds op = Throw "Access denied".
Proof.
  unfold Helper.authorize.
  destruct (truthy_bool (cfg ≫= authRequired)); [|left; eauto].
  destruct (cfg ≫= authHandler) as [hook|]; [|right; reflexivity].
  destruct (hook req conds op) as [[]|r]; [left; eauto|right; reflexivity|].
  destruct (success r); [left; eauto|right; reflexivity].
Qed.

(** ** C1 *)

(** C1 (the code departs from it): the create resolver of [GraphQLHelper]
    should call the ORM's [create] with the caller's [input].  For
    [createPost(input: { title: "Hello" })] the generated resolver calls
    [Post.create(null)]: the value it passes is the local [_input], which is
    never assigned from [input], and over an empty database the row that
    comes back carries none of the fields of the input. *)
Theorem create_resolver_passes_null :
  let args : Obj := {[ "input" := JObj {[ "title" := JStr "Hello" ]} ]} in
  (first_call <$> invoke Sample.helper "Mutation" "createPost" JUndefined args Sample.context)
    = Some (Some (CallCreate "Post" JNull))
  /\ ((fun p => run emptyTables p tt)
        <$> invoke Sample.helper "Mutation" "createPost" JUndefined args Sample.context)
     = Some (Returned (Live {| inst_class := "Post"; dataValues := ∅ |}),
             tt, [CallCreate "Post" JNull]).
Proof.
  split; vm_compute; reflexivity.
Qed.

(** Whatever the input is, an authorized create passes [null] to the ORM. *)
Lemma create_resolver_ignores_input (this : Helper.GraphQLHelper) (model : SequelizeModel)
    (cls : string) parent (args : Obj) context :
  Helper.getModelClass this (sm_name model) = Some (OrmClass cls) ->
  first_call (Helper.generateCreateMutationResolver model this parent args context)
    = Some (CallCreate cls JNull)
  \/ Helper.generateCreateMutationResolver model this parent args context
     = Throw "Access denied".
Proof.
  intros Hcls. unfold Helper.generateCreateMutationResolver. rewrite Hcls.
  destruct (authorize_cases (Helper.modelConfigOf this (sm_name model))
              (req context) (prop args "input") OpCreate) as [[hw ->]| ->].
  - left. reflexivity.
  - right. reflexivity.
Qed.

(** ** C2 *)

(** C2, as stated, fails when the resolver cannot obtain its model handle:
    [Secret] requires authorization and has no hook, but with an ORM
    instance that does not know [Secret] the single-query resolver returns
    [null] and does not throw. *)
Lemma missing_hook_without_handle_returns_null :
  (Helper.modelConfigOf Sample.detached "Secret" ≫= authRequired) = Some true
  /\ (Helper.modelConfigOf Sample.detached "Secret" ≫= authHandler) = None
  /\ invoke Sample.detached "Query" "secret" JUndefined {[ "id" := JStr "7" ]} Sample.context
     = Some (Ret (Plain JNull))
  /\ invoke Sample.detached "Query" "secret" JUndefined {[ "id" := JStr "7" ]} Sample.context
     <> Some (Throw "Access denied").
Proof.
  repeat split; try (vm_compute; reflexivity).
  vm_compute. discriminate.
Qed.

(** C2 (amended): for a model whose metadata has [authRequired: true] and no
    [authHandler], each of the five CRUD resolvers throws the access-denied
    error whenever its model handle resolves, and returns its empty result
    ([null], [[]], [false]) when it does not; in both cases the resolver is
    over before any ORM operation. *)
Theorem missing_hook_fails_closed (this : Helper.GraphQLHelper) (model : SequelizeModel)
    (cfg : GQLModelConfig) (parent : JSVal) (args : Obj) (context : Context) :
  Helper.modelConfigOf this (sm_name model) = Some cfg ->
  authRequired cfg = Some true ->
  authHandler cfg = None ->
  match Helper.getModelClass this (sm_name model) with
  | Some _ =>
      Helper.generateQueryResolver model this parent args context = Throw "Access denied"
      /\ Helper.generateListQueryResolver model this parent args context
         = Throw "Access denied"
      /\ Helper.generateCreateMutationResolver model this parent args context
         = Throw "Access denied"
      /\ Helper.generateUpdateMutationResolver model this parent args context
         = Throw "Access denied"
      /\ Helper.generateDeleteMutationResolver model this parent args context
         = Throw "Access denied"
  | None =>
      Helper.generateQueryResolver model this parent args context = Ret (Plain JNull)
      /\ Helper.generateListQueryResolver model this parent args context
         = Ret (Plain (JArr []))
      /\ Helper.generateCreateMutationResolver model this parent args context
         = Ret (Plain JNull)
      /\ Helper.generateUpdateMutationResolver model this parent args context
         = Ret (Plain JNull)
      /\ Helper.generateDeleteMutationResolver model this parent args context
         = Ret (Plain (JBool false))
  end.
Proof.
  intros Hcfg Hreq Hhook.
  unfold Helper.generateQueryResolver, Helper.generateListQueryResolver,
    Helper.generateCreateMutationResolver, Helper.generateUpdateMutationResolver,
    Helper.generateDeleteMutationResolver.
  destruct (Helper.getModelClass this (sm_name model)) as [hd|].
  - rewrite Hcfg. rewrite !(authorize_no_hook cfg) by assumption.
    repeat split; reflexivity.
  - repeat split; reflexivity.
Qed.

Lemma missing_hook_fails_closed_witness :
  let cfg := getGQLModelMetadata Sample.Secret in
  let model := Sample.descriptorOf Sample.helper "Secret" in
  Helper.modelConfigOf Sample.helper (sm_name model) = Some cfg
  /\ authRequired cfg = Some true
  /\ authHandler cfg = None
  /\ Helper.getModelClass Sample.helper (sm_name model) = Some (OrmClass "Secret")
  /\ Helper.generateDeleteMutationResolver model Sample.helper JUndefined
       {[ "id" := JStr "7" ]} Sample.context
     = Throw "Access denied".
Proof.
  intros cfg model.
  pose proof (missing_hook_fails_closed Sample.helper model cfg
                JUndefined {[ "id" := JStr "7" ]} Sample.context
                eq_refl eq_refl eq_refl) as H.
  assert (E : Helper.getModelClass Sample.helper (sm_name model) = Some (OrmClass "Secret"))
    by (vm_compute; reflexivity).
  rewrite E in H.
  split; [reflexivity|]. split; [reflexivity|]. split; [reflexivity|].
  split; [exact E|]. apply H.
Defined.

(** ** C3 *)

Lemma set_if_truthy_other (k k' : string) (v : JSVal) (options : Obj) :
  k <> k' -> Helper.set_if_truthy k v options !! k' = options !! k'.
Proof.
  intros Hne. unfold Helper.set_if_truthy.
  destruct (truthy v); [apply lookup_insert_ne; exact Hne | reflexivity].
Qed.




(** The hook's key wins over the caller's: a list query that asks for the
    rows of owner [u2] is answered from the rows of owner [u1]. *)
Lemma hook_overrides_caller_filter :
  (first_call
     <$> invoke Sample.helper "Query" "noteList" JUndefined
           {[ "where" := JObj (<[ "ownerId" := JStr "u2" ]> {[ "status" := JStr "open" ]}) ]}
           Sample.context)
  = Some (Some (CallFindAll "Note"
                  {[ "where" := JObj (<[ "ownerId" := JStr "u1" ]>
                                        {[ "status" := JStr "open" ]}) ]})).
Proof. vm_compute. reflexivity. Qed.

(** ** C5 *)

(** C5, as stated, fails on the resolvers of [GraphQLHelper]: over a
    database without rows, [deletePost(id: "7")] looks the row up, finds
    none, and returns [false]; [updatePost] returns [null].  Neither
    throws. *)
Lemma delete_of_missing_row_returns_false :
  ((fun p => run emptyTables p tt)
     <$> invoke Sample.helper "Mutation" "deletePost" JUndefined
           {[ "id" := JStr "7" ]} Sample.context)
  = Some (Returned (Plain (JBool false)), tt,
          [CallFindOne "Post" {[ "where" := JObj {[ "id" := JStr "7" ]} ]}])
  /\ ((fun p => fst (fst (run emptyTables p tt)))
        <$> invoke Sample.helper "Mutation" "updatePost" JUndefined
              {[ "id" := JStr "7" ]} Sample.context)
     = Some (Returned (Plain JNull)).
Proof.
  split; vm_compute; reflexivity.
Qed.

(** C5 (amended): when no row matches, the update and delete resolvers of
    [GraphQLSchemaGenerator] throw ["<Type> not found"], while those of
    [GraphQLHelper] return [null] (update) and [false] (delete); and a
    resolver of [GraphQLHelper] whose model handle does not resolve returns
    its empty result ([null], [[]], [false]) without throwing. *)
Theorem not_found_and_unknown_model (this : Helper.GraphQLHelper) (model : SequelizeModel)
    (cls : ModelClass) (typeName_ : string)
    (parent : JSVal) (args : Obj) (context : Context) :
  (* GraphQLSchemaGenerator *)
  (exists k,
     SchemaGenerator.updateMutation cls typeName_ parent args context
     = AwaitFindByPk (name cls) (prop args "id") None k
     /\ k None = Throw (typeName_ +:+ " not found"))
  /\ (exists k,
        SchemaGenerator.deleteMutation cls typeName_ parent args context
        = AwaitFindByPk (name cls) (prop args "id") None k
        /\ k None = Throw (typeName_ +:+ " not found"))
  (* GraphQLHelper, no matching row *)
  /\ (forall c options k,
        Helper.generateUpdateMutationResolver model this parent args context
        = AwaitFindOne c options k ->
        k None = Ret (Plain JNull))
  /\ (forall c options k,
        Helper.generateDeleteMutationResolver model this parent args context
        = AwaitFindOne c options k ->
        k None = Ret (Plain (JBool false)))
  (* GraphQLHelper, the lookup is reached whenever the handle is an ORM
     class and authorization lets the call through *)
  /\ (forall c hw,
        Helper.getModelClass this (sm_name model) = Some (OrmClass c) ->
        Helper.authorize (Helper.modelConfigOf this (sm_name model)) (req context)
          (JObj {[ "id" := prop args "id" ]}) OpDelete = Ret hw ->
        exists options k,
          Helper.generateDeleteMutationResolver model this parent args context
          = AwaitFindOne c options k)
  /\ (forall c hw,
        Helper.getModelClass this (sm_name model) = Some (OrmClass c) ->
        Helper.authorize (Helper.modelConfigOf this (sm_name model)) (req context)
          (JObj {[ "id" := prop args "id" ]}) OpUpdate = Ret hw ->
        exists options k,
          Helper.generateUpdateMutationResolver model this parent args context
          = AwaitFindOne c options k)
  (* GraphQLHelper, unknown model *)
  /\ (Helper.getModelClass this (sm_name model) = None ->
      Helper.generateQueryResolver model this parent args context = Ret (Plain JNull)
      /\ Helper.generateListQueryResolver model this parent args context
         = Ret (Plain (JArr []))
      /\ Helper.generateCreateMutationResolver model this parent args context
         = Ret (Plain JNull)
      /\ Helper.generateUpdateMutationResolver model this parent args context
         = Ret (Plain JNull)
      /\ Helper.generateDeleteMutationResolver model this parent args context
         = Ret (Plain (JBool false))).
Proof.
  split; [eexists; split; reflexivity|].
  split; [eexists; split; reflexivity|].
  split.
  { intros c options k.
    unfold Helper.generateUpdateMutationResolver.
    destruct (Helper.getModelClass this (sm_name model)) as [[c'|d]|]; [| |discriminate].
    - destruct (authorize_cases (Helper.modelConfigOf this (sm_name model)) (req context)
                  (JObj {[ "id" := prop args "id" ]}) OpUpdate) as [[hw ->]| ->];
        [|discriminate].
      simpl. intros H. injection H as _ _ <-. reflexivity.
    - destruct (authorize_cases (Helper.modelConfigOf this (sm_name model)) (req context)
                  (JObj {[ "id" := prop args "id" ]}) OpUpdate) as [[hw ->]| ->];
        discriminate. }
  split.
  { intros c options k.
    unfold Helper.generateDeleteMutationResolver.
    destruct (Helper.getModelClass this (sm_name model)) as [[c'|d]|]; [| |discriminate].
    - destruct (authorize_cases (Helper.modelConfigOf this (sm_name model)) (req context)
                  (JObj {[ "id" := prop args "id" ]}) OpDelete) as [[hw ->]| ->];
        [|discriminate].
      simpl. intros H. injection H as _ _ <-. reflexivity.
    - destruct (authorize_cases (Helper.modelConfigOf this (sm_name model)) (req context)
                  (JObj {[ "id" := prop args "id" ]}) OpDelete) as [[hw ->]| ->];
        discriminate. }
  split.
  { intros c hw Hc Ha. unfold Helper.generateDeleteMutationResolver.
    rewrite Hc, Ha. simpl. eexists _, _. reflexivity. }
  split.
  { intros c hw Hc Ha. unfold Helper.generateUpdateMutationResolver.
    rewrite Hc, Ha. simpl. eexists _, _. reflexivity. }
  intros Hnone.
  unfold Helper.generateQueryResolver, Helper.generateListQueryResolver,
    Helper.generateCreateMutationResolver, Helper.generateUpdateMutationResolver,
    Helper.generateDeleteMutationResolver.
  rewrite Hnone. repeat split; reflexivity.
Qed.

(** ** C9 *)

(** When the parent carries the related data, both generators hand it back
    without touching the ORM. *)
Lemma association_loaded_is_returned (this : Helper.GraphQLHelper)
    (gen : SchemaGenerator.GraphQLSchemaGenerator) (cls : ModelClass) (assocName : string)
    (parent : JSVal) (args : Obj) (context : Context) :
  truthy (member parent assocName) = true ->
  Helper.associationResolver assocName this parent args context
  = Ret (Plain (member parent assocName))
  /\ SchemaGenerator.associationResolver cls assocName parent args context
     = Ret (Plain (member parent assocName)).
Proof.
  intros Hloaded. split; [reflexivity|].
  unfold SchemaGenerator.associationResolver. rewrite Hloaded. reflexivity.
Qed.

(** The resolver of [GraphQLHelper] never calls the ORM: it answers with
    whatever the parent holds under the association's name. *)
Lemma helper_association_never_fetches (this : Helper.GraphQLHelper) (assocName : string)
    (parent : JSVal) (args : Obj) (context : Context) :
  first_call (Helper.associationResolver assocName this parent args context) = None.
Proof. reflexivity. Qed.

(** C9 (the code departs from it): an association resolver should re-fetch
    the owning record when the parent does not carry the related data.  The
    resolver that [GraphQLHelper] installs for [Post.author], called on the
    parent [{ id: "1" }], returns [undefined] and makes no ORM call, whereas
    the resolver of [GraphQLSchemaGenerator] for the same field calls
    [Post.findByPk("1", { include: [{ association: "author" }] })] and
    returns the [author] of the record it gets. *)
Theorem helper_association_resolver_returns_undefined :
  let parent := JObj {[ "id" := JStr "1" ]} in
  let author := JObj {[ "name" := JStr "Ann" ]} in
  let loaded := {| inst_class := "Post";
                   dataValues := <[ "author" := author ]> {[ "id" := JStr "1" ]} |} in
  invoke Sample.helper "Post" "author" parent ∅ Sample.context
  = Some (Ret (Plain JUndefined))
  /\ exists k,
       SchemaGenerator.associationResolver Sample.Post "author" parent ∅ Sample.context
       = AwaitFindByPk "Post" (JStr "1")
           (Some {[ "include" := JArr [JObj {[ "association" := JStr "author" ]}] ]}) k
       /\ k (Some loaded) = Ret (Plain author).
Proof.
  split.
  - vm_compute. reflexivity.
  - eexists. split; reflexivity.
Qed.

(** ** C8 *)

(** C8, as stated, fails on [GraphQLSchemaGenerator.getGraphQLType]: a field
    configured with [nullable: false] on a column that allows null is
    printed without the non-null mark, so the explicit setting does not
    win there. *)
Lemma explicit_non_null_is_overridden :
  SchemaGenerator.getGraphQLType
    (Sample.column "STRING" (Some true))
    {| fc_type := None; fc_nullable := Some false; fc_list := None;
       fc_description := None; fc_resolver := None; fc_exclude := None;
       fc_customType := None; fc_operations := None |}
  = "String".
Proof. reflexivity. Qed.

Lemma printedType_non_null (field : GraphQLFieldType) :
  Helper.printedType field
  = (if isList field then "[" +:+ f_type field +:+ "]" else f_type field)
      +:+ (if isNullable field then "" else "!").
Proof.
  unfold Helper.printedType. destruct (isNullable field); reflexivity.
Qed.

Lemma attribute_nullability (fieldName : string) (attr : Attribute)
    (fieldConfig : option GQLFieldConfig) (field : GraphQLFieldType) :
  Helper.convertSequelizeAttributeToGraphQLField fieldName attr fieldConfig = Some field ->
  (forall b, fieldConfig ≫= fc_nullable = Some b -> isNullable field = b)
  /\ (fieldConfig ≫= fc_nullable = None ->
      (isNullable field = false <-> allowNull attr = Some false)).
Proof.
  unfold Helper.convertSequelizeAttributeToGraphQLField.
  intros H. injection H as <-. simpl. split.
  - intros b ->. reflexivity.
  - intros ->. destruct (allowNull attr) as [[]|]; simpl; split; congruence.
Qed.

Lemma association_nullability (fieldName : string) (assoc : Association)
    (fieldConfig : option GQLFieldConfig) (field : GraphQLFieldType) :
  Helper.convertSequelizeAssociationToGraphQLField fieldName assoc fieldConfig
  = Some field ->
  (forall b, fieldConfig ≫= fc_nullable = Some b -> isNullable field = b)
  /\ (fieldConfig ≫= fc_nullable = None ->
      (isNullable field = false <-> associationType assoc = "BelongsTo")).
Proof.
  unfold Helper.convertSequelizeAssociationToGraphQLField.
  destruct (opt_str_or (target assoc ≫= target_name) (targetModel assoc ≫= target_name))
    as [[|c t]|]; try discriminate.
  intros H. injection H as <-. simpl. split.
  - intros b ->. reflexivity.
  - intros ->. destruct (String.eqb (associationType assoc) "BelongsTo") eqn:E.
    + apply String.eqb_eq in E. split; intros; [exact E|reflexivity].
    + apply String.eqb_neq in E. split; intros; [discriminate|contradiction].
Qed.

(** C8 (amended): in [GraphQLHelper] an explicit field-config [nullable]
    always decides; without it an attribute is non-null exactly when its
    allow-null flag is [false], and an association is non-null exactly when
    it is a [BelongsTo]; the printed type carries [!] exactly for non-null
    fields.  In [GraphQLSchemaGenerator.getGraphQLType] (no custom type) the
    [!] is printed exactly when neither the field-config [nullable] nor the
    attribute's allow-null flag is truthy. *)
Theorem nullability_rules :
  (* attributes *)
  (forall fieldName attr fieldConfig field,
     Helper.convertSequelizeAttributeToGraphQLField fieldName attr fieldConfig
     = Some field ->
     (forall b, fieldConfig ≫= fc_nullable = Some b -> isNullable field = b)
     /\ (fieldConfig ≫= fc_nullable = None ->
         (isNullable field = false <-> allowNull attr = Some false)))
  (* associations *)
  /\ (forall fieldName assoc fieldConfig field,
        Helper.convertSequelizeAssociationToGraphQLField fieldName assoc fieldConfig
        = Some field ->
        (forall b, fieldConfig ≫= fc_nullable = Some b -> isNullable field = b)
        /\ (fieldConfig ≫= fc_nullable = None ->
            (isNullable field = false <-> associationType assoc = "BelongsTo")))
  (* printed *)
  /\ (forall field,
        Helper.printedType field
        = (if isList field then "[" +:+ f_type field +:+ "]" else f_type field)
            +:+ (if isNullable field then "" else "!"))
  (* the other generator *)
  /\ (forall attr fieldConfig,
        truthy_str (fc_customType fieldConfig) = false ->
        let scalar :=
          match attr_type attr with
          | Some ty =>
              str_or (opt_str_or (constructor_name ty) (key ty)
                        ≫= table_get SchemaGenerator.sequelizeToGraphQLTypes) "String"
          | None => "String"
          end in
        let base :=
          if truthy_bool (fc_list fieldConfig) then "[" +:+ scalar +:+ "]" else scalar in
        SchemaGenerator.getGraphQLType attr fieldConfig
        = base +:+ (if (negb (truthy_bool (fc_nullable fieldConfig))
                        && negb (truthy_bool (allowNull attr)))%bool
                    then "!" else "")).
Proof.
  split; [exact attribute_nullability|].
  split; [exact association_nullability|].
  split; [exact printedType_non_null|].
  intros attr fieldConfig Hct scalar base. unfold SchemaGenerator.getGraphQLType.
  fold scalar. fold base.
  assert (Hnil : forall x : string, x +:+ "" = x).
  { induction x as [|c x IH]; [reflexivity|].
    change (String c (x +:+ "") = String c x). f_equal. exact IH. }
  destruct (fc_customType fieldConfig) as [[|c' t']|]; try discriminate;
    destruct (negb (truthy_bool (fc_nullable fieldConfig))
              && negb (truthy_bool (allowNull attr)))%bool;
    rewrite ?Hnil; reflexivity.
Qed.

(** ** C4 *)

Lemma map_set_registers {V} (k : string) (v : V) (l : list (string * V)) :
  In (k, v) (map_set k v l).
Proof.
  induction l as [|[k' v'] l IH]; simpl.
  - left. reflexivity.
  - destruct (String.eqb k' k); [left; reflexivity | right; exact IH].
Qed.

(** A model whose decorator says [exclude: true] is never registered. *)
Lemma excluded_model_is_skipped (this : Helper.GraphQLHelper) (model : ModelClass) :
  exclude (getGQLModelMetadata model) = Some true ->
  Helper.addModel this model = this.
Proof.
  intros Hex. unfold Helper.addModel.
  destruct (decide (name model ∈ Helper.blackList this)); [reflexivity|].
  rewrite Hex. reflexivity.
Qed.

(** A model without any decorator is read as configured with [{}], and is
    registered under its name. *)
Lemma undecorated_model_is_registered (this : Helper.GraphQLHelper) (model : ModelClass) :
  gql_model model = None ->
  name model ∉ Helper.blackList this ->
  getGQLModelMetadata model = emptyModelConfig
  /\ In (name model) (map fst (Helper.models (Helper.addModel this model)))
  /\ Helper.modelConfigOf (Helper.addModel this model) (name model)
     = Some emptyModelConfig.
Proof.
  intros Hnone Hbl.
  assert (Hmeta : getGQLModelMetadata model = emptyModelConfig).
  { unfold getGQLModelMetadata. rewrite Hnone. reflexivity. }
  split; [exact Hmeta|].
  unfold Helper.addModel.
  destruct (decide (name model ∈ Helper.blackList this)); [contradiction|].
  rewrite Hmeta. simpl. split.
  - apply in_map_iff. eexists. split; [|apply map_set_registers]. reflexivity.
  - unfold Helper.modelConfigOf. simpl. rewrite lookup_insert_eq. reflexivity.
Qed.

(** C4 (the code departs from it): a model without model-level
    configuration should leave no trace in the schema.  [PostClass] carries
    no [@GQLModel] decorator; [getGQLModelMetadata] answers [{}] for it, the
    test [!modelConfig] of [addModel] is therefore false, the model is
    registered, and the schema declares its object type, its input type and
    its eight root operations. *)
Theorem undecorated_model_is_exposed :
  let this := Helper.addModel (Helper.new None) Sample.PostClass in
  gql_model Sample.PostClass = None
  /\ map fst (Helper.models this) = ["Post"]
  /\ Helper.modelTypes this
     = [ SDL.TypeOpen "Post";
         SDL.FieldLine "id" "String!";
         SDL.FieldLine "title" "String";
         SDL.FieldLine "authorId" "String";
         SDL.FieldLine "author" "User!";
         SDL.Close; SDL.Raw nl ]
  /\ Helper.modelInputTypes this
     = [ SDL.InputOpen "Post";
         SDL.FieldLine "id" "String!";
         SDL.FieldLine "title" "String";
         SDL.FieldLine "authorId" "String";
         SDL.Close; SDL.Raw nl ]
  /\ SDL.op_names (Helper.generateRootTypes this)
     = [ "post"; "postList"; "createPost"; "updatePost"; "deletePost";
         "postCreated"; "postUpdated"; "postDeleted" ]
  /\ is_Some (lookupResolver (Helper.resolvers (fst (Helper.getSchema this)))
                "Mutation" "deletePost").
Proof.
  repeat split; try (vm_compute; reflexivity).
  vm_compute. eexists. reflexivity.
Qed.

(** ** C6 *)

Lemma field_names_spec (l : list SDL.item) (n : string) :
  In n (SDL.field_names l) -> exists ty, In (SDL.FieldLine n ty) l.
Proof.
  induction l as [|i l IH]; simpl; [contradiction|].
  destruct i; simpl; intros H;
    try (destruct (IH H) as [ty Hty]; exists ty; right; exact Hty).
  destruct H as [<-|H].
  - eexists. left. reflexivity.
  - destruct (IH H) as [ty' Hty]. exists ty'. right. exact Hty.
Qed.

Lemma fieldLines_names (fieldConfigs : gmap string GQLFieldConfig)
    (field : GraphQLFieldType) (n ty : string) :
  In (SDL.FieldLine n ty) (Helper.fieldLines fieldConfigs field) -> n = f_name field.
Proof.
  unfold Helper.fieldLines. intros H. apply in_app_or in H. destruct H as [H|H].
  - destruct (fieldConfigs !! f_name field ≫= fc_description) as [[|c r]|];
      simpl in H; try contradiction.
    destruct H as [H|[]]. discriminate H.
  - destruct H as [H|[]]. injection H as -> _. reflexivity.
Qed.

Lemma isFieldBlacklisted_spec (this : Helper.GraphQLHelper) (modelName fieldName : string) :
  Helper.isFieldBlacklisted this modelName fieldName = true
  <-> (modelName +:+ "." +:+ fieldName ∈ Helper.blackList this
       \/ fieldName ∈ Helper.blackList this
       \/ modelName ∈ Helper.blackList this).
Proof.
  unfold Helper.isFieldBlacklisted.
  rewrite !orb_true_iff, !bool_decide_eq_true. tauto.
Qed.

(** A field line of a generated block names a field that passed the
    blacklist test. *)
Lemma generated_field_not_blacklisted (this : Helper.GraphQLHelper)
    (model : SequelizeModel) (n ty : string) :
  In (SDL.FieldLine n ty) (Helper.generateModelType this model)
  \/ In (SDL.FieldLine n ty) (Helper.generateModelInputType this model) ->
  Helper.isFieldBlacklisted this (sm_name model) n = false.
Proof.
  unfold Helper.generateModelType, Helper.generateModelInputType.
  intros [H|H].
  - apply in_app_or in H. destruct H as [H|H].
    { destruct (Helper.modelConfigOf this (sm_name model) ≫= description) as [[|c r]|];
        [destruct (truthy_bool _)|destruct (truthy_bool _)|destruct (truthy_bool _)];
        simpl in H; try contradiction; destruct H as [H|[]]; discriminate H. }
    apply in_app_or in H. destruct H as [[H|[]]|H]; [discriminate H|].
    apply in_app_or in H. destruct H as [H|[H|[]]]; [|discriminate H].
    apply in_flat_map in H. destruct H as [field [_ H]].
    destruct (Helper.isFieldBlacklisted this (sm_name model) (f_name field)) eqn:E;
      [contradiction|].
    apply fieldLines_names in H. subst n. exact E.
  - apply in_app_or in H. destruct H as [[H|[]]|H]; [discriminate H|].
    apply in_app_or in H. destruct H as [H|[H|[]]]; [|discriminate H].
    apply in_flat_map in H. destruct H as [field [_ H]].
    destruct (Helper.isFieldBlacklisted this (sm_name model) (f_name field)) eqn:E;
      [contradiction|].
    simpl in H. destruct (isRelation field); [contradiction|].
    apply fieldLines_names in H. subst n. exact E.
Qed.

(** C6: a field name that matches the blacklist at any of the three
    granularities (exact [Model.field], bare [field], bare [Model]) is
    declared neither by the model's object type nor by its input type. *)
Theorem blacklisted_field_is_absent (this : Helper.GraphQLHelper)
    (model : SequelizeModel) (fieldName : string) :
  (sm_name model +:+ "." +:+ fieldName ∈ Helper.blackList this
   \/ fieldName ∈ Helper.blackList this
   \/ sm_name model ∈ Helper.blackList this) ->
  ~ In fieldName (SDL.field_names (Helper.generateModelType this model))
  /\ ~ In fieldName (SDL.field_names (Helper.generateModelInputType this model)).
Proof.
  intros Hbl. apply isFieldBlacklisted_spec in Hbl.
  split; intros Hin; apply field_names_spec in Hin; destruct Hin as [ty Hin].
  - rewrite (generated_field_not_blacklisted this model fieldName ty) in Hbl;
      [discriminate|left; exact Hin].
  - rewrite (generated_field_not_blacklisted this model fieldName ty) in Hbl;
      [discriminate|right; exact Hin].
Qed.

Lemma blacklisted_field_is_absent_witness :
  let this := Helper.addToBlackList Sample.helper "Post.title" in
  let model := Sample.descriptorOf this "Post" in
  (sm_name model +:+ "." +:+ "title" ∈ Helper.blackList this
   \/ "title" ∈ Helper.blackList this
   \/ sm_name model ∈ Helper.blackList this)
  /\ ~ In "title" (SDL.field_names (Helper.generateModelType this model))
  /\ ~ In "title" (SDL.field_names (Helper.generateModelInputType this model)).
Proof.
  intros this model.
  assert (H : sm_name model +:+ "." +:+ "title" ∈ Helper.blackList this
              \/ "title" ∈ Helper.blackList this
              \/ sm_name model ∈ Helper.blackList this).
  { left. apply (bool_decide_unpack _). vm_compute. exact I. }
  split; [exact H|].
  exact (blacklisted_field_is_absent this model "title" H).
Defined.

(** The scenario of the specification: blacklisting ["Post.title"] removes
    [title] from [Post] and [PostInput] and leaves [id] and [authorId]. *)
Lemma blacklist_scenario :
  let this := Helper.addToBlackList Sample.helper "Post.title" in
  let model := Sample.descriptorOf this "Post" in
  SDL.field_names (Helper.generateModelType this model) = ["id"; "authorId"; "author"]
  /\ SDL.field_names (Helper.generateModelInputType this model) = ["id"; "authorId"].
Proof.
  split; vm_compute; reflexivity.
Qed.

Lemma flat_map_block {A B} (g : A -> list B) (x : A) (l : list A) :
  In x l -> exists pre post, flat_map g l = pre ++ g x ++ post.
Proof.
  intros Hin. apply in_split in Hin. destruct Hin as [l1 [l2 ->]].
  exists (flat_map g l1), (flat_map g l2). rewrite flat_map_app. reflexivity.
Qed.

(** Every registered model that passes the whitelist has its two blocks in
    the generated type definitions. *)
Lemma typeDefs_blocks (this : Helper.GraphQLHelper) (n : string) (model : SequelizeModel) :
  In (n, model) (Helper.models this) ->
  Helper.skipped this n = false ->
  (exists pre post,
     Helper.generateTypeDefs_lines this
     = pre ++ Helper.generateModelType this model ++ post)
  /\ (exists pre post,
        Helper.generateTypeDefs_lines this
        = pre ++ Helper.generateModelInputType this model ++ post).
Proof.
  intros Hin Hsk.
  unfold Helper.generateTypeDefs_lines, Helper.modelTypes, Helper.modelInputTypes.
  split.
  - destruct (flat_map_block
                (fun '(modelName, m) =>
                   if Helper.skipped this modelName then []
                   else Helper.generateModelType this m ++ [SDL.Raw nl])
                (n, model) (Helper.models this) Hin) as [pre [post ->]].
    rewrite Hsk.
    set (a := [SDL.Raw ("scalar JSON" +:+ nl +:+ nl)]).
    set (b := map _ (Helper.customTypes this)).
    set (c := flat_map _ (Helper.models this)).
    set (d := Helper.generateRootTypes this).
    exists (a ++ b ++ pre), ([SDL.Raw nl] ++ post ++ c ++ d).
    repeat rewrite <- app_assoc. reflexivity.
  - destruct (flat_map_block
                (fun '(modelName, m) =>
                   if Helper.skipped this modelName then []
                   else Helper.generateModelInputType this m ++ [SDL.Raw nl])
                (n, model) (Helper.models this) Hin) as [pre [post ->]].
    rewrite Hsk.
    set (a := [SDL.Raw ("scalar JSON" +:+ nl +:+ nl)]).
    set (b := map _ (Helper.customTypes this)).
    set (c := flat_map _ (Helper.models this)).
    set (d := Helper.generateRootTypes this).
    exists (a ++ b ++ c ++ pre), ([SDL.Raw nl] ++ post ++ d).
    repeat rewrite <- app_assoc. reflexivity.
Qed.

(** ** C7 *)

Lemma flat_map_skip {A B} (p : A -> bool) (g : A -> list B) (l : list A) :
  (forall x, p x = false -> g x = []) ->
  flat_map g (List.filter p l) = flat_map g l.
Proof.
  intros Hskip. induction l as [|x l IH]; simpl; [reflexivity|].
  destruct (p x) eqn:E; simpl.
  - rewrite IH. reflexivity.
  - rewrite (Hskip x E). exact IH.
Qed.

Lemma foldl_skip {A B} (p : B -> bool) (f : A -> B -> A) (l : list B) (a : A) :
  (forall acc x, p x = false -> f acc x = acc) ->
  foldl f a (List.filter p l) = foldl f a l.
Proof.
  intros Hskip. revert a. induction l as [|x l IH]; intros a; simpl; [reflexivity|].
  destruct (p x) eqn:E; simpl.
  - apply IH.
  - rewrite (Hskip a x E). apply IH.
Qed.

Lemma skipped_off_whitelist (this : Helper.GraphQLHelper) (m : string) :
  Helper.whiteList this <> ∅ -> m ∉ Helper.whiteList this ->
  Helper.skipped this m = true.
Proof.
  intros Hne Hnot. unfold Helper.skipped.
  rewrite (bool_decide_eq_false_2 _ Hne), (bool_decide_eq_false_2 _ Hnot). reflexivity.
Qed.

Lemma skipped_on_whitelist (this : Helper.GraphQLHelper) (m : string) :
  m ∈ Helper.whiteList this -> Helper.skipped this m = false.
Proof.
  intros Hin. unfold Helper.skipped.
  rewrite (bool_decide_eq_true_2 _ Hin). apply andb_false_r.
Qed.

Lemma not_named (m : string) (entry : string * SequelizeModel) :
  negb (String.eqb (fst entry) m) = false -> fst entry = m.
Proof.
  intros H. apply negb_false_iff, String.eqb_eq in H. exact H.
Qed.

(** Generation walks the registry and does nothing for a skipped model, so
    it cannot tell a skipped model from one that was never registered. *)
Section IgnoresSkipped.
Context (this : Helper.GraphQLHelper) (m : string).
Hypothesis Hsk : Helper.skipped this m = true.

Let p := fun entry : string * SequelizeModel => negb (String.eqb (fst entry) m).

Lemma modelTypes_unregister :
  Helper.modelTypes (unregister this m) = Helper.modelTypes this.
Proof.
  refine (flat_map_skip p
            (fun '(modelName, model) =>
               if Helper.skipped this modelName then []
               else Helper.generateModelType this model ++ [SDL.Raw nl])
            (Helper.models this) _).
  intros [n model] Hn. apply not_named in Hn. simpl in Hn. subst n.
  rewrite Hsk. reflexivity.
Qed.

Lemma modelInputTypes_unregister :
  Helper.modelInputTypes (unregister this m) = Helper.modelInputTypes this.
Proof.
  refine (flat_map_skip p
            (fun '(modelName, model) =>
               if Helper.skipped this modelName then []
               else Helper.generateModelInputType this model ++ [SDL.Raw nl])
            (Helper.models this) _).
  intros [n model] Hn. apply not_named in Hn. simpl in Hn. subst n.
  rewrite Hsk. reflexivity.
Qed.

Lemma rootTypes_unregister :
  Helper.generateRootTypes (unregister this m) = Helper.generateRootTypes this.
Proof.
  assert (Hq : Helper.queryFields (unregister this m) = Helper.queryFields this).
  { unfold Helper.queryFields. f_equal.
    refine (flat_map_skip p (fun entry => Helper.modelQueryFields this (fst entry))
              (Helper.models this) _).
    intros x Hn. apply not_named in Hn. rewrite Hn.
    unfold Helper.modelQueryFields. rewrite Hsk. reflexivity. }
  assert (Hm : Helper.mutationFields (unregister this m) = Helper.mutationFields this).
  { unfold Helper.mutationFields. f_equal.
    refine (flat_map_skip p (fun entry => Helper.modelMutationFields this (fst entry))
              (Helper.models this) _).
    intros x Hn. apply not_named in Hn. rewrite Hn.
    unfold Helper.modelMutationFields. rewrite Hsk. reflexivity. }
  assert (Hs : Helper.subscriptionFields (unregister this m)
               = Helper.subscriptionFields this).
  { unfold Helper.subscriptionFields. f_equal.
    refine (flat_map_skip p (fun entry => Helper.modelSubscriptionFields this (fst entry))
              (Helper.models this) _).
    intros x Hn. apply not_named in Hn. rewrite Hn.
    unfold Helper.modelSubscriptionFields. rewrite Hsk. reflexivity. }
  unfold Helper.generateRootTypes. rewrite Hq, Hm, Hs. reflexivity.
Qed.

Lemma typeDefs_unregister :
  Helper.generateTypeDefs_lines (unregister this m) = Helper.generateTypeDefs_lines this.
Proof.
  unfold Helper.generateTypeDefs_lines.
  rewrite modelTypes_unregister, modelInputTypes_unregister, rootTypes_unregister.
  reflexivity.
Qed.

Lemma resolvers_unregister :
  Helper.generateResolvers (unregister this m) = Helper.generateResolvers this.
Proof.
  unfold Helper.generateResolvers.
  assert (Hfold : forall a,
             foldl (Helper.addModelResolvers (unregister this m)) a
               (Helper.models (unregister this m))
             = foldl (Helper.addModelResolvers this) a (Helper.models this)).
  { intros a.
    refine (foldl_skip p (Helper.addModelResolvers this) (Helper.models this) a _).
    intros acc [n model] Hn.
    apply not_named in Hn. simpl in Hn. subst n.
    unfold Helper.addModelResolvers. rewrite Hsk. reflexivity. }
  rewrite Hfold. reflexivity.
Qed.

End IgnoresSkipped.

Lemma unregister_removes (this : Helper.GraphQLHelper) (m : string) :
  ~ In m (map fst (Helper.models (unregister this m))).
Proof.
  unfold unregister. simpl. intros Hin. apply in_map_iff in Hin.
  destruct Hin as [entry [Hname Hin]]. apply filter_In in Hin.
  destruct Hin as [_ Hp]. rewrite Hname, String.eqb_refl in Hp. discriminate Hp.
Qed.

(** *** What later rounds of [generateResolvers] keep *)

Lemma lookupResolver_set_in (rs : Helper.ResolverMap) (g f : string) (r : Helper.Resolver) :
  lookupResolver (Helper.set_in g f r rs) g f = Some r.
Proof.
  unfold lookupResolver, Helper.set_in. rewrite lookup_insert_eq. simpl.
  apply lookup_insert_eq.
Qed.

Lemma set_in_keeps (rs : Helper.ResolverMap) (g f g' f' : string) (r : Helper.Resolver) :
  is_Some (lookupResolver rs g f) ->
  is_Some (lookupResolver (Helper.set_in g' f' r rs) g f).
Proof.
  unfold lookupResolver, Helper.set_in. intros H.
  destruct (decide (g' = g)) as [->|Hg].
  - rewrite lookup_insert_eq. simpl.
    destruct (decide (f' = f)) as [->|Hf].
    + rewrite lookup_insert_eq. eauto.
    + rewrite lookup_insert_ne by exact Hf.
      destruct (rs !! g) as [fields|]; simpl in *; [exact H|].
      destruct H as [x Hx]. discriminate Hx.
  - rewrite lookup_insert_ne by exact Hg. exact H.
Qed.

Lemma assign_in_keeps (rs : Helper.ResolverMap) (g f g' : string)
    (source : option (gmap string CustomFn)) :
  is_Some (lookupResolver rs g f) ->
  is_Some (lookupResolver (Helper.assign_in g' source rs) g f).
Proof.
  unfold lookupResolver, Helper.assign_in. intros H.
  destruct (decide (g' = g)) as [->|Hg].
  - rewrite lookup_insert_eq. simpl.
    destruct (rs !! g) as [fields|]; simpl in *.
    + apply lookup_union_is_Some. right. exact H.
    + destruct H as [x Hx]. discriminate Hx.
  - rewrite lookup_insert_ne by exact Hg. exact H.
Qed.

Lemma insert_group_keeps (rs : Helper.ResolverMap) (g f k : string)
    (fields : gmap string Helper.Resolver) :
  k <> g ->
  is_Some (lookupResolver rs g f) ->
  is_Some (lookupResolver (<[k := fields]> rs) g f).
Proof.
  unfold lookupResolver. intros Hk H. rewrite lookup_insert_ne by exact Hk. exact H.
Qed.

Lemma mergeCustomResolver_keeps (rs : Helper.ResolverMap) (g f : string)
    (customResolver : GraphQLResolver) :
  is_Some (lookupResolver rs g f) ->
  is_Some (lookupResolver (Helper.mergeCustomResolver rs customResolver) g f).
Proof.
  intros H. unfold Helper.mergeCustomResolver.
  set (rs' := Helper.assign_in "Subscription" _ _).
  assert (H' : is_Some (lookupResolver rs' g f)) by (repeat apply assign_in_keeps; exact H).
  clearbody rs'. clear H. unfold lookupResolver in *. rewrite lookup_union_with.
  destruct (rs' !! g) as [existing|]; simpl in H'.
  - match goal with
    | |- context [union_with _ (Some existing) ?b] => destruct b as [value|]
    end; simpl; [|exact H'].
    apply lookup_union_is_Some. right. exact H'.
  - destruct H' as [x Hx]. discriminate Hx.
Qed.

Lemma addModelResolvers_keeps (this : Helper.GraphQLHelper) (rs : Helper.ResolverMap)
    (entry : string * SequelizeModel) (g f : string) :
  fst entry <> g ->
  is_Some (lookupResolver rs g f) ->
  is_Some (lookupResolver (Helper.addModelResolvers this rs entry) g f).
Proof.
  destruct entry as [n model]. simpl. intros Hn H. unfold Helper.addModelResolvers.
  destruct (Helper.skipped this n); [exact H|].
  apply insert_group_keeps; [exact Hn|].
  destruct (truthy_bool (op_mutation _)); destruct (truthy_bool (op_query _));
    repeat apply set_in_keeps; exact H.
Qed.

Lemma foldl_keeps {A B} (P : A -> Prop) (Q : B -> Prop) (f : A -> B -> A) (l : list B) :
  (forall a x, Q x -> P a -> P (f a x)) ->
  Forall Q l ->
  forall a, P a -> P (foldl f a l).
Proof.
  intros Hf Hl. induction Hl as [|x l Hx Hl IH]; intros a Ha; simpl; [exact Ha|].
  apply IH, Hf; assumption.
Qed.

Lemma Forall_trivial {B} (l : list B) : Forall (fun _ => True) l.
Proof. induction l; constructor; auto. Qed.

(** Once a generated resolver is installed under a root group, the rest of
    [generateResolvers] leaves something installed there, as long as no
    later model is named after that group. *)
Lemma custom_rounds_keep (this : Helper.GraphQLHelper) (rs : Helper.ResolverMap)
    (g f : string) :
  is_Some (lookupResolver rs g f) ->
  is_Some (lookupResolver
    (foldl (fun rs subscription =>
              Helper.set_in "Subscription" (s_name subscription)
                (Helper.liftCustom (s_resolver subscription)) rs)
       (foldl (fun rs mutation =>
                 Helper.set_in "Mutation" (m_name mutation)
                   (Helper.liftCustom (m_resolver mutation)) rs)
          (foldl (fun rs query =>
                    Helper.set_in "Query" (q_name query)
                      (Helper.liftCustom (q_resolver query)) rs)
             (foldl Helper.mergeCustomResolver rs (Helper.customResolvers this))
             (Helper.customQueries this))
          (Helper.customMutations this))
       (Helper.customSubscriptions this)) g f).
Proof.
  intros H.
  apply (foldl_keeps (fun rs => is_Some (lookupResolver rs g f)) (fun _ => True));
    [intros; apply set_in_keeps; assumption | apply Forall_trivial |].
  apply (foldl_keeps (fun rs => is_Some (lookupResolver rs g f)) (fun _ => True));
    [intros; apply set_in_keeps; assumption | apply Forall_trivial |].
  apply (foldl_keeps (fun rs => is_Some (lookupResolver rs g f)) (fun _ => True));
    [intros; apply set_in_keeps; assumption | apply Forall_trivial |].
  apply (foldl_keeps (fun rs => is_Some (lookupResolver rs g f)) (fun _ => True));
    [intros; apply mergeCustomResolver_keeps; assumption | apply Forall_trivial |].
  exact H.
Qed.

(** The same for the presence of a whole group, which no round removes. *)
Lemma group_kept_by_set_in (rs : Helper.ResolverMap) (k g f : string) (r : Helper.Resolver) :
  is_Some (rs !! k) -> is_Some (Helper.set_in g f r rs !! k).
Proof.
  unfold Helper.set_in. intros H. apply lookup_insert_is_Some'. right. exact H.
Qed.

Lemma group_kept_by_merge (rs : Helper.ResolverMap) (k : string)
    (customResolver : GraphQLResolver) :
  is_Some (rs !! k) -> is_Some (Helper.mergeCustomResolver rs customResolver !! k).
Proof.
  intros H. unfold Helper.mergeCustomResolver, Helper.assign_in.
  rewrite lookup_union_with.
  match goal with |- is_Some (union_with _ ?a ?b) =>
    assert (Ha : is_Some a) by (repeat (apply lookup_insert_is_Some'; right); exact H);
    destruct Ha as [x ->]; destruct b; simpl; eauto
  end.
Qed.

Lemma group_kept_by_model (this : Helper.GraphQLHelper) (rs : Helper.ResolverMap)
    (entry : string * SequelizeModel) (k : string) :
  is_Some (rs !! k) -> is_Some (Helper.addModelResolvers this rs entry !! k).
Proof.
  destruct entry as [n model]. intros H. unfold Helper.addModelResolvers.
  destruct (Helper.skipped this n); [exact H|].
  apply lookup_insert_is_Some'. right.
  destruct (truthy_bool (op_mutation _)); destruct (truthy_bool (op_query _));
    repeat apply group_kept_by_set_in; exact H.
Qed.

Lemma group_installed_by_model (this : Helper.GraphQLHelper) (rs : Helper.ResolverMap)
    (n : string) (model : SequelizeModel) :
  Helper.skipped this n = false ->
  is_Some (Helper.addModelResolvers this rs (n, model) !! n).
Proof.
  intros Hsk. unfold Helper.addModelResolvers. rewrite Hsk.
  rewrite lookup_insert_eq. eauto.
Qed.

Lemma group_kept_by_custom_rounds (this : Helper.GraphQLHelper) (rs : Helper.ResolverMap)
    (k : string) :
  is_Some (rs !! k) ->
  is_Some (foldl (fun rs subscription =>
              Helper.set_in "Subscription" (s_name subscription)
                (Helper.liftCustom (s_resolver subscription)) rs)
       (foldl (fun rs mutation =>
                 Helper.set_in "Mutation" (m_name mutation)
                   (Helper.liftCustom (m_resolver mutation)) rs)
          (foldl (fun rs query =>
                    Helper.set_in "Query" (q_name query)
                      (Helper.liftCustom (q_resolver query)) rs)
             (foldl Helper.mergeCustomResolver rs (Helper.customResolvers this))
             (Helper.customQueries this))
          (Helper.customMutations this))
       (Helper.customSubscriptions this) !! k).
Proof.
  intros H.
  apply (foldl_keeps (fun rs : Helper.ResolverMap => is_Some (rs !! k)) (fun _ => True));
    [intros; apply group_kept_by_set_in; assumption | apply Forall_trivial |].
  apply (foldl_keeps (fun rs : Helper.ResolverMap => is_Some (rs !! k)) (fun _ => True));
    [intros; apply group_kept_by_set_in; assumption | apply Forall_trivial |].
  apply (foldl_keeps (fun rs : Helper.ResolverMap => is_Some (rs !! k)) (fun _ => True));
    [intros; apply group_kept_by_set_in; assumption | apply Forall_trivial |].
  apply (foldl_keeps (fun rs : Helper.ResolverMap => is_Some (rs !! k)) (fun _ => True));
    [intros; apply group_kept_by_merge; assumption | apply Forall_trivial |].
  exact H.
Qed.

(** A registered model that passes the whitelist has its field resolvers
    in the resolver map. *)
Lemma field_resolvers_installed (this : Helper.GraphQLHelper) (n : string)
    (model : SequelizeModel) :
  In (n, model) (Helper.models this) ->
  Helper.skipped this n = false ->
  is_Some (Helper.generateResolvers this !! n).
Proof.
  intros Hin Hsk. unfold Helper.generateResolvers.
  apply group_kept_by_custom_rounds.
  apply in_split in Hin. destruct Hin as [l1 [l2 ->]].
  rewrite foldl_app. simpl.
  apply (foldl_keeps (fun rs : Helper.ResolverMap => is_Some (rs !! n)) (fun _ => True));
    [intros; apply group_kept_by_model; assumption | apply Forall_trivial |].
  apply group_installed_by_model. exact Hsk.
Qed.

(** *** The registry is filed by name *)

Lemma map_set_filed (k : string) (v : SequelizeModel) (l : list (string * SequelizeModel)) :
  sm_name v = k ->
  Forall (fun entry => sm_name (snd entry) = fst entry) l ->
  Forall (fun entry => sm_name (snd entry) = fst entry) (map_set k v l).
Proof.
  intros Hv Hl. induction Hl as [|[k' v'] l Hx Hl IH]; simpl.
  - apply List.Forall_cons; [exact Hv | apply List.Forall_nil].
  - destruct (String.eqb k' k).
    + apply List.Forall_cons; [exact Hv | exact Hl].
    + apply List.Forall_cons; [exact Hx | exact IH].
Qed.

Lemma new_filedByName (sequelize_ : option Sequelize) : filedByName (Helper.new sequelize_).
Proof. apply List.Forall_nil. Qed.

Lemma addModel_filedByName (this : Helper.GraphQLHelper) (model : ModelClass) :
  filedByName this -> filedByName (Helper.addModel this model).
Proof.
  intros Hwf. unfold Helper.addModel.
  destruct (decide (name model ∈ Helper.blackList this)); [exact Hwf|].
  destruct (false || truthy_bool (exclude (getGQLModelMetadata model)))%bool;
    [exact Hwf|].
  unfold filedByName. simpl. apply map_set_filed; [reflexivity | exact Hwf].
Qed.

Lemma block_opens_its_model (this : Helper.GraphQLHelper) (model : SequelizeModel)
    (x : string) :
  In (SDL.TypeOpen x) (Helper.generateModelType this model ++ [SDL.Raw nl])
  \/ In (SDL.InputOpen x) (Helper.generateModelInputType this model ++ [SDL.Raw nl]) ->
  x = sm_name model.
Proof.
  unfold Helper.generateModelType, Helper.generateModelInputType.
  intros [H|H]; apply in_app_or in H; destruct H as [H|[H|[]]]; try discriminate H.
  - apply in_app_or in H. destruct H as [H|H].
    { destruct (Helper.modelConfigOf this (sm_name model) ≫= description) as [[|c r]|];
        [destruct (truthy_bool _)|destruct (truthy_bool _)|destruct (truthy_bool _)];
        simpl in H; try contradiction; destruct H as [H|[]]; discriminate H. }
    apply in_app_or in H. destruct H as [[H|[]]|H]; [injection H as ->; reflexivity|].
    apply in_app_or in H. destruct H as [H|[H|[]]]; [|discriminate H].
    apply in_flat_map in H. destruct H as [field [_ H]].
    destruct (Helper.isFieldBlacklisted this (sm_name model) (f_name field));
      [contradiction|].
    unfold Helper.fieldLines in H. apply in_app_or in H. destruct H as [H|[H|[]]];
      [|discriminate H].
    destruct (_ ≫= fc_description) as [[|c r]|]; simpl in H; try contradiction.
    destruct H as [H|[]]. discriminate H.
  - apply in_app_or in H. destruct H as [[H|[]]|H]; [injection H as ->; reflexivity|].
    apply in_app_or in H. destruct H as [H|[H|[]]]; [|discriminate H].
    apply in_flat_map in H. destruct H as [field [_ H]].
    destruct (Helper.isFieldBlacklisted this (sm_name model) (f_name field) || isRelation field)%bool;
      [contradiction|].
    unfold Helper.fieldLines in H. apply in_app_or in H. destruct H as [H|[H|[]]];
      [|discriminate H].
    destruct (_ ≫= fc_description) as [[|c r]|]; simpl in H; try contradiction.
    destruct H as [H|[]]. discriminate H.
Qed.

(** In a registry filed by name, a skipped model has neither an object type
    nor an input type among the generated ones. *)
Lemma skipped_model_has_no_blocks (this : Helper.GraphQLHelper) (m : string) :
  filedByName this ->
  Helper.skipped this m = true ->
  ~ In (SDL.TypeOpen m) (Helper.modelTypes this)
  /\ ~ In (SDL.InputOpen m) (Helper.modelInputTypes this).
Proof.
  intros Hwf Hsk. unfold filedByName in Hwf. rewrite List.Forall_forall in Hwf.
  unfold Helper.modelTypes, Helper.modelInputTypes.
  split; intros H; apply in_flat_map in H; destruct H as [[n model] [Hin H]];
    destruct (Helper.skipped this n) eqn:En; try contradiction;
    specialize (Hwf _ Hin); simpl in Hwf.
  - rewrite (block_opens_its_model this model m (or_introl H)), Hwf, En in Hsk.
    discriminate Hsk.
  - rewrite (block_opens_its_model this model m (or_intror H)), Hwf, En in Hsk.
    discriminate Hsk.
Qed.

(** C7: with a non-empty whitelist, a registered model that is not on it is
    left out of everything [getSchema] produces (the type definitions, with
    the object types, input types and root operations, and the resolver
    map): the schema is the one of the registry from which the model has
    been removed.  [getSchema] leaves the helper, and so the registry, as it
    was; and once the whitelist includes the model, its object type, its
    input type and its field resolvers are generated again. *)
Theorem whitelist_omits_model (this : Helper.GraphQLHelper) (m : string) :
  Helper.whiteList this <> ∅ ->
  m ∉ Helper.whiteList this ->
  let without := unregister this m in
  ~ In m (map fst (Helper.models without))
  /\ Helper.generateTypeDefs_lines this = Helper.generateTypeDefs_lines without
  /\ fst (Helper.getSchema this) = fst (Helper.getSchema without)
  /\ snd (Helper.getSchema this) = this
  /\ (forall model,
        In (m, model) (Helper.models this) ->
        let later := Helper.addToWhiteList (snd (Helper.getSchema this)) m in
        In (m, model) (Helper.models later)
        /\ (exists pre post,
              Helper.generateTypeDefs_lines later
              = pre ++ Helper.generateModelType later model ++ post)
        /\ (exists pre post,
              Helper.generateTypeDefs_lines later
              = pre ++ Helper.generateModelInputType later model ++ post)
        /\ is_Some (Helper.generateResolvers later !! m)).
Proof.
  intros Hne Hnot without.
  pose proof (skipped_off_whitelist this m Hne Hnot) as Hsk.
  split; [apply unregister_removes|].
  split; [symmetry; apply typeDefs_unregister; exact Hsk|].
  split.
  { unfold Helper.getSchema. cbn [fst]. unfold Helper.generateTypeDefs, without.
    rewrite typeDefs_unregister, resolvers_unregister by exact Hsk. reflexivity. }
  split; [reflexivity|].
  intros model Hin later.
  assert (Hlater : Helper.skipped later m = false).
  { apply skipped_on_whitelist. unfold later. simpl.
    apply elem_of_union_l, elem_of_singleton. reflexivity. }
  split; [exact Hin|].
  destruct (typeDefs_blocks later m model Hin Hlater) as [Hty Hinput].
  split; [exact Hty|]. split; [exact Hinput|].
  apply (field_resolvers_installed later m model Hin Hlater).
Qed.

Lemma whitelist_omits_model_witness :
  let this := Helper.addToWhiteList Sample.helper "Post" in
  (Helper.whiteList this <> ∅)
  /\ ("Secret" ∉ Helper.whiteList this)
  /\ In "Secret" (map fst (Helper.models this))
  /\ fst (Helper.getSchema this) = fst (Helper.getSchema (unregister this "Secret"))
  /\ snd (Helper.getSchema this) = this.
Proof.
  intros this.
  assert (Hne : Helper.whiteList this <> ∅).
  { apply (bool_decide_unpack _). vm_compute. exact I. }
  assert (Hnot : "Secret" ∉ Helper.whiteList this).
  { apply (bool_decide_unpack _). vm_compute. exact I. }
  pose proof (whitelist_omits_model this "Secret" Hne Hnot) as H.
  cbv zeta in H. destruct H as [_ [_ [Hschema [Hframe _]]]].
  split; [exact Hne|]. split; [exact Hnot|].
  split; [vm_compute; right; left; reflexivity|].
  split; [exact Hschema | exact Hframe].
Defined.

(** ** C10 *)

(** C10, as stated, fails for the subscription group: [Secret] has no
    [operations] object, its three subscription fields are declared, but
    the resolver map holds no resolver for any of them (no code path
    installs a subscription resolver for a model). *)
Lemma subscription_fields_have_no_resolvers :
  (Helper.modelConfigOf Sample.helper "Secret" ≫= operations) = None
  /\ SDL.op_names (Helper.modelSubscriptionFields Sample.helper "Secret")
     = ["secretCreated"; "secretUpdated"; "secretDeleted"]
  /\ lookupResolver (Helper.generateResolvers Sample.helper) "Subscription" "secretCreated"
     = None
  /\ Helper.generateResolvers Sample.helper !! "Subscription" = Some ∅.
Proof.
  repeat split; vm_compute; reflexivity.
Qed.

Lemma operationsOf_default (this : Helper.GraphQLHelper) (m : string) :
  Helper.modelConfigOf this m ≫= operations = None ->
  Helper.operationsOf this m = Helper.allOperations.
Proof.
  intros H. unfold Helper.operationsOf. rewrite H. reflexivity.
Qed.

Lemma root_lines_in_typeDefs (this : Helper.GraphQLHelper) (m : string)
    (model : SequelizeModel) (line : SDL.item) :
  In (m, model) (Helper.models this) ->
  In line (Helper.modelQueryFields this m)
  \/ In line (Helper.modelMutationFields this m)
  \/ In line (Helper.modelSubscriptionFields this m) ->
  In line (Helper.generateTypeDefs_lines this).
Proof.
  intros Hin Hline.
  unfold Helper.generateTypeDefs_lines.
  do 4 (apply in_or_app; right).
  unfold Helper.generateRootTypes, Helper.queryFields, Helper.mutationFields,
    Helper.subscriptionFields.
  destruct Hline as [H|[H|H]].
  - apply in_or_app; right. apply in_or_app; left. apply in_or_app; left.
    apply in_flat_map. exists (m, model). split; [exact Hin|exact H].
  - do 3 (apply in_or_app; right). apply in_or_app; left. apply in_or_app; left.
    apply in_flat_map. exists (m, model). split; [exact Hin|exact H].
  - do 5 (apply in_or_app; right). apply in_or_app; left. apply in_or_app; left.
    apply in_flat_map. exists (m, model). split; [exact Hin|exact H].
Qed.

Lemma not_root_key (n : string) :
  Helper.isRootKey n = false ->
  n <> "Query" /\ n <> "Mutation" /\ n <> "Subscription".
Proof.
  unfold Helper.isRootKey. intros H.
  apply orb_false_iff in H. destruct H as [H Hs].
  apply orb_false_iff in H. destruct H as [Hq Hm].
  apply String.eqb_neq in Hq, Hm, Hs. auto.
Qed.

(** What one round of the model loop installs for a model with the default
    operations. *)
Lemma default_round_installs (this : Helper.GraphQLHelper) (rs : Helper.ResolverMap)
    (m : string) (model : SequelizeModel) (g f : string) :
  Helper.skipped this m = false ->
  Helper.operationsOf this m = Helper.allOperations ->
  Helper.isRootKey m = false ->
  In (g, f) [ ("Query", lowerFirst m); ("Query", lowerFirst m +:+ "List");
              ("Mutation", "create" +:+ m); ("Mutation", "update" +:+ m);
              ("Mutation", "delete" +:+ m) ] ->
  is_Some (lookupResolver (Helper.addModelResolvers this rs (m, model)) g f).
Proof.
  intros Hsk Hops Hroot Hgf. unfold Helper.addModelResolvers.
  rewrite Hsk, Hops. simpl truthy_bool. cbv iota.
  apply not_root_key in Hroot. destruct Hroot as [Hq [Hm _]].
  simpl in Hgf.
  destruct Hgf as [E|[E|[E|[E|[E|[]]]]]]; injection E as <- <-;
    (apply insert_group_keeps; [assumption|]).
  - do 4 apply set_in_keeps. rewrite lookupResolver_set_in. eauto.
  - do 3 apply set_in_keeps. rewrite lookupResolver_set_in. eauto.
  - do 2 apply set_in_keeps. rewrite lookupResolver_set_in. eauto.
  - do 1 apply set_in_keeps. rewrite lookupResolver_set_in. eauto.
  - rewrite lookupResolver_set_in. eauto.
Qed.

Lemma default_resolvers_installed (this : Helper.GraphQLHelper) (m : string)
    (model : SequelizeModel) (g f : string) :
  In (m, model) (Helper.models this) ->
  Helper.skipped this m = false ->
  Helper.operationsOf this m = Helper.allOperations ->
  Forall (fun entry => Helper.isRootKey (fst entry) = false) (Helper.models this) ->
  In (g, f) [ ("Query", lowerFirst m); ("Query", lowerFirst m +:+ "List");
              ("Mutation", "create" +:+ m); ("Mutation", "update" +:+ m);
              ("Mutation", "delete" +:+ m) ] ->
  is_Some (lookupResolver (Helper.generateResolvers this) g f).
Proof.
  intros Hin Hsk Hops Hroots Hgf. unfold Helper.generateResolvers.
  apply custom_rounds_keep.
  assert (Hg : g = "Query" \/ g = "Mutation").
  { simpl in Hgf. destruct Hgf as [E|[E|[E|[E|[E|[]]]]]]; injection E as <- _; auto. }
  apply in_split in Hin. destruct Hin as [l1 [l2 Hl]]. rewrite Hl in *.
  apply Forall_app in Hroots. destruct Hroots as [_ Hroots].
  apply Forall_cons in Hroots. destruct Hroots as [Hm Hl2].
  rewrite foldl_app. simpl.
  apply (foldl_keeps (fun rs => is_Some (lookupResolver rs g f))
           (fun entry => Helper.isRootKey (fst entry) = false)); [|exact Hl2|].
  - intros a x Hx Ha. apply addModelResolvers_keeps; [|exact Ha].
    apply not_root_key in Hx. destruct Hx as [Hq [Hmu _]].
    destruct Hg as [->| ->]; assumption.
  - apply default_round_installs; assumption.
Qed.

Lemma set_in_other_group (rs : Helper.ResolverMap) (g f k : string) (r : Helper.Resolver) :
  g <> k -> Helper.set_in g f r rs !! k = rs !! k.
Proof.
  intros H. unfold Helper.set_in. apply lookup_insert_ne. exact H.
Qed.

(** The model loop never writes to the [Subscription] group. *)
Lemma model_round_leaves_subscription (this : Helper.GraphQLHelper)
    (rs : Helper.ResolverMap) (entry : string * SequelizeModel) :
  Helper.isRootKey (fst entry) = false ->
  Helper.addModelResolvers this rs entry !! "Subscription" = rs !! "Subscription".
Proof.
  destruct entry as [n model]. simpl. intros Hroot.
  apply not_root_key in Hroot. destruct Hroot as [_ [_ Hs]].
  unfold Helper.addModelResolvers.
  destruct (Helper.skipped this n); [reflexivity|].
  rewrite lookup_insert_ne by exact Hs.
  destruct (truthy_bool (op_mutation _)); destruct (truthy_bool (op_query _));
    rewrite ?set_in_other_group by discriminate; reflexivity.
Qed.

Lemma no_generated_subscription_resolver (this : Helper.GraphQLHelper) :
  Forall (fun entry => Helper.isRootKey (fst entry) = false) (Helper.models this) ->
  Helper.customResolvers this = [] ->
  Helper.customSubscriptions this = [] ->
  Helper.generateResolvers this !! "Subscription" = Some ∅.
Proof.
  intros Hroots Hcr Hcs. unfold Helper.generateResolvers. rewrite Hcr, Hcs. simpl.
  apply (foldl_keeps (fun rs : Helper.ResolverMap => rs !! "Subscription" = Some ∅)
           (fun _ => True));
    [intros a x _ Ha; rewrite set_in_other_group by discriminate; exact Ha
    | apply Forall_trivial |].
  apply (foldl_keeps (fun rs : Helper.ResolverMap => rs !! "Subscription" = Some ∅)
           (fun _ => True));
    [intros a x _ Ha; rewrite set_in_other_group by discriminate; exact Ha
    | apply Forall_trivial |].
  apply (foldl_keeps (fun rs : Helper.ResolverMap => rs !! "Subscription" = Some ∅)
           (fun entry => Helper.isRootKey (fst entry) = false)); [|exact Hroots|].
  - intros a x Hx Ha. rewrite model_round_leaves_subscription by exact Hx. exact Ha.
  - apply lookup_insert_eq.
Qed.

Lemma skipped_false_iff (this : Helper.GraphQLHelper) (m : string) :
  Helper.whiteList this = ∅ \/ m ∈ Helper.whiteList this ->
  Helper.skipped this m = false.
Proof.
  intros [H|H].
  - unfold Helper.skipped. rewrite (bool_decide_eq_true_2 _ H). reflexivity.
  - apply skipped_on_whitelist. exact H.
Qed.

(** C10 (amended): for a registered model whose metadata has no
    [operations] object (and that passes the whitelist, no model being
    named after a root type), generation enables all three groups in the
    type definitions (the single and list query fields, the create, update
    and delete mutation fields, the three subscription fields) and installs
    the two query resolvers and the three mutation resolvers, so mutations
    are exposed by default; no subscription resolver is generated: without
    contributed resolvers the [Subscription] group of the resolver map is
    empty. *)
Theorem default_operations_enable_all (this : Helper.GraphQLHelper) (m : string)
    (model : SequelizeModel) :
  In (m, model) (Helper.models this) ->
  Helper.modelConfigOf this m ≫= operations = None ->
  Helper.whiteList this = ∅ \/ m ∈ Helper.whiteList this ->
  Forall (fun entry => Helper.isRootKey (fst entry) = false) (Helper.models this) ->
  let q := lowerFirst m in
  Forall (fun line => In line (Helper.generateTypeDefs_lines this))
    [ SDL.OpLine q "(id: String!)" m;
      SDL.OpLine (q +:+ "List")
        "(where: JSON, limit: Int, offset: Int, order: String)" ("[" +:+ m +:+ "]");
      SDL.OpLine ("create" +:+ m) ("(input: " +:+ m +:+ "Input!)") m;
      SDL.OpLine ("update" +:+ m) ("(id: String!, input: " +:+ m +:+ "Input!)") m;
      SDL.OpLine ("delete" +:+ m) "(id: String!)" "Boolean";
      SDL.OpLine (q +:+ "Created") "" m;
      SDL.OpLine (q +:+ "Updated") "" m;
      SDL.OpLine (q +:+ "Deleted") "(id: String!)" m ]
  /\ Forall (fun gf => is_Some (lookupResolver (Helper.generateResolvers this)
                                  (fst gf) (snd gf)))
       [ ("Query", q); ("Query", q +:+ "List");
         ("Mutation", "create" +:+ m); ("Mutation", "update" +:+ m);
         ("Mutation", "delete" +:+ m) ]
  /\ (Helper.customResolvers this = [] ->
      Helper.customSubscriptions this = [] ->
      Helper.generateResolvers this !! "Subscription" = Some ∅).
Proof.
  intros Hin Hnone Hwl Hroots q.
  pose proof (skipped_false_iff this m Hwl) as Hsk.
  pose proof (operationsOf_default this m Hnone) as Hops.
  split; [|split].
  - assert (Hq : Helper.modelQueryFields this m
                 = [ SDL.OpLine q "(id: String!)" m;
                     SDL.OpLine (q +:+ "List")
                       "(where: JSON, limit: Int, offset: Int, order: String)"
                       ("[" +:+ m +:+ "]") ]).
    { unfold Helper.modelQueryFields. rewrite Hsk, Hops. reflexivity. }
    assert (Hm : Helper.modelMutationFields this m
                 = [ SDL.OpLine ("create" +:+ m) ("(input: " +:+ m +:+ "Input!)") m;
                     SDL.OpLine ("update" +:+ m)
                       ("(id: String!, input: " +:+ m +:+ "Input!)") m;
                     SDL.OpLine ("delete" +:+ m) "(id: String!)" "Boolean" ]).
    { unfold Helper.modelMutationFields. rewrite Hsk, Hops. reflexivity. }
    assert (Hs : Helper.modelSubscriptionFields this m
                 = [ SDL.OpLine (q +:+ "Created") "" m;
                     SDL.OpLine (q +:+ "Updated") "" m;
                     SDL.OpLine (q +:+ "Deleted") "(id: String!)" m ]).
    { unfold Helper.modelSubscriptionFields. rewrite Hsk, Hops. reflexivity. }
    repeat (apply List.Forall_cons); try apply List.Forall_nil;
      apply (root_lines_in_typeDefs this m model _ Hin); rewrite Hq, Hm, Hs;
      simpl; tauto.
  - repeat (apply List.Forall_cons); try apply List.Forall_nil; cbn [fst snd];
      apply (default_resolvers_installed this m model _ _ Hin Hsk Hops Hroots);
      simpl; tauto.
  - intros Hcr Hcs. apply no_generated_subscription_resolver; assumption.
Qed.

Lemma default_operations_enable_all_witness :
  let this := Sample.helper in
  let model := Sample.descriptorOf this "Secret" in
  In ("Secret", model) (Helper.models this)
  /\ (Helper.modelConfigOf this "Secret" ≫= operations) = None
  /\ Helper.whiteList this = ∅
  /\ In (SDL.OpLine "createSecret" "(input: SecretInput!)" "Secret")
       (Helper.generateTypeDefs_lines this)
  /\ is_Some (lookupResolver (Helper.generateResolvers this) "Mutation" "createSecret")
  /\ Helper.generateResolvers this !! "Subscription" = Some ∅.
Proof.
  intros this model.
  assert (Hin : In ("Secret", model) (Helper.models this)).
  { right. left. reflexivity. }
  assert (Hroots : Forall (fun entry => Helper.isRootKey (fst entry) = false)
                     (Helper.models this)).
  { repeat constructor. }
  pose proof (default_operations_enable_all this "Secret" model Hin eq_refl
                (or_introl eq_refl) Hroots) as H.
  cbv zeta in H. destruct H as [Hlines [Hres Hsub]].
  split; [exact Hin|]. split; [reflexivity|]. split; [reflexivity|].
  split; [|split].
  - apply Forall_cons in Hlines. destruct Hlines as [_ Hlines].
    apply Forall_cons in Hlines. destruct Hlines as [_ Hlines].
    apply Forall_cons in Hlines. destruct Hlines as [Hline _].
    exact Hline.
  - apply Forall_cons in Hres. destruct Hres as [_ Hres].
    apply Forall_cons in Hres. destruct Hres as [_ Hres].
    apply Forall_cons in Hres. destruct Hres as [Hr _].
    exact Hr.
  - apply Hsub; reflexivity.
Defined.

(** * Further properties of the registry *)

Lemma map_set_names {V} (k : string) (v : V) (l : list (string * V)) :
  map fst (map_set k v l)
  = if existsb (String.eqb k) (map fst l) then map fst l else map fst l ++ [k].
Proof.
  induction l as [|[k' v'] l IH]; simpl; [reflexivity|].
  rewrite (String.eqb_sym k k').
  destruct (String.eqb k' k) eqn:E; simpl.
  - apply String.eqb_eq in E. subst k'. reflexivity.
  - rewrite IH. destruct (existsb (String.eqb k) (map fst l)); reflexivity.
Qed.

Lemma existsb_eqb_In (k : string) (l : list string) :
  existsb (String.eqb k) l = true <-> In k l.
Proof.
  rewrite existsb_exists. split.
  - intros [x [Hin Hx]]. apply String.eqb_eq in Hx. subst x. exact Hin.
  - intros Hin. exists k. split; [exact Hin | apply String.eqb_refl].
Qed.

Lemma map_set_twice {V} (k : string) (v w : V) (l : list (string * V)) :
  map_set k w (map_set k v l) = map_set k w l.
Proof.
  induction l as [|[k' v'] l IH]; simpl.
  - rewrite String.eqb_refl. reflexivity.
  - destruct (String.eqb k' k) eqn:E; simpl.
    + rewrite String.eqb_refl. reflexivity.
    + rewrite E, IH. reflexivity.
Qed.

Lemma map_set_lookup {V} (k : string) (v : V) (l : list (string * V)) :
  List.find (fun entry => String.eqb (fst entry) k) (map_set k v l) = Some (k, v).
Proof.
  induction l as [|[k' v'] l IH]; simpl.
  - rewrite String.eqb_refl. reflexivity.
  - destruct (String.eqb k' k) eqn:E; simpl.
    + rewrite String.eqb_refl. reflexivity.
    + rewrite E. exact IH.
Qed.

Lemma map_set_NoDup {V} (k : string) (v : V) (l : list (string * V)) :
  NoDup (map fst l) -> NoDup (map fst (map_set k v l)).
Proof.
  intros Hnd. rewrite map_set_names.
  destruct (existsb (String.eqb k) (map fst l)) eqn:E; [exact Hnd|].
  apply NoDup_app. split; [exact Hnd|]. split.
  - intros x Hx Hk. apply list_elem_of_In in Hx. apply list_elem_of_singleton in Hk.
    subst x. apply existsb_eqb_In in Hx. congruence.
  - apply NoDup_singleton.
Qed.

(** X1: whatever classes are registered, in whatever order and however
    often, the registry holds each name at most once and files every
    descriptor under the name it carries. *)
Theorem registry_is_keyed_by_name (sequelize_ : option Sequelize) (classes : list ModelClass) :
  let this := foldl Helper.addModel (Helper.new sequelize_) classes in
  NoDup (map fst (Helper.models this))
  /\ filedByName this
  /\ (forall n, In n (map fst (Helper.models this)) -> In n (map name classes))
  /\ (forall n, In n (map fst (Helper.models this)) ->
                is_Some (Helper.modelMetadata this !! n)).
Proof.
  intros this. subst this.
  apply (foldl_keeps
           (fun this =>
              NoDup (map fst (Helper.models this))
              /\ filedByName this
              /\ (forall n, In n (map fst (Helper.models this)) -> In n (map name classes))
              /\ (forall n, In n (map fst (Helper.models this)) ->
                            is_Some (Helper.modelMetadata this !! n)))
           (fun c => In c classes)).
  - intros this c Hc [Hnd [Hwf [Hnames Hmeta]]].
    split; [|split; [apply addModel_filedByName; exact Hwf|]].
    + unfold Helper.addModel.
      destruct (decide (name c ∈ Helper.blackList this)); [exact Hnd|].
      destruct (false || truthy_bool (exclude (getGQLModelMetadata c)))%bool;
        [exact Hnd|].
      simpl. apply map_set_NoDup. exact Hnd.
    + unfold Helper.addModel.
      destruct (decide (name c ∈ Helper.blackList this)) as [Hb|Hb]; [split; assumption|].
      destruct (false || truthy_bool (exclude (getGQLModelMetadata c)))%bool;
        [split; assumption|].
      simpl. split; intros n Hn; rewrite map_set_names in Hn;
        destruct (existsb (String.eqb (name c)) (map fst (Helper.models this))) eqn:E.
      * apply Hnames. exact Hn.
      * apply in_app_or in Hn. destruct Hn as [Hn|[<-|[]]]; [apply Hnames; exact Hn|].
        apply in_map. exact Hc.
      * apply lookup_insert_is_Some'. right. apply Hmeta. exact Hn.
      * apply in_app_or in Hn. destruct Hn as [Hn|[<-|[]]].
        -- apply lookup_insert_is_Some'. right. apply Hmeta. exact Hn.
        -- apply lookup_insert_is_Some'. left. reflexivity.
  - apply List.Forall_forall. auto.
  - split; [constructor|]. split; [apply new_filedByName|].
    split; intros n [].
Qed.

(** X2: registering the same class twice is the same as registering it
    once, and registering any class whose name is already in the registry
    leaves the order of the registered names as it was. *)
Theorem addModel_again (this : Helper.GraphQLHelper) (model : ModelClass) :
  Helper.addModel (Helper.addModel this model) model = Helper.addModel this model
  /\ (In (name model) (map fst (Helper.models this)) ->
      map fst (Helper.models (Helper.addModel this model))
      = map fst (Helper.models this)).
Proof.
  split.
  - unfold Helper.addModel.
    destruct (decide (name model ∈ Helper.blackList this)) as [Hb|Hb].
    { destruct (decide (name model ∈ Helper.blackList this)); [reflexivity|contradiction]. }
    destruct (false || truthy_bool (exclude (getGQLModelMetadata model)))%bool eqn:Ex.
    { destruct (decide (name model ∈ Helper.blackList this)); reflexivity. }
    simpl.
    destruct (decide (name model ∈ Helper.blackList this)); [contradiction|].
    unfold Helper.with_models. simpl. rewrite map_set_twice, insert_insert_eq.
    reflexivity.
  - intros Hin. unfold Helper.addModel.
    destruct (decide (name model ∈ Helper.blackList this)); [reflexivity|].
    destruct (false || truthy_bool (exclude (getGQLModelMetadata model)))%bool;
      [reflexivity|].
    simpl. rewrite map_set_names.
    apply existsb_eqb_In in Hin. rewrite Hin. reflexivity.
Qed.

Lemma addModel_again_witness :
  In (name Sample.Post) (map fst (Helper.models Sample.helper))
  /\ map fst (Helper.models (Helper.addModel Sample.helper Sample.Post))
     = map fst (Helper.models Sample.helper).
Proof.
  assert (H : In (name Sample.Post) (map fst (Helper.models Sample.helper))).
  { left. reflexivity. }
  split; [exact H|].
  exact (proj2 (addModel_again Sample.helper Sample.Post) H).
Defined.

(** * Further properties of type generation *)

Lemma field_names_app (a b : list SDL.item) :
  SDL.field_names (a ++ b) = SDL.field_names a ++ SDL.field_names b.
Proof. unfold SDL.field_names. apply omap_app. Qed.

Lemma field_names_docs (d : option string) : SDL.field_names (Helper.docLine d) = [].
Proof. destruct d as [[|c r]|]; reflexivity. Qed.

Lemma fieldLines_field_names (fieldConfigs : gmap string GQLFieldConfig)
    (field : GraphQLFieldType) :
  SDL.field_names (Helper.fieldLines fieldConfigs field) = [f_name field].
Proof.
  unfold Helper.fieldLines. rewrite field_names_app.
  destruct (fieldConfigs !! f_name field ≫= fc_description) as [[|c r]|]; reflexivity.
Qed.

Lemma field_names_flat_map {A} (g : A -> list SDL.item) (l : list A) :
  SDL.field_names (flat_map g l) = flat_map (fun x => SDL.field_names (g x)) l.
Proof.
  induction l as [|x l IH]; simpl; [reflexivity|].
  rewrite field_names_app, IH. reflexivity.
Qed.

Lemma header_has_no_fields (this : Helper.GraphQLHelper) (model : SequelizeModel) :
  SDL.field_names
    (match Helper.modelConfigOf this (sm_name model) ≫= description with
     | Some (String c r) =>
         [SDL.Doc ""
            (if truthy_bool (Helper.modelConfigOf this (sm_name model) ≫= authRequired)
             then String c r +:+ " (Requires authentication)" else String c r)]
     | _ =>
         if truthy_bool (Helper.modelConfigOf this (sm_name model) ≫= authRequired)
         then [SDL.Doc "" "Requires authentication"] else []
     end) = [].
Proof.
  destruct (Helper.modelConfigOf this (sm_name model) ≫= description) as [[|c r]|];
    destruct (truthy_bool _); reflexivity.
Qed.

(** The fields an object type and an input type declare, in order. *)
Lemma type_field_names (this : Helper.GraphQLHelper) (model : SequelizeModel) :
  SDL.field_names (Helper.generateModelType this model)
  = map f_name
      (List.filter
         (fun field => negb (Helper.isFieldBlacklisted this (sm_name model) (f_name field)))
         (Helper.extractModelFields this model))
  /\ SDL.field_names (Helper.generateModelInputType this model)
     = map f_name
         (List.filter
            (fun field =>
               negb (Helper.isFieldBlacklisted this (sm_name model) (f_name field)
                     || isRelation field))
            (Helper.extractModelFields this model)).
Proof.
  unfold Helper.generateModelType, Helper.generateModelInputType.
  rewrite !field_names_app, header_has_no_fields, !field_names_flat_map. simpl.
  rewrite !app_nil_r.
  split; induction (Helper.extractModelFields this model) as [|field l IH]; simpl;
    try reflexivity.
  - destruct (Helper.isFieldBlacklisted this (sm_name model) (f_name field)); simpl.
    + exact IH.
    + rewrite fieldLines_field_names, IH. reflexivity.
  - destruct (Helper.isFieldBlacklisted this (sm_name model) (f_name field)
              || isRelation field)%bool; simpl.
    + exact IH.
    + rewrite fieldLines_field_names, IH. reflexivity.
Qed.

Lemma In_omap_pair {A B C} (g : A * B -> option C) (l : list (A * B)) (y : C) :
  In y (omap g l) -> exists x, In x l /\ g x = Some y.
Proof.
  intros H. apply list_elem_of_In, list_elem_of_omap in H.
  destruct H as [x [Hx Hg]]. exists x. split; [apply list_elem_of_In; exact Hx | exact Hg].
Qed.

(** Where an extracted field comes from. *)
Lemma extracted_field_origin (this : Helper.GraphQLHelper) (model : SequelizeModel)
    (field : GraphQLFieldType) :
  In field (Helper.extractModelFields this model) ->
  Helper.isFieldBlacklisted this (sm_name model) (f_name field) = false
  /\ truthy_bool (Helper.fieldConfigsOf this (sm_name model) !! f_name field ≫= fc_exclude)
     = false
  /\ ((isRelation field = false /\ In (f_name field) (map fst (sm_attributes model)))
      \/ (isRelation field = true /\ In (f_name field) (map fst (sm_associations model)))).
Proof.
  unfold Helper.extractModelFields. intros H. apply in_app_or in H.
  destruct H as [H|H]; apply In_omap_pair in H; destruct H as [[n d] [Hin Hg]];
    destruct (Helper.isFieldBlacklisted this (sm_name model) n) eqn:Eb; try discriminate;
    destruct (truthy_bool (Helper.fieldConfigsOf this (sm_name model) !! n ≫= fc_exclude))
      eqn:Ee; try discriminate.
  - unfold Helper.convertSequelizeAttributeToGraphQLField in Hg. injection Hg as <-. simpl.
    split; [exact Eb|]. split; [exact Ee|]. left. split; [reflexivity|].
    apply in_map_iff. exists (n, d). split; [reflexivity | exact Hin].
  - unfold Helper.convertSequelizeAssociationToGraphQLField in Hg.
    destruct (opt_str_or (target d ≫= target_name) (targetModel d ≫= target_name))
      as [[|c t]|]; try discriminate.
    injection Hg as <-. simpl.
    split; [exact Eb|]. split; [exact Ee|]. right. split; [reflexivity|].
    apply in_map_iff. exists (n, d). split; [reflexivity | exact Hin].
Qed.

(** X3: every field of a generated input type is a column of the model and
    is also a field of the model's object type; every field of the object
    type is a column or an association of the model. *)
Theorem generated_fields_come_from_the_model (this : Helper.GraphQLHelper)
    (model : SequelizeModel) :
  (forall n, In n (SDL.field_names (Helper.generateModelInputType this model)) ->
             In n (map fst (sm_attributes model))
             /\ In n (SDL.field_names (Helper.generateModelType this model)))
  /\ (forall n, In n (SDL.field_names (Helper.generateModelType this model)) ->
                In n (map fst (sm_attributes model))
                \/ In n (map fst (sm_associations model))).
Proof.
  destruct (type_field_names this model) as [-> ->]. split.
  - intros n Hn. apply in_map_iff in Hn. destruct Hn as [field [<- Hf]].
    apply filter_In in Hf. destruct Hf as [Hin Hp].
    apply negb_true_iff, orb_false_iff in Hp. destruct Hp as [Hb Hr].
    destruct (extracted_field_origin this model field Hin) as [_ [_ [[_ Ha]|[Hrel _]]]];
      [|congruence].
    split; [exact Ha|].
    apply in_map. apply filter_In. split; [exact Hin|]. rewrite Hb. reflexivity.
  - intros n Hn. apply in_map_iff in Hn. destruct Hn as [field [<- Hf]].
    apply filter_In in Hf. destruct Hf as [Hin _].
    destruct (extracted_field_origin this model field Hin) as [_ [_ [[_ Ha]|[_ Ha]]]];
      [left|right]; exact Ha.
Qed.

(** X4: a field whose decorator says [exclude: true] is declared neither by
    the object type nor by the input type of its model. *)
Theorem excluded_field_is_absent (this : Helper.GraphQLHelper) (model : SequelizeModel)
    (fieldName : string) (fieldConfig : GQLFieldConfig) :
  Helper.fieldConfigsOf this (sm_name model) !! fieldName = Some fieldConfig ->
  fc_exclude fieldConfig = Some true ->
  ~ In fieldName (SDL.field_names (Helper.generateModelType this model))
  /\ ~ In fieldName (SDL.field_names (Helper.generateModelInputType this model)).
Proof.
  intros Hcfg Hex.
  destruct (type_field_names this model) as [-> ->].
  split; intros Hn; apply in_map_iff in Hn; destruct Hn as [field [Hname Hf]];
    apply filter_In in Hf; destruct Hf as [Hin _];
    destruct (extracted_field_origin this model field Hin) as [_ [He _]];
    rewrite Hname, Hcfg in He; simpl in He; rewrite Hex in He; discriminate He.
Qed.

Lemma excluded_field_is_absent_witness :
  let model := Sample.descriptorOf Fixture.helper "User" in
  Helper.fieldConfigsOf Fixture.helper (sm_name model) !! "password" = Some Fixture.hidden
  /\ fc_exclude Fixture.hidden = Some true
  /\ In "password" (map fst (sm_attributes model))
  /\ ~ In "password" (SDL.field_names (Helper.generateModelType Fixture.helper model))
  /\ ~ In "password" (SDL.field_names (Helper.generateModelInputType Fixture.helper model)).
Proof.
  intros model.
  assert (H : Helper.fieldConfigsOf Fixture.helper (sm_name model) !! "password"
              = Some Fixture.hidden) by (vm_compute; reflexivity).
  split; [exact H|]. split; [reflexivity|].
  split; [right; right; left; reflexivity|].
  exact (excluded_field_is_absent Fixture.helper model "password" Fixture.hidden H eq_refl).
Defined.

Lemma model_blacklisted_fields (this : Helper.GraphQLHelper) (modelName fieldName : string) :
  modelName ∈ Helper.blackList this ->
  Helper.isFieldBlacklisted this modelName fieldName = true.
Proof.
  intros H. apply isFieldBlacklisted_spec. right. right. exact H.
Qed.

Lemma omap_none {A B} (g : A -> option B) (l : list A) :
  (forall x, In x l -> g x = None) -> omap g l = [].
Proof.
  induction l as [|x l IH]; intros H; simpl; [reflexivity|].
  rewrite (H x (or_introl eq_refl)). apply IH. intros y Hy. apply H. right. exact Hy.
Qed.

(** X5: blacklisting a model by its bare name (after it was registered)
    empties its object type and its input type and removes its field
    resolvers, but the two types are still declared; and no blacklist entry
    ever removes a root operation. *)
Theorem blacklisted_model_is_an_empty_stub (this : Helper.GraphQLHelper)
    (model : SequelizeModel) :
  sm_name model ∈ Helper.blackList this ->
  SDL.field_names (Helper.generateModelType this model) = []
  /\ SDL.field_names (Helper.generateModelInputType this model) = []
  /\ In (SDL.TypeOpen (sm_name model)) (Helper.generateModelType this model)
  /\ In (SDL.InputOpen (sm_name model)) (Helper.generateModelInputType this model)
  /\ Helper.generateFieldResolvers this model = ∅
  /\ (forall pattern,
        Helper.queryFields (Helper.addToBlackList this pattern) = Helper.queryFields this
        /\ Helper.mutationFields (Helper.addToBlackList this pattern)
           = Helper.mutationFields this
        /\ Helper.subscriptionFields (Helper.addToBlackList this pattern)
           = Helper.subscriptionFields this).
Proof.
  intros Hbl.
  assert (Hnone : Helper.extractModelFields this model = []).
  { unfold Helper.extractModelFields.
    rewrite !omap_none; [reflexivity| |]; intros [n d] _;
      rewrite (model_blacklisted_fields this (sm_name model) n Hbl); reflexivity. }
  destruct (type_field_names this model) as [-> ->]. rewrite Hnone. simpl.
  split; [reflexivity|]. split; [reflexivity|].
  split.
  { unfold Helper.generateModelType. apply in_or_app. right. left. reflexivity. }
  split.
  { unfold Helper.generateModelInputType. left. reflexivity. }
  split.
  { unfold Helper.generateFieldResolvers.
    apply (foldl_keeps (fun rs : gmap string Helper.Resolver => rs = ∅) (fun _ => True));
      [|apply Forall_trivial|reflexivity].
    intros a [n d] _ ->.
    rewrite (model_blacklisted_fields this (sm_name model) n Hbl). reflexivity. }
  intros pattern. repeat split; reflexivity.
Qed.

Lemma blacklisted_model_is_an_empty_stub_witness :
  let this := Helper.addToBlackList Sample.helper "Post" in
  let model := Sample.descriptorOf this "Post" in
  sm_name model ∈ Helper.blackList this
  /\ In ("Post", model) (Helper.models this)
  /\ Helper.generateModelType this model = [SDL.TypeOpen "Post"; SDL.Close]
  /\ SDL.field_names (Helper.generateModelInputType this model) = [].
Proof.
  intros this model.
  assert (H : sm_name model ∈ Helper.blackList this).
  { apply (bool_decide_unpack _). vm_compute. exact I. }
  split; [exact H|]. split; [left; reflexivity|].
  split; [vm_compute; reflexivity|].
  exact (proj1 (proj2 (blacklisted_model_is_an_empty_stub this model H))).
Defined.

Lemma table_get_value (t : list (string * string)) (k v : string) :
  table_get t k = Some v -> In v (map snd t).
Proof.
  induction t as [|[k' v'] t IH]; simpl; [discriminate|].
  destruct (String.eqb k' k).
  - intros H. injection H as ->. left. reflexivity.
  - intros H. right. apply IH. exact H.
Qed.

(** X6: a column whose native type key ([type.key], else
    [type.constructor.name], else [STRING]) is not one of the names every
    object inherits from [Object.prototype] is converted to a field whose
    type is one of the four built-in scalars, whatever that key is; the
    field keeps the column's name, is never a relation, and is a list
    exactly when the decorator's [list] setting is truthy.  (At an
    inherited name, [constructor] for one, the source's table lookup finds
    the inherited member and not a scalar name.) *)
Theorem attribute_type_is_a_builtin_scalar (fieldName : string) (attr : Attribute)
    (fieldConfig : option GQLFieldConfig) :
  ~ In (sequelizeTypeOf attr) inheritedKeys ->
  exists field,
    Helper.convertSequelizeAttributeToGraphQLField fieldName attr fieldConfig = Some field
    /\ In (f_type field) ["String"; "Int"; "Float"; "Boolean"]
    /\ f_type field = str_or (table_get Helper.typeMap (sequelizeTypeOf attr)) "String"
    /\ f_name field = fieldName
    /\ isRelation field = false
    /\ isList field = truthy_bool (fieldConfig ≫= fc_list).
Proof.
  intros _. eexists. split; [reflexivity|]. cbn [f_type f_name isRelation isList].
  split; [|repeat split]. fold (sequelizeTypeOf attr).
  destruct (table_get Helper.typeMap (sequelizeTypeOf attr)) as [v|] eqn:E; [|simpl; auto].
  apply table_get_value in E. simpl in E.
  repeat (destruct E as [<-|E]; [simpl; auto 10|]). contradiction.
Qed.

Lemma attribute_type_is_a_builtin_scalar_witness :
  ~ In (sequelizeTypeOf (Sample.column "INTEGER" None)) inheritedKeys
  /\ exists field,
       Helper.convertSequelizeAttributeToGraphQLField "views"
         (Sample.column "INTEGER" None) None = Some field
       /\ In (f_type field) ["String"; "Int"; "Float"; "Boolean"]
       /\ f_type field
          = str_or (table_get Helper.typeMap (sequelizeTypeOf (Sample.column "INTEGER" None)))
                   "String"
       /\ f_name field = "views"
       /\ isRelation field = false
       /\ isList field = truthy_bool (None ≫= fc_list).
Proof.
  assert (H : ~ In (sequelizeTypeOf (Sample.column "INTEGER" None)) inheritedKeys).
  { simpl. intros H. repeat (destruct H as [H|H]; [discriminate|]). exact H. }
  split; [exact H|].
  exact (attribute_type_is_a_builtin_scalar "views" (Sample.column "INTEGER" None) None H).
Defined.

(** X7: an association becomes a field exactly when its target has a name;
    the field is typed by the target, an explicit [list] setting decides
    whether it is a list, and without one it is a list exactly for
    [HasMany] and [BelongsToMany]. *)
Theorem association_field_shape (fieldName : string) (assoc : Association)
    (fieldConfig : option GQLFieldConfig) :
  let targetName :=
    opt_str_or (target assoc ≫= target_name) (targetModel assoc ≫= target_name) in
  match Helper.convertSequelizeAssociationToGraphQLField fieldName assoc fieldConfig with
  | None => truthy_str targetName = false
  | Some field =>
      targetName = Some (f_type field)
      /\ f_type field <> ""
      /\ relatedModel field = Some (f_type field)
      /\ isRelation field = true
      /\ (forall b, fieldConfig ≫= fc_list = Some b -> isList field = b)
      /\ (fieldConfig ≫= fc_list = None ->
          (isList field = true
           <-> associationType assoc = "HasMany"
               \/ associationType assoc = "BelongsToMany"))
  end.
Proof.
  intros targetName. subst targetName.
  unfold Helper.convertSequelizeAssociationToGraphQLField.
  destruct (opt_str_or (target assoc ≫= target_name) (targetModel assoc ≫= target_name))
    as [[|c t]|]; try reflexivity.
  simpl. split; [reflexivity|]. split; [discriminate|]. split; [reflexivity|].
  split; [reflexivity|]. split.
  - intros b ->. reflexivity.
  - intros ->. rewrite orb_true_iff, !String.eqb_eq. reflexivity.
Qed.

(** * Further properties of the resolvers *)



Lemma authorize_denied (cfg : GQLModelConfig) (hook : AuthHandler) req conds op :
  authRequired cfg = Some true -> authHandler cfg = Some hook ->
  (hook req conds op = LegacyBool false
   \/ exists a, hook req conds op = Structured a /\ success a = false) ->
  Helper.authorize (Some cfg) req conds op = Throw "Access denied".
Proof.
  intros Hr Hh Hd. unfold Helper.authorize. simpl. rewrite Hr, Hh. simpl.
  destruct Hd as [->|[a [-> Ha]]]; [reflexivity|]. rewrite Ha. reflexivity.
Qed.

(** X9: when the hook of a model that requires authorization answers
    [false], or a structured result with [success: false], the resolver
    that asked fails with the access-denied error and makes no ORM call.
    Each resolver asks with its own conditions and operation tag: the
    [{ id }] conditions for single query, update and delete, the caller's
    [where] for the list query, the [input] for create. *)
Theorem denying_hook_stops_the_resolver (this : Helper.GraphQLHelper)
    (model : SequelizeModel) (cfg : GQLModelConfig) (hook : AuthHandler)
    (hd : ModelHandle) (parent : JSVal) (args : Obj) (context : Context) :
  Helper.modelConfigOf this (sm_name model) = Some cfg ->
  authRequired cfg = Some true ->
  authHandler cfg = Some hook ->
  Helper.getModelClass this (sm_name model) = Some hd ->
  let denies (answer : AuthReturn) :=
    answer = LegacyBool false \/ exists a, answer = Structured a /\ success a = false in
  let byId := JObj {[ "id" := prop args "id" ]} in
  (denies (hook (req context) byId OpQuery) ->
   Helper.generateQueryResolver model this parent args context = Throw "Access denied")
  /\ (denies (hook (req context) (prop args "where") OpQuery) ->
      Helper.generateListQueryResolver model this parent args context
      = Throw "Access denied")
  /\ (denies (hook (req context) (prop args "input") OpCreate) ->
      Helper.generateCreateMutationResolver model this parent args context
      = Throw "Access denied")
  /\ (denies (hook (req context) byId OpUpdate) ->
      Helper.generateUpdateMutationResolver model this parent args context
      = Throw "Access denied")
  /\ (denies (hook (req context) byId OpDelete) ->
      Helper.generateDeleteMutationResolver model this parent args context
      = Throw "Access denied").
Proof.
  intros Hcfg Hreq Hhook Hhd denies byId. subst denies byId.
  unfold Helper.generateQueryResolver, Helper.generateListQueryResolver,
    Helper.generateCreateMutationResolver, Helper.generateUpdateMutationResolver,
    Helper.generateDeleteMutationResolver.
  rewrite Hhd, Hcfg.
  repeat split; intros Hd;
    rewrite (authorize_denied cfg hook _ _ _ Hreq Hhook Hd); reflexivity.
Qed.

Lemma denying_hook_stops_the_resolver_witness :
  let cfg := getGQLModelMetadata Fixture.Vault in
  let model := Sample.descriptorOf Fixture.helper "Vault" in
  Helper.modelConfigOf Fixture.helper (sm_name model) = Some cfg
  /\ authRequired cfg = Some true
  /\ authHandler cfg = Some Fixture.denyAll
  /\ Helper.getModelClass Fixture.helper (sm_name model) = Some (OrmClass "Vault")
  /\ Helper.generateDeleteMutationResolver model Fixture.helper JUndefined
       {[ "id" := JStr "7" ]} Sample.context
     = Throw "Access denied".
Proof.
  intros cfg model.
  assert (E : Helper.getModelClass Fixture.helper (sm_name model)
              = Some (OrmClass "Vault")) by (vm_compute; reflexivity).
  pose proof (denying_hook_stops_the_resolver Fixture.helper model cfg Fixture.denyAll
                (OrmClass "Vault") JUndefined {[ "id" := JStr "7" ]} Sample.context
                eq_refl eq_refl eq_refl E) as H.
  cbv zeta in H. destruct H as [_ [_ [_ [_ H]]]].
  split; [reflexivity|]. split; [reflexivity|]. split; [reflexivity|].
  split; [exact E|]. apply H. left. reflexivity.
Defined.

Lemma authorize_plain_grant (mc : option GQLModelConfig) req conds op :
  (truthy_bool (mc ≫= authRequired) = false
   \/ exists hook,
        mc ≫= authHandler = Some hook
        /\ (hook req conds op = LegacyBool true
            \/ exists a, hook req conds op = Structured a
                         /\ success a = true /\ auth_where a = None)) ->
  Helper.authorize mc req conds op = Ret None.
Proof.
  intros [Hoff|[hook [Hh Hg]]]; [apply authorize_off; exact Hoff|].
  unfold Helper.authorize. destruct mc as [cfg|]; simpl in *; [|discriminate Hh].
  destruct (truthy_bool (authRequired cfg)); [|reflexivity].
  rewrite Hh. destruct Hg as [->|[a [-> [Hs Hw]]]]; [reflexivity|].
  rewrite Hs, Hw. reflexivity.
Qed.

(** X10: when the model does not require authorization, or its hook grants
    access without a [where] of its own (legacy [true], or [success: true]
    and no [where]), the ORM is queried with the caller's conditions and
    nothing else: [{ id }] for single query, update and delete, and the
    caller's [where] as given (even if absent) for the list query. *)
Theorem plain_grant_keeps_the_callers_filter (this : Helper.GraphQLHelper)
    (model : SequelizeModel) (cls : string)
    (parent : JSVal) (args : Obj) (context : Context) :
  Helper.getModelClass this (sm_name model) = Some (OrmClass cls) ->
  let mc := Helper.modelConfigOf this (sm_name model) in
  let passes (conds : JSVal) (op : AuthOperation) :=
    truthy_bool (mc ≫= authRequired) = false
    \/ exists hook,
         mc ≫= authHandler = Some hook
         /\ (hook (req context) conds op = LegacyBool true
             \/ exists a, hook (req context) conds op = Structured a
                          /\ success a = true /\ auth_where a = None) in
  let byId : Obj := {[ "id" := prop args "id" ]} in
  (passes (JObj byId) OpQuery ->
   first_call (Helper.generateQueryResolver model this parent args context)
   = Some (CallFindOne cls {[ "where" := JObj byId ]}))
  /\ (passes (prop args "where") OpQuery ->
      exists options,
        first_call (Helper.generateListQueryResolver model this parent args context)
        = Some (CallFindAll cls options)
        /\ options !! "where" = Some (prop args "where"))
  /\ (passes (JObj byId) OpUpdate ->
      first_call (Helper.generateUpdateMutationResolver model this parent args context)
      = Some (CallFindOne cls {[ "where" := JObj byId ]}))
  /\ (passes (JObj byId) OpDelete ->
      first_call (Helper.generateDeleteMutationResolver model this parent args context)
      = Some (CallFindOne cls {[ "where" := JObj byId ]})).
Proof.
  intros Hcls mc passes byId. subst mc passes byId.
  unfold Helper.generateQueryResolver, Helper.generateListQueryResolver,
    Helper.generateUpdateMutationResolver, Helper.generateDeleteMutationResolver.
  rewrite Hcls.
  repeat split; intros Hp; rewrite (authorize_plain_grant _ _ _ _ Hp); try reflexivity.
  eexists. split; [reflexivity|].
  rewrite !set_if_truthy_other by discriminate. apply lookup_insert_eq.
Qed.

Lemma plain_grant_keeps_the_callers_filter_witness :
  let model := Sample.descriptorOf Sample.helper "Post" in
  Helper.getModelClass Sample.helper (sm_name model) = Some (OrmClass "Post")
  /\ truthy_bool (Helper.modelConfigOf Sample.helper (sm_name model) ≫= authRequired) = false
  /\ first_call (Helper.generateQueryResolver model Sample.helper JUndefined
                   {[ "id" := JStr "7" ]} Sample.context)
     = Some (CallFindOne "Post" {[ "where" := JObj {[ "id" := JStr "7" ]} ]}).
Proof.
  intros model.
  assert (E : Helper.getModelClass Sample.helper (sm_name model) = Some (OrmClass "Post"))
    by (vm_compute; reflexivity).
  pose proof (plain_grant_keeps_the_callers_filter Sample.helper model "Post" JUndefined
                {[ "id" := JStr "7" ]} Sample.context E) as H.
  cbv zeta in H. destruct H as [H _].
  split; [exact E|]. split; [reflexivity|].
  apply H. left. reflexivity.
Defined.

Lemma set_if_truthy_same (k : string) (v : JSVal) (options : Obj) :
  options !! k = None ->
  Helper.set_if_truthy k v options !! k = if truthy v then Some v else None.
Proof.
  intros Hk. unfold Helper.set_if_truthy.
  destruct (truthy v); [apply lookup_insert_eq | exact Hk].
Qed.

(** X11: the list query forwards [limit], [offset] and [order] to the ORM
    only when they are truthy, so [limit: 0] (like an absent limit) reaches
    the ORM as no limit at all; [where] is always forwarded and nothing
    else is. *)
Theorem list_options_are_forwarded_when_truthy (this : Helper.GraphQLHelper)
    (model : SequelizeModel) (parent : JSVal) (args : Obj) (context : Context)
    (cls : string) (options : Obj) :
  first_call (Helper.generateListQueryResolver model this parent args context)
  = Some (CallFindAll cls options) ->
  (forall k, In k ["limit"; "offset"; "order"] ->
             options !! k = if truthy (prop args k) then Some (prop args k) else None)
  /\ is_Some (options !! "where")
  /\ (forall k, is_Some (options !! k) -> In k ["where"; "limit"; "offset"; "order"]).
Proof.
  unfold Helper.generateListQueryResolver.
  destruct (Helper.getModelClass this (sm_name model)) as [[c|d]|]; try discriminate.
  - destruct (authorize_cases (Helper.modelConfigOf this (sm_name model)) (req context)
                (prop args "where") OpQuery) as [[hw ->]| ->]; [|discriminate].
    simpl. intros H. injection H as <- <-.
    split; [|split].
    + intros k [<-|[<-|[<-|[]]]].
      * rewrite !set_if_truthy_other by discriminate.
        apply set_if_truthy_same. rewrite lookup_insert_ne by discriminate.
        apply lookup_empty.
      * rewrite !set_if_truthy_other by discriminate.
        apply set_if_truthy_same. rewrite set_if_truthy_other by discriminate.
        rewrite lookup_insert_ne by discriminate. apply lookup_empty.
      * apply set_if_truthy_same. rewrite !set_if_truthy_other by discriminate.
        rewrite lookup_insert_ne by discriminate. apply lookup_empty.
    + rewrite !set_if_truthy_other by discriminate. rewrite lookup_insert_eq. eauto.
    + intros k Hk. unfold Helper.set_if_truthy in Hk.
      destruct (decide (k = "order")) as [->|Ho]; [simpl; tauto|].
      destruct (decide (k = "offset")) as [->|Hf]; [simpl; tauto|].
      destruct (decide (k = "limit")) as [->|Hl]; [simpl; tauto|].
      destruct (decide (k = "where")) as [->|Hw]; [simpl; tauto|].
      exfalso.
      destruct (truthy (prop args "order")); destruct (truthy (prop args "offset"));
        destruct (truthy (prop args "limit"));
        rewrite ?lookup_insert_ne in Hk by congruence;
        rewrite lookup_empty in Hk; destruct Hk as [x Hx]; discriminate Hx.
  - destruct (authorize_cases (Helper.modelConfigOf this (sm_name model)) (req context)
                (prop args "where") OpQuery) as [[hw ->]| ->]; discriminate.
Qed.

Lemma list_options_are_forwarded_when_truthy_witness :
  let model := Sample.descriptorOf Sample.helper "Post" in
  let args : Obj := <[ "limit" := JNum 0 ]> {[ "offset" := JNum 20 ]} in
  let options : Obj := <[ "where" := JUndefined ]> {[ "offset" := JNum 20 ]} in
  first_call (Helper.generateListQueryResolver model Sample.helper JUndefined args
                Sample.context)
  = Some (CallFindAll "Post" options)
  /\ options !! "limit" = None
  /\ options !! "offset" = Some (JNum 20).
Proof.
  intros model args options.
  assert (E : first_call (Helper.generateListQueryResolver model Sample.helper JUndefined
                            args Sample.context)
              = Some (CallFindAll "Post" options)) by (vm_compute; reflexivity).
  destruct (list_options_are_forwarded_when_truthy Sample.helper model JUndefined args
              Sample.context "Post" options E) as [H _].
  split; [exact E|]. split.
  - exact (H "limit" (or_introl eq_refl)).
  - exact (H "offset" (or_intror (or_introl eq_refl))).
Defined.



(** * Further properties of the resolver map *)

Lemma lookupResolver_set_in_ne (rs : Helper.ResolverMap) (g f g' f' : string)
    (r : Helper.Resolver) :
  (g', f') <> (g, f) ->
  is_Some (rs !! g) ->
  lookupResolver (Helper.set_in g' f' r rs) g f = lookupResolver rs g f.
Proof.
  intros Hne [fields Hg]. unfold lookupResolver, Helper.set_in.
  destruct (decide (g' = g)) as [->|Hgg].
  - rewrite lookup_insert_eq, Hg. simpl.
    apply lookup_insert_ne. intros ->. apply Hne. reflexivity.
  - rewrite lookup_insert_ne by exact Hgg. reflexivity.
Qed.

Lemma foldl_app_last {A B} (f : A -> B -> A) (a : A) (l : list B) (x : B) :
  foldl f a (l ++ [x]) = f (foldl f a l) x.
Proof. rewrite foldl_app. reflexivity. Qed.

(** A custom query that no later custom query shadows is what the [Query]
    group holds under its name after the custom queries are installed. *)
Lemma custom_queries_install (rs : Helper.ResolverMap) (before after : list GraphQLQueryHandler)
    (query : GraphQLQueryHandler) :
  Forall (fun later => q_name later <> q_name query) after ->
  lookupResolver
    (foldl (fun rs q => Helper.set_in "Query" (q_name q) (Helper.liftCustom (q_resolver q)) rs)
       rs (before ++ query :: after))
    "Query" (q_name query)
  = Some (Helper.liftCustom (q_resolver query)).
Proof.
  intros Hafter. rewrite foldl_app. simpl.
  set (start := Helper.set_in "Query" (q_name query) _ _).
  assert (Hstart : lookupResolver start "Query" (q_name query)
                   = Some (Helper.liftCustom (q_resolver query)))
    by apply lookupResolver_set_in.
  clearbody start. revert start Hstart.
  induction Hafter as [|later after Hne _ IH]; intros start Hstart; simpl; [exact Hstart|].
  apply IH. rewrite lookupResolver_set_in_ne; [exact Hstart| |].
  - intros E. injection E as E. apply Hne. exact E.
  - unfold lookupResolver in Hstart. destruct (start !! "Query"); [eauto|discriminate].
Qed.

(** X13: a contributed query replaces whatever resolver was generated or
    contributed before under the same name: after [getSchema], the [Query]
    group holds, under the name of a custom query, the resolver of the last
    custom query of that name. *)
Theorem custom_query_wins (this : Helper.GraphQLHelper)
    (before after : list GraphQLQueryHandler) (query : GraphQLQueryHandler) :
  Helper.customQueries this = before ++ query :: after ->
  Forall (fun later => q_name later <> q_name query) after ->
  lookupResolver (Helper.resolvers (fst (Helper.getSchema this))) "Query" (q_name query)
  = Some (Helper.liftCustom (q_resolver query)).
Proof.
  intros Hqs Hafter. unfold Helper.getSchema. cbn [fst Helper.resolvers].
  unfold Helper.generateResolvers. rewrite Hqs.
  set (merged := foldl Helper.mergeCustomResolver _ _).
  pose proof (custom_queries_install merged before after query Hafter) as Hq.
  set (withQueries := foldl _ merged (before ++ query :: after)) in *.
  clearbody withQueries.
  assert (Hkeep : forall (T : Type) (g : string) (nameOf : T -> string)
                         (fnOf : T -> CustomFn) (l : list T) (rs : Helper.ResolverMap),
             g <> "Query" ->
             lookupResolver rs "Query" (q_name query)
             = Some (Helper.liftCustom (q_resolver query)) ->
             lookupResolver
               (foldl (fun rs x => Helper.set_in g (nameOf x) (Helper.liftCustom (fnOf x)) rs)
                  rs l) "Query" (q_name query)
             = Some (Helper.liftCustom (q_resolver query))).
  { intros T g nameOf fnOf l. induction l as [|x l IH]; intros rs Hg Hrs; simpl;
      [exact Hrs|].
    apply IH; [exact Hg|]. rewrite lookupResolver_set_in_ne; [exact Hrs| |].
    - intros E. injection E as E _. apply Hg. exact E.
    - unfold lookupResolver in Hrs. destruct (rs !! "Query"); [eauto|discriminate]. }
  apply (Hkeep _ "Subscription" s_name s_resolver); [discriminate|].
  apply (Hkeep _ "Mutation" m_name m_resolver); [discriminate|].
  exact Hq.
Qed.

Lemma custom_query_wins_witness :
  let this := Helper.addQuery Sample.helper Fixture.shadow in
  Helper.customQueries this = [] ++ Fixture.shadow :: []
  /\ is_Some (lookupResolver (Helper.generateResolvers Sample.helper) "Query" "post")
  /\ invoke this "Query" "post" JUndefined {[ "id" := JStr "7" ]} Sample.context
     = Some (Ret (Plain (JStr "custom"))).
Proof.
  intros this.
  pose proof (custom_query_wins this [] [] Fixture.shadow eq_refl (List.Forall_nil _)) as H.
  split; [reflexivity|]. split; [vm_compute; eauto|].
  unfold invoke. change (q_name Fixture.shadow) with "post" in H. rewrite H. reflexivity.
Defined.

Lemma lookupResolver_set_in_other (rs : Helper.ResolverMap) (g f g' f' : string)
    (r : Helper.Resolver) :
  g' <> g ->
  lookupResolver (Helper.set_in g' f' r rs) g f = lookupResolver rs g f.
Proof.
  intros Hne. unfold lookupResolver. rewrite set_in_other_group by exact Hne. reflexivity.
Qed.

Lemma mergeCustomResolver_installs (rs : Helper.ResolverMap) (customResolver : GraphQLResolver)
    (T f : string) (fields : gmap string CustomFn) (fn : CustomFn) :
  Helper.isRootKey T = false ->
  customResolver !! T = Some fields ->
  fields !! f = Some fn ->
  lookupResolver (Helper.mergeCustomResolver rs customResolver) T f
  = Some (Helper.liftCustom fn).
Proof.
  intros Hroot Hcr Hf. unfold lookupResolver, Helper.mergeCustomResolver.
  rewrite lookup_union_with.
  assert (Hv : ((fun value : gmap string CustomFn => Helper.liftCustom <$> value)
                  <$> filter (fun kv => Helper.isRootKey (fst kv) = false) customResolver)
               !! T = Some (Helper.liftCustom <$> fields)).
  { rewrite lookup_fmap. rewrite (proj2 (map_lookup_filter_Some _ _ _ _) (conj Hcr Hroot)).
    reflexivity. }
  rewrite Hv.
  assert (Hl : (Helper.liftCustom <$> fields) !! f = Some (Helper.liftCustom fn))
    by (rewrite lookup_fmap, Hf; reflexivity).
  match goal with
  | |- union_with _ ?a _ ≫= _ = _ => destruct a as [existing|]
  end; simpl.
  - apply lookup_union_Some_l. exact Hl.
  - exact Hl.
Qed.

(** X14: a resolver contributed for a field of a type (any key other than
    [Query], [Mutation] and [Subscription]) by the last contributed
    resolver object replaces the generated resolver of that field: it is
    the one the schema holds. *)
Theorem contributed_field_resolver_wins (this : Helper.GraphQLHelper)
    (before : list GraphQLResolver) (customResolver : GraphQLResolver)
    (T f : string) (fields : gmap string CustomFn) (fn : CustomFn) :
  Helper.customResolvers this = before ++ [customResolver] ->
  Helper.isRootKey T = false ->
  customResolver !! T = Some fields ->
  fields !! f = Some fn ->
  lookupResolver (Helper.resolvers (fst (Helper.getSchema this))) T f
  = Some (Helper.liftCustom fn).
Proof.
  intros Hcrs Hroot Hcr Hf. unfold Helper.getSchema. cbn [fst Helper.resolvers].
  unfold Helper.generateResolvers. rewrite Hcrs, foldl_app_last.
  pose proof (mergeCustomResolver_installs
                (foldl Helper.mergeCustomResolver
                   (foldl (Helper.addModelResolvers this)
                      (<[ "Subscription" := ∅ ]> (<[ "Mutation" := ∅ ]> (<[ "Query" := ∅ ]> ∅)))
                      (Helper.models this)) before)
                customResolver T f fields fn Hroot Hcr Hf) as Hm.
  set (merged := Helper.mergeCustomResolver _ customResolver) in *. clearbody merged.
  apply not_root_key in Hroot. destruct Hroot as [Hq [Hmu Hs]].
  assert (Hkeep : forall (X : Type) (g : string) (nameOf : X -> string)
                         (fnOf : X -> CustomFn) (l : list X) (rs : Helper.ResolverMap),
             g <> T ->
             lookupResolver
               (foldl (fun rs x => Helper.set_in g (nameOf x) (Helper.liftCustom (fnOf x)) rs)
                  rs l) T f
             = lookupResolver rs T f).
  { intros X g nameOf fnOf l. induction l as [|x l IH]; intros rs Hg; simpl;
      [reflexivity|].
    rewrite IH by exact Hg. apply lookupResolver_set_in_other. exact Hg. }
  rewrite (Hkeep _ "Subscription" s_name s_resolver) by congruence.
  rewrite (Hkeep _ "Mutation" m_name m_resolver) by congruence.
  rewrite (Hkeep _ "Query" q_name q_resolver) by congruence.
  exact Hm.
Qed.

Lemma contributed_field_resolver_wins_witness :
  let this := Helper.addResolver Sample.helper Fixture.authorByHand in
  Helper.customResolvers this = [] ++ [Fixture.authorByHand]
  /\ Helper.isRootKey "Post" = false
  /\ invoke Sample.helper "Post" "author" (JObj ∅) ∅ Sample.context
     = Some (Ret (Plain JUndefined))
  /\ invoke this "Post" "author" (JObj ∅) ∅ Sample.context
     = Some (Ret (Plain (JStr "by hand"))).
Proof.
  intros this.
  pose proof (contributed_field_resolver_wins this [] Fixture.authorByHand "Post" "author"
                {[ "author" := (fun _ _ _ => Ret (Plain (JStr "by hand"))) : CustomFn ]}
                (fun _ _ _ => Ret (Plain (JStr "by hand")))
                eq_refl eq_refl eq_refl eq_refl) as H.
  split; [reflexivity|]. split; [reflexivity|]. split; [vm_compute; reflexivity|].
  unfold invoke. rewrite H. reflexivity.
Defined.

Lemma find_registered (l : list (string * SequelizeModel)) (model : SequelizeModel) :
  In (sm_name model, model) l ->
  exists d, List.find (fun m => String.eqb (sm_name m) (sm_name model)) (map snd l) = Some d.
Proof.
  intros Hin.
  destruct (List.find (fun m => String.eqb (sm_name m) (sm_name model)) (map snd l))
    as [d|] eqn:E; [eauto|].
  exfalso.
  assert (Hm : In model (map snd l)).
  { apply in_map_iff. exists (sm_name model, model). split; [reflexivity | exact Hin]. }
  pose proof (find_none _ _ E model Hm) as Hf. simpl in Hf.
  rewrite String.eqb_refl in Hf. discriminate Hf.
Qed.

(** X15: a helper built without an ORM instance resolves a registered model
    to the registry's plain descriptor, which has none of the ORM's
    methods: every CRUD resolver of such a model (authorization not
    required) fails with the type error of the missing method and returns
    no data. *)
Theorem without_orm_instance_resolvers_fail (this : Helper.GraphQLHelper)
    (model : SequelizeModel) (parent : JSVal) (args : Obj) (context : Context) :
  Helper.sequelize this ≫= seq_models = None ->
  In (sm_name model, model) (Helper.models this) ->
  truthy_bool (Helper.modelConfigOf this (sm_name model) ≫= authRequired) = false ->
  (exists d, Helper.getModelClass this (sm_name model) = Some (Descriptor d))
  /\ Helper.generateQueryResolver model this parent args context
     = Throw "ModelClass.findOne is not a function"
  /\ Helper.generateListQueryResolver model this parent args context
     = Throw "ModelClass.findAll is not a function"
  /\ Helper.generateCreateMutationResolver model this parent args context
     = Throw "ModelClass.create is not a function"
  /\ Helper.generateUpdateMutationResolver model this parent args context
     = Throw "ModelClass.findOne is not a function"
  /\ Helper.generateDeleteMutationResolver model this parent args context
     = Throw "ModelClass.findOne is not a function".
Proof.
  intros Hseq Hin Hoff.
  destruct (find_registered _ _ Hin) as [d Hd].
  assert (Hcls : Helper.getModelClass this (sm_name model) = Some (Descriptor d)).
  { unfold Helper.getModelClass. rewrite Hseq, Hd. reflexivity. }
  split; [eauto|].
  unfold Helper.generateQueryResolver, Helper.generateListQueryResolver,
    Helper.generateCreateMutationResolver, Helper.generateUpdateMutationResolver,
    Helper.generateDeleteMutationResolver.
  rewrite Hcls, !(authorize_off _ _ _ _ Hoff). repeat split; reflexivity.
Qed.

Lemma without_orm_instance_resolvers_fail_witness :
  let model := Sample.descriptorOf Fixture.offline "Post" in
  Helper.sequelize Fixture.offline ≫= seq_models = None
  /\ In (sm_name model, model) (Helper.models Fixture.offline)
  /\ invoke Fixture.offline "Query" "post" JUndefined {[ "id" := JStr "7" ]} Sample.context
     = Some (Throw "ModelClass.findOne is not a function").
Proof.
  intros model.
  assert (Hin : In (sm_name model, model) (Helper.models Fixture.offline)).
  { left. reflexivity. }
  destruct (without_orm_instance_resolvers_fail Fixture.offline model JUndefined
              {[ "id" := JStr "7" ]} Sample.context eq_refl Hin eq_refl) as [_ [H _]].
  split; [reflexivity|]. split; [exact Hin|].
  rewrite <- H. vm_compute. reflexivity.
Defined.

Lemma field_resolvers_fold (this : Helper.GraphQLHelper) (modelName : string)
    (l : list (string * Association)) (acc : gmap string Helper.Resolver) (f : string) :
  foldl (fun resolvers '(assocName, assocDef) =>
           if Helper.isFieldBlacklisted this modelName assocName then resolvers
           else <[assocName := Helper.associationResolver assocName]> resolvers)
        acc l !! f
  = if (existsb (String.eqb f) (map fst l)
        && negb (Helper.isFieldBlacklisted this modelName f))%bool
    then Some (Helper.associationResolver f)
    else acc !! f.
Proof.
  revert acc. induction l as [|[n d] l IH]; intros acc; simpl; [reflexivity|].
  rewrite IH. destruct (String.eqb f n) eqn:E.
  - apply String.eqb_eq in E. subst n. simpl.
    destruct (Helper.isFieldBlacklisted this modelName f) eqn:Eb.
    + rewrite andb_false_r. reflexivity.
    + rewrite andb_true_r. rewrite lookup_insert_eq.
      destruct (existsb (String.eqb f) (map fst l)); reflexivity.
  - simpl. destruct (existsb (String.eqb f) (map fst l)
                     && negb (Helper.isFieldBlacklisted this modelName f))%bool;
      [reflexivity|].
    destruct (Helper.isFieldBlacklisted this modelName n); [reflexivity|].
    apply String.eqb_neq in E. apply lookup_insert_ne. congruence.
Qed.

(** X16: the field resolvers generated for a model are exactly those of its
    associations that are not blacklisted, each answering with the parent's
    property of that name: also for an association that has no field in the
    object type (no target, or excluded by its decorator). *)
Theorem field_resolvers_cover_associations (this : Helper.GraphQLHelper)
    (model : SequelizeModel) (f : string) :
  Helper.generateFieldResolvers this model !! f
  = if (existsb (String.eqb f) (map fst (sm_associations model))
        && negb (Helper.isFieldBlacklisted this (sm_name model) f))%bool
    then Some (Helper.associationResolver f)
    else None.
Proof.
  unfold Helper.generateFieldResolvers. rewrite field_resolvers_fold.
  rewrite lookup_empty. reflexivity.
Qed.

(** * Properties of the second generator ([GraphQLSchemaGenerator]) *)

(** X17: a model that is excluded by its configuration or whose name is on
    the blacklist contributes nothing to the schema of
    [GraphQLSchemaGenerator]: the type definitions and the resolver object
    are those of the generator without the model. *)
Theorem excluded_model_leaves_no_trace (this : Generator.GraphQLSchemaGenerator)
    (modelName : string) :
  Generator.isModelExcluded this modelName = true ->
  Generator.generateSchema this = Generator.generateSchema (Generator.forget this modelName).
Proof.
  intros Hex.
  set (p := fun entry : string * ModelClass => negb (String.eqb (fst entry) modelName)).
  assert (Hnamed : forall entry, p entry = false -> fst entry = modelName).
  { intros entry H. apply negb_false_iff, String.eqb_eq in H. exact H. }
  assert (Hty : Generator.modelTypeDefs (Generator.forget this modelName)
                = Generator.modelTypeDefs this).
  { refine (flat_map_skip p
              (fun '(modelName_, model) =>
                 if Generator.isModelExcluded this modelName_ then []
                 else Generator.generateModelTypeDef this model
                        (Generator.modelConfigs this !! modelName_))
              (Generator.models this) _).
    intros [n model] Hn. apply Hnamed in Hn. simpl in Hn. subst n.
    rewrite Hex. reflexivity. }
  assert (Hrs : Generator.modelResolvers (Generator.forget this modelName)
                = Generator.modelResolvers this).
  { refine (foldl_skip p
              (fun resolvers '(modelName_, model) =>
                 if Generator.isModelExcluded this modelName_ then resolvers
                 else Generator.mergeObjects resolvers
                        (Generator.generateModelResolvers this model
                           (Generator.modelConfigs this !! modelName_)))
              (Generator.models this) _ _).
    intros acc [n model] Hn. apply Hnamed in Hn. simpl in Hn. subst n.
    rewrite Hex. reflexivity. }
  unfold Generator.generateSchema. rewrite Hty, Hrs. reflexivity.
Qed.

Lemma excluded_model_leaves_no_trace_witness :
  let this :=
    Generator.addToBlackList
      (Generator.addModel (Generator.addModel Generator.new Sample.PostClass None)
         Fixture.User None)
      ["User"] in
  Generator.isModelExcluded this "User" = true
  /\ map fst (Generator.models this) = ["Post"; "User"]
  /\ map fst (Generator.models (Generator.forget this "User")) = ["Post"]
  /\ Generator.generateSchema this = Generator.generateSchema (Generator.forget this "User").
Proof.
  intros this.
  split; [reflexivity|]. split; [reflexivity|]. split; [reflexivity|].
  exact (excluded_model_leaves_no_trace this "User" eq_refl).
Defined.

Lemma occurrences_app (c : ascii) (a b : string) :
  Generator.occurrences c (a +:+ b)
  = (Generator.occurrences c a + Generator.occurrences c b)%nat.
Proof.
  induction a as [|c' a IH]; [reflexivity|].
  change (String c' a +:+ b) with (String c' (a +:+ b)). simpl. rewrite IH. lia.
Qed.

Lemma removeFirst_occurrences (c : ascii) (s : string) :
  Generator.occurrences c (Generator.removeFirst c s)
  = Nat.pred (Generator.occurrences c s).
Proof.
  induction s as [|c' s IH]; [reflexivity|]. simpl.
  destruct (Ascii.eqb c' c) eqn:E; simpl; [reflexivity|].
  rewrite E. simpl. exact IH.
Qed.

Lemma removeFirst_absent (c : ascii) (s : string) :
  Generator.occurrences c s = 0%nat -> Generator.removeFirst c s = s.
Proof.
  induction s as [|c' s IH]; [reflexivity|]. simpl.
  destruct (Ascii.eqb c' c); simpl; [discriminate|].
  intros H. rewrite (IH H). reflexivity.
Qed.

Lemma removeFirst_trailing (c : ascii) (s : string) :
  Generator.occurrences c s = 0%nat ->
  Generator.removeFirst c (s +:+ String c EmptyString) = s.
Proof.
  induction s as [|c' s IH]; simpl.
  - rewrite Ascii.eqb_refl. reflexivity.
  - destruct (Ascii.eqb c' c) eqn:E; simpl; [discriminate|].
    intros H. f_equal. apply IH. exact H.
Qed.

(** The scalar names of the table carry no non-null mark. *)
Lemma scalar_has_no_mark (ty : option string) :
  Generator.occurrences "!"
    (str_or (ty ≫= table_get SchemaGenerator.sequelizeToGraphQLTypes) "String") = 0%nat.
Proof.
  destruct ty as [ty|]; [|reflexivity].
  change (Some ty ≫= table_get SchemaGenerator.sequelizeToGraphQLTypes)
    with (table_get SchemaGenerator.sequelizeToGraphQLTypes ty).
  destruct (table_get SchemaGenerator.sequelizeToGraphQLTypes ty) as [v|] eqn:E;
    [|reflexivity].
  apply table_get_value in E. simpl in E.
  repeat (destruct E as [<-|E]; [reflexivity|]). contradiction.
Qed.

(** The type of a column as [getGraphQLType] prints it when no custom type
    is set: a base without mark, then the mark or nothing. *)
Lemma getGraphQLType_shape (attr : Attribute) (fieldConfig : GQLFieldConfig) :
  truthy_str (fc_customType fieldConfig) = false ->
  exists base,
    Generator.occurrences "!" base = 0%nat
    /\ SchemaGenerator.getGraphQLType attr fieldConfig
       = if (negb (truthy_bool (fc_nullable fieldConfig))
             && negb (truthy_bool (allowNull attr)))%bool
         then base +:+ "!" else base.
Proof.
  intros Hct. unfold SchemaGenerator.getGraphQLType.
  destruct (fc_customType fieldConfig) as [[|c t]|]; try discriminate.
  - eexists. split; [|reflexivity].
    destruct (truthy_bool (fc_list fieldConfig)).
    + rewrite !occurrences_app. simpl.
      destruct (attr_type attr) as [ty|]; [|reflexivity].
      rewrite scalar_has_no_mark. reflexivity.
    + destruct (attr_type attr) as [ty|]; [|reflexivity]. apply scalar_has_no_mark.
  - eexists. split; [|reflexivity].
    destruct (truthy_bool (fc_list fieldConfig)).
    + rewrite !occurrences_app. simpl.
      destruct (attr_type attr) as [ty|]; [|reflexivity].
      rewrite scalar_has_no_mark. reflexivity.
    + destruct (attr_type attr) as [ty|]; [|reflexivity]. apply scalar_has_no_mark.
Qed.

(** X18: in [GraphQLSchemaGenerator] every field of an input type is a
    column of the model other than [id] that is not excluded, and its type
    is the type the object type prints for that column with the first [!]
    taken out.  For a column without custom type this leaves no [!], so the
    input field is optional; a custom type keeps all its [!] but one. *)
Theorem input_fields_are_optional_columns (this : Generator.GraphQLSchemaGenerator)
    (model : ModelClass) (config_ : option SchemaGenerator.AbstractGraphQLModelConfig) :
  (forall n ty,
     In (SDL.FieldLine n ty) (Generator.generateInputTypes this model config_) ->
     n <> "id"
     /\ SchemaGenerator.isFieldExcluded (Generator.core this) (name model) n config_ = false
     /\ exists attr,
          In (n, attr) (Generator.columnsOf model)
          /\ ty = Generator.removeFirst "!"
                    (SchemaGenerator.getGraphQLType attr (Generator.fieldConfigOf model n))
          /\ In (SDL.FieldLine n
                   (SchemaGenerator.getGraphQLType attr (Generator.fieldConfigOf model n)))
                (Generator.attributeLines this model config_))
  /\ (forall attr fieldConfig,
        truthy_str (fc_customType fieldConfig) = false ->
        Generator.occurrences "!"
          (Generator.removeFirst "!" (SchemaGenerator.getGraphQLType attr fieldConfig))
        = 0%nat)
  /\ (forall attr fieldConfig,
        Generator.occurrences "!"
          (Generator.removeFirst "!" (SchemaGenerator.getGraphQLType attr fieldConfig))
        = Nat.pred (Generator.occurrences "!"
                      (SchemaGenerator.getGraphQLType attr fieldConfig))).
Proof.
  split; [|split].
  - intros n ty H. unfold Generator.generateInputTypes in H.
    apply in_app_or in H. destruct H as [[H|[]]|H]; [discriminate H|].
    apply in_app_or in H. destruct H as [H|[H|[H|[]]]]; try discriminate H.
    apply in_flat_map in H. destruct H as [[n' attr] [Hin H]].
    destruct (SchemaGenerator.isFieldExcluded (Generator.core this) (name model) n' config_)
      eqn:Ex; [contradiction|].
    destruct (String.eqb n' "id") eqn:Eid; [contradiction|].
    destruct H as [H|[]]. injection H as -> <-.
    apply String.eqb_neq in Eid.
    split; [exact Eid|]. split; [exact Ex|].
    exists attr. split; [exact Hin|]. split; [reflexivity|].
    unfold Generator.attributeLines. apply in_flat_map. exists (n, attr).
    split; [exact Hin|]. rewrite Ex. left. reflexivity.
  - intros attr fieldConfig Hct.
    destruct (getGraphQLType_shape attr fieldConfig Hct) as [base [Hbase ->]].
    destruct (negb (truthy_bool (fc_nullable fieldConfig))
              && negb (truthy_bool (allowNull attr)))%bool.
    + rewrite removeFirst_trailing by exact Hbase. exact Hbase.
    + rewrite removeFirst_absent by exact Hbase. exact Hbase.
  - intros attr fieldConfig. apply removeFirst_occurrences.
Qed.

(** X19: in [GraphQLSchemaGenerator] a model without configuration, or with
    a configuration that has no [operations] object, gets the three query
    operations and nothing else: no mutation and no subscription is
    declared, and (unless its type is itself named [Mutation]) its resolver
    object has no [Mutation] group. *)
Theorem second_generator_defaults_to_queries (this : Generator.GraphQLSchemaGenerator)
    (model : ModelClass) (config_ : option SchemaGenerator.AbstractGraphQLModelConfig) :
  config_ ≫= (fun c => operations (SchemaGenerator.config c)) = None ->
  let q := lowerFirst (name model) in
  SDL.op_names (Generator.generateModelOperations model config_)
  = [q; q +:+ "List"; q +:+ "Count"]
  /\ (forall f,
        is_Some (Generator.generateModelResolvers this model config_ !! "Query"
                   ≫= (fun fields => fields !! f))
        <-> (In f [q; q +:+ "List"; q +:+ "Count"]
             \/ (SchemaGenerator.typeNameOf model config_ = "Query"
                 /\ is_Some (SchemaGenerator.generateFieldResolvers (Generator.core this)
                               model config_ !! f))))
  /\ (SchemaGenerator.typeNameOf model config_ <> "Mutation" ->
      Generator.generateModelResolvers this model config_ !! "Mutation" = None).
Proof.
  intros Hops q.
  assert (Hdef : Generator.operationsFor config_ = Generator.queryOnly).
  { unfold Generator.operationsFor, Generator.getOperations.
    destruct config_ as [c|]; [|reflexivity]. simpl in Hops. rewrite Hops. reflexivity. }
  split; [|split].
  - unfold Generator.generateModelOperations. rewrite Hdef. reflexivity.
  - intros f. unfold Generator.generateModelResolvers. rewrite Hdef. simpl truthy_bool.
    cbv iota. unfold Generator.install. rewrite lookup_insert_eq. simpl.
    fold q. unfold Generator.toCamelCase. fold q.
    rewrite !lookup_insert_is_Some'.
    destruct (decide (SchemaGenerator.typeNameOf model config_ = "Query")) as [E|E].
    + rewrite E, lookup_singleton_eq. simpl. rewrite lookup_fmap, fmap_is_Some.
      simpl. tauto.
    + rewrite lookup_singleton_ne by exact E. simpl. rewrite lookup_empty.
      split.
      * intros [H|[H|[H|H]]]; [left; simpl; auto..|].
        destruct H as [x Hx]. discriminate Hx.
      * intros [[H|[H|[H|[]]]]|[H _]]; [auto..|contradiction].
  - intros Hty. unfold Generator.generateModelResolvers. rewrite Hdef. simpl truthy_bool.
    cbv iota. unfold Generator.install.
    rewrite lookup_insert_ne by discriminate.
    apply lookup_singleton_ne. exact Hty.
Qed.

Lemma second_generator_defaults_to_queries_witness :
  SDL.op_names (Generator.generateModelOperations Sample.PostClass None)
  = ["post"; "postList"; "postCount"]
  /\ Generator.generateModelResolvers Generator.new Sample.PostClass None !! "Mutation"
     = None.
Proof.
  destruct (second_generator_defaults_to_queries Generator.new Sample.PostClass None
              eq_refl) as [H1 [_ H3]].
  split; [exact H1|]. apply H3. discriminate.
Defined.

Lemma includes_In (l : list string) (x : string) :
  SchemaGenerator.includes l x = true <-> In x l.
Proof. apply existsb_eqb_In. Qed.

Lemma input_fields_sound (this : Generator.GraphQLSchemaGenerator) (model : ModelClass)
    (config_ : option SchemaGenerator.AbstractGraphQLModelConfig) (n ty : string) :
  In (SDL.FieldLine n ty) (Generator.generateInputTypes this model config_) ->
  n <> "id"
  /\ SchemaGenerator.isFieldExcluded (Generator.core this) (name model) n config_ = false
  /\ exists attr,
       In (n, attr) (Generator.columnsOf model)
       /\ ty = Generator.removeFirst "!"
                 (SchemaGenerator.getGraphQLType attr (Generator.fieldConfigOf model n)).
Proof.
  intros H. unfold Generator.generateInputTypes in H.
  apply in_app_or in H. destruct H as [[H|[]]|H]; [discriminate H|].
  apply in_app_or in H. destruct H as [H|[H|[H|[]]]]; try discriminate H.
  apply in_flat_map in H. destruct H as [[n' attr] [Hin H]].
  destruct (SchemaGenerator.isFieldExcluded (Generator.core this) (name model) n' config_)
    eqn:Ex; [contradiction|].
  destruct (String.eqb n' "id") eqn:Eid; [contradiction|].
  destruct H as [H|[]]. injection H as -> <-.
  apply String.eqb_neq in Eid.
  split; [exact Eid|]. split; [exact Ex|].
  exists attr. split; [exact Hin | reflexivity].
Qed.

Lemma excluded_field_has_no_line (this : Generator.GraphQLSchemaGenerator)
    (model : ModelClass) (config_ : option SchemaGenerator.AbstractGraphQLModelConfig)
    (f : string) :
  SchemaGenerator.isFieldExcluded (Generator.core this) (name model) f config_ = true ->
  ~ In f (SDL.field_names (Generator.attributeLines this model config_))
  /\ ~ In f (SDL.field_names (Generator.associationLines this model config_))
  /\ ~ In f (SDL.field_names (Generator.generateInputTypes this model config_)).
Proof.
  intros Hex. repeat split; intros Hin; apply field_names_spec in Hin;
    destruct Hin as [ty Hin].
  - unfold Generator.attributeLines in Hin. apply in_flat_map in Hin.
    destruct Hin as [[n attr] [_ Hin]].
    destruct (SchemaGenerator.isFieldExcluded (Generator.core this) (name model) n config_)
      eqn:E; [contradiction|].
    destruct Hin as [Hin|[]]. injection Hin as -> _. congruence.
  - unfold Generator.associationLines in Hin. apply in_flat_map in Hin.
    destruct Hin as [[n assoc] [_ Hin]].
    destruct (SchemaGenerator.isFieldExcluded (Generator.core this) (name model) n config_)
      eqn:E; [contradiction|].
    destruct (SchemaGenerator.getAssociationType assoc) as [[|c r]|];
      try contradiction.
    destruct Hin as [Hin|[]]. injection Hin as -> _. congruence.
  - destruct (input_fields_sound this model config_ f ty Hin) as [_ [E _]]. congruence.
Qed.

(** X20: in [GraphQLSchemaGenerator] a field is excluded when it is in the
    configuration's [excludeFields] (the timestamps [createdAt] and
    [updatedAt] when the configuration names none), or on the blacklist as
    [Model.field] or as bare [field].  An excluded field is printed neither
    among the columns and associations of the object type nor in the input
    type; the custom fields of the configuration are printed in the object
    type whatever the exclusion lists say. *)
Theorem second_generator_exclusion (this : Generator.GraphQLSchemaGenerator)
    (model : ModelClass) (config_ : option SchemaGenerator.AbstractGraphQLModelConfig) :
  (forall f,
     SchemaGenerator.isFieldExcluded (Generator.core this) (name model) f config_ = true
     <-> (In f (match config_ ≫= (fun c => excludeFields (SchemaGenerator.config c)) with
                | Some l => l
                | None => ["createdAt"; "updatedAt"]
                end)
          \/ In (name model +:+ "." +:+ f) (Generator.blackList this)
          \/ In f (Generator.blackList this)))
  /\ (forall f,
        SchemaGenerator.isFieldExcluded (Generator.core this) (name model) f config_ = true ->
        ~ In f (SDL.field_names (Generator.attributeLines this model config_))
        /\ ~ In f (SDL.field_names (Generator.associationLines this model config_))
        /\ ~ In f (SDL.field_names (Generator.generateInputTypes this model config_)))
  /\ (forall f fieldConfig,
        In (f, fieldConfig) (default [] (Generator.getCustomFields <$> config_)) ->
        In (SDL.FieldLine f (str_or (fc_customType fieldConfig) "String"))
           (Generator.generateModelTypeDef this model config_)).
Proof.
  split; [|split].
  - intros f. unfold SchemaGenerator.isFieldExcluded.
    rewrite !orb_true_iff, !includes_In. simpl.
    destruct config_ as [c|]; simpl; [|tauto].
    unfold SchemaGenerator.getExcludeFields.
    destruct (excludeFields (SchemaGenerator.config c)); simpl; tauto.
  - intros f Hex. apply excluded_field_has_no_line. exact Hex.
  - intros f fieldConfig Hin. unfold Generator.generateModelTypeDef.
    apply in_or_app. right. apply in_or_app. right. apply in_or_app. right.
    apply in_or_app. left. unfold Generator.customFieldLines.
    apply in_map_iff. exists (f, fieldConfig). split; [reflexivity | exact Hin].
Qed.

Lemma mergeObjects_lookup (target_ source : Generator.ResolverTree) (g f : string) :
  Generator.mergeObjects target_ source !! g ≫= (fun fields => fields !! f)
  = match source !! g ≫= (fun fields => fields !! f) with
    | Some fn => Some fn
    | None => target_ !! g ≫= (fun fields => fields !! f)
    end.
Proof.
  unfold Generator.mergeObjects. rewrite lookup_union_with.
  destruct (target_ !! g) as [existing|], (source !! g) as [group|]; simpl; try reflexivity.
  - rewrite lookup_union. destruct (group !! f), (existing !! f); reflexivity.
  - destruct (group !! f); reflexivity.
Qed.

Lemma tree_eq (a b : Generator.ResolverTree) :
  (forall g, a !! g = b !! g) -> a = b.
Proof. apply map_eq. Qed.

(** X21: merging resolver objects is associative and merging an object into
    itself changes nothing, so contributing resolver objects one after the
    other ([addResolvers]) is the same as contributing their merge once;
    in the merge, a field's resolver is the one of the later object when it
    has one and the one of the earlier object otherwise.  In the schema the
    contributed resolvers are merged last: a contributed resolver takes the
    place of the generated one of the same type and field, and a generated
    resolver for which nothing was contributed stays. *)
Theorem mergeObjects_laws (t a b : Generator.ResolverTree)
    (this : Generator.GraphQLSchemaGenerator) :
  Generator.mergeObjects (Generator.mergeObjects t a) b
  = Generator.mergeObjects t (Generator.mergeObjects a b)
  /\ Generator.mergeObjects t t = t
  /\ Generator.mergeObjects t ∅ = t
  /\ Generator.addResolvers (Generator.addResolvers this a) b
     = Generator.addResolvers this (Generator.mergeObjects a b)
  /\ (forall g f,
        Generator.mergeObjects t a !! g ≫= (fun fields => fields !! f)
        = match a !! g ≫= (fun fields => fields !! f) with
          | Some fn => Some fn
          | None => t !! g ≫= (fun fields => fields !! f)
          end)
  /\ (forall g f,
        Generator.resolvers (Generator.generateSchema this) !! g
          ≫= (fun fields => fields !! f)
        = match Generator.customResolvers this !! g ≫= (fun fields => fields !! f) with
          | Some fn => Some fn
          | None => Generator.modelResolvers this !! g ≫= (fun fields => fields !! f)
          end).
Proof.
  assert (Hassoc : forall x y z : Generator.ResolverTree,
             Generator.mergeObjects (Generator.mergeObjects x y) z
             = Generator.mergeObjects x (Generator.mergeObjects y z)).
  { intros x y z. apply tree_eq. intros g. unfold Generator.mergeObjects.
    rewrite !lookup_union_with.
    destruct (x !! g) as [xg|], (y !! g) as [yg|], (z !! g) as [zg|]; simpl;
      try reflexivity.
    f_equal. apply (assoc_L (∪)). }
  split; [apply Hassoc|]. split; [|split; [|split; [|split]]].
  - apply tree_eq. intros g. unfold Generator.mergeObjects. rewrite lookup_union_with.
    destruct (t !! g) as [tg|]; simpl; [|reflexivity]. f_equal. apply (idemp_L (∪)).
  - apply tree_eq. intros g. unfold Generator.mergeObjects.
    rewrite lookup_union_with, lookup_empty.
    destruct (t !! g); reflexivity.
  - unfold Generator.addResolvers. simpl. rewrite Hassoc. reflexivity.
  - intros g f. apply mergeObjects_lookup.
  - intros g f. unfold Generator.generateSchema. simpl. apply mergeObjects_lookup.
Qed.


(** * Properties of the application's registration *)

Lemma addModel_blackList (this : Helper.GraphQLHelper) (model : ModelClass) :
  Helper.blackList (Helper.addModel this model) = Helper.blackList this
  /\ Helper.whiteList (Helper.addModel this model) = Helper.whiteList this.
Proof.
  unfold Helper.addModel.
  destruct (decide (name model ∈ Helper.blackList this)); [auto|].
  destruct (false || truthy_bool (exclude (getGQLModelMetadata model)))%bool; auto.
Qed.

Lemma addModel_other (this : Helper.GraphQLHelper) (model : ModelClass) (n : string) :
  name model <> n ->
  (In n (map fst (Helper.models this)) ->
   In n (map fst (Helper.models (Helper.addModel this model))))
  /\ Helper.modelMetadata (Helper.addModel this model) !! n = Helper.modelMetadata this !! n.
Proof.
  intros Hne. unfold Helper.addModel.
  destruct (decide (name model ∈ Helper.blackList this)); [auto|].
  destruct (false || truthy_bool (exclude (getGQLModelMetadata model)))%bool; [auto|].
  simpl. split.
  - intros Hin. rewrite map_set_names.
    destruct (existsb _ _); [exact Hin|]. apply in_or_app. left. exact Hin.
  - apply lookup_insert_ne. exact Hne.
Qed.

Lemma addModel_registers (this : Helper.GraphQLHelper) (model : ModelClass) :
  name model ∉ Helper.blackList this ->
  truthy_bool (exclude (getGQLModelMetadata model)) = false ->
  In (name model) (map fst (Helper.models (Helper.addModel this model)))
  /\ Helper.modelMetadata (Helper.addModel this model) !! name model
     = Some (getGQLModelMetadata model, getGQLFields model).
Proof.
  intros Hbl Hex. unfold Helper.addModel.
  destruct (decide (name model ∈ Helper.blackList this)); [contradiction|].
  rewrite Hex. simpl. split.
  - apply in_map_iff. eexists. split; [|apply map_set_registers]. reflexivity.
  - apply lookup_insert_eq.
Qed.

(** Registering a list of classes with distinct names while the blacklist is
    empty registers every class that is not excluded, with its own
    metadata. *)
Lemma classes_registered (classes : list ModelClass) (this : Helper.GraphQLHelper)
    (c : ModelClass) :
  Helper.blackList this = ∅ ->
  List.NoDup (map name classes) ->
  In c classes ->
  truthy_bool (exclude (getGQLModelMetadata c)) = false ->
  In (name c) (map fst (Helper.models (foldl Helper.addModel this classes)))
  /\ Helper.modelMetadata (foldl Helper.addModel this classes) !! name c
     = Some (getGQLModelMetadata c, getGQLFields c).
Proof.
  revert this. induction classes as [|c' classes IH]; intros this Hbl Hnd Hin Hex;
    [contradiction|].
  simpl. inversion Hnd as [|x l Hnotin Hnd']; subst.
  destruct Hin as [->|Hin].
  - assert (Hstart : In (name c) (map fst (Helper.models (Helper.addModel this c)))
                     /\ Helper.modelMetadata (Helper.addModel this c) !! name c
                        = Some (getGQLModelMetadata c, getGQLFields c)).
    { apply addModel_registers; [rewrite Hbl; apply not_elem_of_empty | exact Hex]. }
    clear IH Hnd Hbl. revert Hstart. generalize (Helper.addModel this c). clear this.
    induction classes as [|d classes IH]; intros h Hstart; simpl; [exact Hstart|].
    apply IH.
    + intros H. apply Hnotin. right. exact H.
    + inversion Hnd'; assumption.
    + assert (Hd : name d <> name c).
      { intros E. apply Hnotin. left. exact E. }
      destruct (addModel_other h d (name c) Hd) as [Hk ->].
      split; [apply Hk; apply Hstart | apply Hstart].
  - apply IH; try assumption.
    rewrite (proj1 (addModel_blackList this c')). exact Hbl.
Qed.

Lemma fold_keeps_models {A} (f : Helper.GraphQLHelper -> A -> Helper.GraphQLHelper)
    (l : list A) (h : Helper.GraphQLHelper) :
  (forall h x, Helper.models (f h x) = Helper.models h
               /\ Helper.modelMetadata (f h x) = Helper.modelMetadata h) ->
  Helper.models (foldl f h l) = Helper.models h
  /\ Helper.modelMetadata (foldl f h l) = Helper.modelMetadata h.
Proof.
  intros Hf. revert h. induction l as [|x l IH]; intros h; simpl; [auto|].
  destruct (IH (f h x)) as [-> ->]. apply Hf.
Qed.

(** The registry as [mount()] leaves it is the one [processModels] built. *)
Lemma register_registry (this : App.AppGraphQL) (storage : option App.CollectionStorage) :
  Helper.models (App.graphqlHelper (App.register this storage))
  = Helper.models (foldl Helper.addModel (App.graphqlHelper this) (App.models this))
  /\ Helper.modelMetadata (App.graphqlHelper (App.register this storage))
     = Helper.modelMetadata (foldl Helper.addModel (App.graphqlHelper this) (App.models this)).
Proof.
  unfold App.register, App.processAllAppCollections.
  assert (Hstep : forall {A} (f : Helper.GraphQLHelper -> A -> Helper.GraphQLHelper),
             (forall h x, Helper.models (f h x) = Helper.models h
                          /\ Helper.modelMetadata (f h x) = Helper.modelMetadata h) ->
             forall l h, Helper.models (foldl f h l) = Helper.models h
                         /\ Helper.modelMetadata (foldl f h l) = Helper.modelMetadata h).
  { intros A f Hf l h. apply fold_keeps_models. exact Hf. }
  destruct storage as [storage|]; simpl;
    repeat (match goal with
            | |- context [foldl ?f ?h ?l] =>
                lazymatch f with
                | Helper.addModel => fail
                | _ =>
                    let H := fresh in
                    destruct (Hstep _ f ltac:(intros; split; reflexivity) l h) as [H H'];
                    rewrite H, H'; clear H H'
                end
            end);
    split; reflexivity.
Qed.

Lemma fold_keeps_lists {A} (f : Helper.GraphQLHelper -> A -> Helper.GraphQLHelper)
    (l : list A) (h : Helper.GraphQLHelper) :
  (forall h x, Helper.blackList (f h x) = Helper.blackList h
               /\ Helper.whiteList (f h x) = Helper.whiteList h) ->
  Helper.blackList (foldl f h l) = Helper.blackList h
  /\ Helper.whiteList (foldl f h l) = Helper.whiteList h.
Proof.
  intros Hf. revert h. induction l as [|x l IH]; intros h; simpl; [auto|].
  destruct (IH (f h x)) as [-> ->]. apply Hf.
Qed.

Lemma blacklisting_fold (l : list string) (h : Helper.GraphQLHelper) :
  Helper.blackList (foldl Helper.addToBlackList h l) = list_to_set l ∪ Helper.blackList h
  /\ Helper.whiteList (foldl Helper.addToBlackList h l) = Helper.whiteList h.
Proof.
  revert h. induction l as [|x l IH]; intros h; simpl.
  - split; [|reflexivity]. rewrite union_empty_l_L. reflexivity.
  - destruct (IH (Helper.addToBlackList h x)) as [-> ->]. simpl. split; [|reflexivity].
    rewrite (assoc_L (∪)), (comm_L (∪) (list_to_set l) {[ x ]}). reflexivity.
Qed.

Lemma whitelisting_fold (l : list string) (h : Helper.GraphQLHelper) :
  Helper.whiteList (foldl Helper.addToWhiteList h l) = list_to_set l ∪ Helper.whiteList h
  /\ Helper.blackList (foldl Helper.addToWhiteList h l) = Helper.blackList h.
Proof.
  revert h. induction l as [|x l IH]; intros h; simpl.
  - split; [|reflexivity]. rewrite union_empty_l_L. reflexivity.
  - destruct (IH (Helper.addToWhiteList h x)) as [-> ->]. simpl. split; [|reflexivity].
    rewrite (assoc_L (∪)), (comm_L (∪) (list_to_set l) {[ x ]}). reflexivity.
Qed.

(** The two lists as [mount()] leaves them. *)
Lemma register_lists (this : App.AppGraphQL) (storage : option App.CollectionStorage) :
  Helper.blackList (App.graphqlHelper (App.register this storage))
  = list_to_set (App.blackListedFields this) ∪ Helper.blackList (App.graphqlHelper this)
  /\ Helper.whiteList (App.graphqlHelper (App.register this storage))
     = list_to_set (App.whiteListedModels this) ∪ Helper.whiteList (App.graphqlHelper this).
Proof.
  unfold App.register, App.processAllAppCollections.
  assert (Hplain : forall {A} (f : Helper.GraphQLHelper -> A -> Helper.GraphQLHelper),
             (forall h x, Helper.blackList (f h x) = Helper.blackList h
                          /\ Helper.whiteList (f h x) = Helper.whiteList h) ->
             forall l h, Helper.blackList (foldl f h l) = Helper.blackList h
                         /\ Helper.whiteList (foldl f h l) = Helper.whiteList h).
  { intros A f Hf l h. apply fold_keeps_lists. exact Hf. }
  assert (Hmodels : forall l h,
             Helper.blackList (foldl Helper.addModel h l) = Helper.blackList h
             /\ Helper.whiteList (foldl Helper.addModel h l) = Helper.whiteList h).
  { intros l h. apply fold_keeps_lists. intros h' x. apply addModel_blackList. }
  destruct storage as [storage|]; simpl;
    repeat (match goal with
            | |- context [foldl ?f ?h ?l] =>
                lazymatch f with
                | Helper.addModel => fail
                | Helper.addToBlackList => fail
                | Helper.addToWhiteList => fail
                | _ =>
                    let H := fresh in
                    let H' := fresh in
                    destruct (Hplain _ f ltac:(intros; split; reflexivity) l h) as [H H'];
                    rewrite H, H'; clear H H'
                end
            end);
    rewrite (proj1 (blacklisting_fold _ _)), (proj2 (blacklisting_fold _ _));
    rewrite (proj1 (whitelisting_fold _ _)), (proj2 (whitelisting_fold _ _));
    repeat (match goal with
            | |- context [foldl ?f ?h ?l] =>
                lazymatch f with
                | Helper.addModel => fail
                | _ =>
                    let H := fresh in
                    let H' := fresh in
                    destruct (Hplain _ f ltac:(intros; split; reflexivity) l h) as [H H'];
                    rewrite H, H'; clear H H'
                end
            end);
    rewrite (proj1 (Hmodels _ _)), (proj2 (Hmodels _ _)); split; reflexivity.
Qed.

(** X22: [mount()] registers the application's models before it reads the
    blacklist.  For an application whose helper has an empty blacklist
    before [mount()] (as the one the constructor builds) and whose model
    classes have pairwise distinct names: every model class of the
    application that is not excluded is in the registry after [mount()]
    with its own decorator metadata, also when its name is on the
    application's blacklist; every pattern of the application's blacklist
    is then in the helper's; and the blacklist takes effect for what is
    added later: an [addModel] of a class with a blacklisted name leaves
    the mounted helper as it is. *)
Theorem mount_registers_before_blacklisting (this : App.AppGraphQL)
    (storage : option App.CollectionStorage) (c : ModelClass) :
  Helper.blackList (App.graphqlHelper this) = ∅ ->
  List.NoDup (map name (App.models this)) ->
  In c (App.models this) ->
  truthy_bool (exclude (getGQLModelMetadata c)) = false ->
  let mounted := App.graphqlHelper (App.register this storage) in
  In (name c) (map fst (Helper.models mounted))
  /\ Helper.modelConfigOf mounted (name c) = Some (getGQLModelMetadata c)
  /\ (forall pattern, In pattern (App.blackListedFields this) ->
                      pattern ∈ Helper.blackList mounted)
  /\ (forall later, In (name later) (App.blackListedFields this) ->
                    Helper.addModel mounted later = mounted).
Proof.
  intros Hbl Hnd Hin Hex mounted. subst mounted.
  destruct (register_registry this storage) as [Hm Hmd].
  destruct (register_lists this storage) as [Hb _].
  destruct (classes_registered (App.models this) (App.graphqlHelper this) c
              Hbl Hnd Hin Hex) as [Hreg Hmeta].
  split; [rewrite Hm; exact Hreg|].
  split; [unfold Helper.modelConfigOf; rewrite Hmd, Hmeta; reflexivity|].
  assert (Hbl' : forall pattern, In pattern (App.blackListedFields this) ->
                   pattern ∈ Helper.blackList (App.graphqlHelper (App.register this storage))).
  { intros pattern Hp. rewrite Hb. apply elem_of_union_l, elem_of_list_to_set.
    apply list_elem_of_In. exact Hp. }
  split; [exact Hbl'|].
  intros later Hl. unfold Helper.addModel.
  destruct (decide (name later ∈ _)) as [_|Hn]; [reflexivity|].
  exfalso. apply Hn. apply Hbl'. exact Hl.
Qed.

Lemma mount_registers_before_blacklisting_witness :
  let mounted := App.graphqlHelper (App.register AppFixture.app None) in
  Helper.blackList (App.graphqlHelper AppFixture.app) = ∅
  /\ In Sample.Post (App.models AppFixture.app)
  /\ In "Post" (App.blackListedFields AppFixture.app)
  /\ In "Post" (map fst (Helper.models mounted))
  /\ Helper.addModel mounted Sample.Post = mounted.
Proof.
  intros mounted. subst mounted.
  assert (Hnd : List.NoDup (map name (App.models AppFixture.app))).
  { simpl. constructor; [simpl; intros [H|[]]; discriminate H|].
    constructor; [simpl; tauto|]. constructor. }
  assert (Hin : In Sample.Post (App.models AppFixture.app)) by (left; reflexivity).
  destruct (mount_registers_before_blacklisting AppFixture.app None Sample.Post
              eq_refl Hnd Hin eq_refl) as [H1 [_ [_ H4]]].
  split; [reflexivity|]. split; [exact Hin|]. split; [left; reflexivity|].
  split; [exact H1|]. apply H4. left. reflexivity.
Defined.

Lemma names_from_classes (classes : list ModelClass) (this : Helper.GraphQLHelper)
    (n : string) :
  In n (map fst (Helper.models (foldl Helper.addModel this classes))) ->
  In n (map fst (Helper.models this)) \/ In n (map name classes).
Proof.
  revert this. induction classes as [|c classes IH]; intros this H; simpl in *; [auto|].
  apply IH in H. destruct H as [H|H]; [|auto].
  unfold Helper.addModel in H.
  destruct (decide (name c ∈ Helper.blackList this)); [auto|].
  destruct (false || truthy_bool (exclude (getGQLModelMetadata c)))%bool; [auto|].
  simpl in H. rewrite map_set_names in H.
  destruct (existsb _ _); [auto|]. apply in_app_or in H. destruct H as [H|[<-|[]]]; auto.
Qed.

(** X23: the application's [enableMutations] setting is never consulted.
    For an application with a fresh helper and an empty whitelist, whose
    model classes have pairwise distinct names, none of them [Query],
    [Mutation] or [Subscription]: whatever the configuration (the default
    is [enableMutations: false]), a model class that is not excluded and
    whose decorator has no [operations] object gets its create, update and
    delete mutations declared in the type definitions that [mount()]
    builds, each with a resolver in the mounted schema. *)
Theorem mutations_are_exposed_whatever_the_config (this : App.AppGraphQL)
    (sequelize_ : option Sequelize) (storage : option App.CollectionStorage)
    (c : ModelClass) :
  App.graphqlHelper this = Helper.new sequelize_ ->
  App.whiteListedModels this = [] ->
  List.NoDup (map name (App.models this)) ->
  Forall (fun c' => Helper.isRootKey (name c') = false) (App.models this) ->
  In c (App.models this) ->
  truthy_bool (exclude (getGQLModelMetadata c)) = false ->
  operations (getGQLModelMetadata c) = None ->
  let mounted := App.graphqlHelper (App.register this storage) in
  let m := name c in
  Forall (fun line => In line (Helper.generateTypeDefs_lines mounted))
    [ SDL.OpLine ("create" +:+ m) ("(input: " +:+ m +:+ "Input!)") m;
      SDL.OpLine ("update" +:+ m) ("(id: String!, input: " +:+ m +:+ "Input!)") m;
      SDL.OpLine ("delete" +:+ m) "(id: String!)" "Boolean" ]
  /\ Forall (fun f => is_Some (lookupResolver (Helper.resolvers (App.mountSchema this storage))
                                 "Mutation" f))
       [ "create" +:+ m; "update" +:+ m; "delete" +:+ m ].
Proof.
  intros Hfresh Hwl Hnd Hroots Hin Hex Hops mounted m. subst mounted m.
  assert (Hbl : Helper.blackList (App.graphqlHelper this) = ∅) by (rewrite Hfresh; reflexivity).
  destruct (register_registry this storage) as [Hm Hmd].
  destruct (register_lists this storage) as [_ Hw].
  destruct (classes_registered (App.models this) (App.graphqlHelper this) c
              Hbl Hnd Hin Hex) as [Hreg Hmeta].
  rewrite <- Hm in Hreg. rewrite <- Hmd in Hmeta.
  set (mounted := App.graphqlHelper (App.register this storage)) in *.
  apply in_map_iff in Hreg. destruct Hreg as [[n model] [Hn Hentry]]. simpl in Hn. subst n.
  assert (Hsk : Helper.skipped mounted (name c) = false).
  { apply skipped_false_iff. left. rewrite Hw, Hwl, Hfresh. simpl.
    apply union_empty_l_L. }
  assert (Hdef : Helper.operationsOf mounted (name c) = Helper.allOperations).
  { apply operationsOf_default. unfold Helper.modelConfigOf. rewrite Hmeta. simpl.
    exact Hops. }
  assert (Hregistry : Forall (fun entry => Helper.isRootKey (fst entry) = false)
                        (Helper.models mounted)).
  { apply List.Forall_forall. intros [n d] Hd.
    assert (Hname : In n (map fst (Helper.models mounted))).
    { apply in_map_iff. exists (n, d). split; [reflexivity | exact Hd]. }
    rewrite Hm in Hname. apply names_from_classes in Hname.
    rewrite Hfresh in Hname. destruct Hname as [[]|Hname].
    apply in_map_iff in Hname. destruct Hname as [c' [<- Hc']].
    rewrite List.Forall_forall in Hroots. apply Hroots. exact Hc'. }
  split.
  - repeat (apply List.Forall_cons); try apply List.Forall_nil;
      apply (root_lines_in_typeDefs mounted (name c) model _ Hentry);
      right; left; unfold Helper.modelMutationFields; rewrite Hsk, Hdef; simpl; tauto.
  - unfold App.mountSchema, Helper.getSchema. cbn [fst Helper.resolvers].
    repeat (apply List.Forall_cons); try apply List.Forall_nil;
      apply (default_resolvers_installed mounted (name c) model _ _ Hentry Hsk Hdef Hregistry);
      simpl; tauto.
Qed.

Lemma mutations_are_exposed_whatever_the_config_witness :
  App.enableMutations (App.config AppFixture.app) = Some false
  /\ In Sample.Secret (App.models AppFixture.app)
  /\ operations (getGQLModelMetadata Sample.Secret) = None
  /\ is_Some (lookupResolver (Helper.resolvers (App.mountSchema AppFixture.app None))
                "Mutation" "createSecret").
Proof.
  assert (Hnd : List.NoDup (map name (App.models AppFixture.app))).
  { simpl. constructor; [simpl; intros [H|[]]; discriminate H|].
    constructor; [simpl; tauto|]. constructor. }
  assert (Hroots : Forall (fun c' => Helper.isRootKey (name c') = false)
                     (App.models AppFixture.app)).
  { repeat constructor. }
  assert (Hin : In Sample.Secret (App.models AppFixture.app)) by (right; left; reflexivity).
  destruct (mutations_are_exposed_whatever_the_config AppFixture.app (Some Sample.db) None
              Sample.Secret eq_refl eq_refl Hnd Hroots Hin eq_refl eq_refl) as [_ H].
  split; [reflexivity|]. split; [exact Hin|]. split; [reflexivity|].
  apply List.Forall_inv in H. exact H.
Defined.

(** * Properties of the decorators and of the configuration generator *)

(** X24: what the decorators attach is what generation reads.  The model
    decorator and a field decorator do not disturb each other or the
    class, for one property the decorator applied last decides, decorators
    of different properties can be applied in either order, and after
    [addModel] the helper holds exactly the attached configurations. *)
Theorem decorators_round_trip (this : Helper.GraphQLHelper) (target_ : ModelClass)
    (modelConfig : GQLModelConfig) (fieldConfig other : GQLFieldConfig) (k k' : string) :
  let decorated := GQLField fieldConfig k (GQLModel modelConfig target_) in
  getGQLModelMetadata decorated = modelConfig
  /\ getGQLFields decorated = <[k := fieldConfig]> (getGQLFields target_)
  /\ decorated = GQLModel modelConfig (GQLField fieldConfig k target_)
  /\ getGQLFields (GQLField other k (GQLField fieldConfig k target_)) !! k = Some other
  /\ (k <> k' ->
      GQLField other k' (GQLField fieldConfig k target_)
      = GQLField fieldConfig k (GQLField other k' target_))
  /\ (name target_ ∉ Helper.blackList this ->
      truthy_bool (exclude modelConfig) = false ->
      Helper.modelConfigOf (Helper.addModel this decorated) (name target_) = Some modelConfig
      /\ Helper.fieldConfigsOf (Helper.addModel this decorated) (name target_) !! k
         = Some fieldConfig).
Proof.
  intros decorated. subst decorated.
  split; [reflexivity|]. split; [reflexivity|]. split; [reflexivity|].
  split; [apply lookup_insert_eq|]. split.
  - intros Hne. unfold GQLField. simpl. f_equal. f_equal.
    apply insert_insert_ne. congruence.
  - intros Hbl Hex.
    destruct (addModel_registers this (GQLField fieldConfig k (GQLModel modelConfig target_))
                Hbl Hex) as [_ Hmeta].
    unfold Helper.modelConfigOf, Helper.fieldConfigsOf. simpl in Hmeta. rewrite Hmeta.
    simpl. split; [reflexivity|]. apply lookup_insert_eq.
Qed.

Lemma uniq_In (l : list string) (x : string) :
  In x (ConfigGenerator.uniq l) <-> In x l.
Proof.
  induction l as [|y l IH]; simpl; [tauto|].
  rewrite filter_In, IH. split.
  - intros [H|[H _]]; auto.
  - intros [H|H]; [left; exact H|].
    destruct (String.eqb x y) eqn:E.
    + apply String.eqb_eq in E. left. symmetry. exact E.
    + right. split; [exact H|]. reflexivity.
Qed.

(** One round of the loop only appends to [excludeFields]. *)
Lemma processField_keeps_excluded (exclude_ : list string) (config_ : GQLModelConfig)
    (entry : string * GQLFieldConfig) (f : string) :
  (exists l, excludeFields config_ = Some l /\ In f l) ->
  exists l, excludeFields (ConfigGenerator.processField exclude_ config_ entry) = Some l
            /\ In f l.
Proof.
  intros [l [E Hin]]. destruct entry as [n fc]. unfold ConfigGenerator.processField.
  destruct (SchemaGenerator.includes exclude_ n);
    [|destruct (truthy_bool (fc_exclude fc));
      [|destruct (match fc_resolver fc with Some _ => true | None => false end
                  || truthy_str (fc_customType fc))%bool]]; simpl;
    try (rewrite E; simpl; eexists; split; [reflexivity|]; apply in_or_app; left; exact Hin);
    exists l; split; assumption.
Qed.

Lemma loop_keeps_excluded (exclude_ : list string) (entries : list (string * GQLFieldConfig))
    (config_ : GQLModelConfig) (f : string) :
  (exists l, excludeFields config_ = Some l /\ In f l) ->
  exists l, excludeFields (foldl (ConfigGenerator.processField exclude_) config_ entries)
            = Some l /\ In f l.
Proof.
  revert config_. induction entries as [|e entries IH]; intros config_ H; simpl; [exact H|].
  apply IH. apply processField_keeps_excluded. exact H.
Qed.

Lemma processField_excludes (exclude_ : list string) (config_ : GQLModelConfig)
    (f : string) (fc : GQLFieldConfig) :
  truthy_bool (fc_exclude fc) = true \/ In f exclude_ ->
  exists l, excludeFields (ConfigGenerator.processField exclude_ config_ (f, fc)) = Some l
            /\ In f l.
Proof.
  intros H. unfold ConfigGenerator.processField.
  destruct (SchemaGenerator.includes exclude_ f) eqn:E.
  - simpl. eexists. split; [reflexivity|]. apply in_or_app. right. left. reflexivity.
  - destruct H as [H|H].
    + rewrite H. simpl. eexists. split; [reflexivity|].
      apply in_or_app. right. left. reflexivity.
    + apply includes_In in H. congruence.
Qed.

(** The loop leaves every setting but the two it collects untouched. *)
Lemma loop_keeps_settings (exclude_ : list string) (entries : list (string * GQLFieldConfig))
    (config_ : GQLModelConfig) :
  let result := foldl (ConfigGenerator.processField exclude_) config_ entries in
  typeName result = typeName config_
  /\ description result = description config_
  /\ exclude result = exclude config_
  /\ operations result = operations config_
  /\ authRequired result = authRequired config_.
Proof.
  cbv zeta. revert config_.
  induction entries as [|[n fc] entries IH]; intros config_; cbn [foldl];
    [repeat split|].
  destruct (IH (ConfigGenerator.processField exclude_ config_ (n, fc)))
    as [H1 [H2 [H3 [H4 H5]]]].
  rewrite H1, H2, H3, H4, H5. unfold ConfigGenerator.processField.
  destruct (SchemaGenerator.includes exclude_ n);
    [|destruct (truthy_bool (fc_exclude fc));
      [|destruct (match fc_resolver fc with Some _ => true | None => false end
                  || truthy_str (fc_customType fc))%bool]]; simpl; repeat split.
Qed.

(** X25: a decorated field that is marked [exclude: true], or that is named
    in the generator's exclusion list ([options.excludeFields], by default
    [createdAt] and [updatedAt]), is in the [excludeFields] of the
    configuration [generateGraphQLModelConfig] returns, whatever the
    decorator and [override] say; a schema generator given this
    configuration prints the field neither in the object type nor in the
    input type. *)
Theorem decorated_exclusion_reaches_the_schema (this : Generator.GraphQLSchemaGenerator)
    (modelClass : ModelClass) (options : ConfigGenerator.GenerateGraphQLConfigOptions)
    (f : string) (fieldConfig : GQLFieldConfig) :
  getGQLFields modelClass !! f = Some fieldConfig ->
  truthy_bool (fc_exclude fieldConfig) = true
  \/ In f (default ["createdAt"; "updatedAt"] (ConfigGenerator.opt_excludeFields options)) ->
  let generated := ConfigGenerator.generateGraphQLModelConfig modelClass options in
  In f (SchemaGenerator.getExcludeFields generated)
  /\ ~ In f (SDL.field_names (Generator.attributeLines this modelClass (Some generated)))
  /\ ~ In f (SDL.field_names (Generator.associationLines this modelClass (Some generated)))
  /\ ~ In f (SDL.field_names (Generator.generateInputTypes this modelClass (Some generated))).
Proof.
  intros Hf Hex generated.
  assert (Hin : In f (SchemaGenerator.getExcludeFields generated)).
  { apply elem_of_map_to_list in Hf. apply list_elem_of_In in Hf.
    apply in_split in Hf. destruct Hf as [before [after Hsplit]].
    subst generated. unfold ConfigGenerator.generateGraphQLModelConfig,
      SchemaGenerator.getExcludeFields. simpl.
    rewrite Hsplit, foldl_app. simpl.
    edestruct (loop_keeps_excluded
                 (ConfigGenerator.uniq
                    (default ["createdAt"; "updatedAt"]
                       (ConfigGenerator.opt_excludeFields options)))
                 after) as [l [E Hl]]; [|rewrite E; exact Hl].
    apply processField_excludes. destruct Hex as [Hex|Hex]; [left; exact Hex|].
    right. apply uniq_In. exact Hex. }
  split; [exact Hin|].
  apply excluded_field_has_no_line. unfold SchemaGenerator.isFieldExcluded.
  apply includes_In in Hin. rewrite Hin. reflexivity.
Qed.

Lemma decorated_exclusion_reaches_the_schema_witness :
  let generated :=
    ConfigGenerator.generateGraphQLModelConfig Fixture.User ConfigGenerator.noOptions in
  In "password" (SchemaGenerator.getExcludeFields generated)
  /\ ~ In "password"
       (SDL.field_names (Generator.attributeLines Generator.new Fixture.User (Some generated)))
  /\ ~ In "password"
       (SDL.field_names (Generator.associationLines Generator.new Fixture.User (Some generated)))
  /\ ~ In "password"
       (SDL.field_names (Generator.generateInputTypes Generator.new Fixture.User
                           (Some generated))).
Proof.
  apply (decorated_exclusion_reaches_the_schema Generator.new Fixture.User
           ConfigGenerator.noOptions "password" Fixture.hidden).
  - vm_compute. reflexivity.
  - left. reflexivity.
Defined.

(** X26: in the configuration [generateGraphQLModelConfig] returns, a
    setting of the model's decorator takes precedence over the same setting
    of [options.override], which takes precedence over the built-in value.
    In particular the decorator's [operations], when it has any, are taken
    over as they are: neither [override] nor [enableOperations] nor the
    built-in [query: true] contributes to them, so an operation the
    decorator does not mention is off.  Without [operations] in the
    decorator and in [override], each operation is what [enableOperations]
    says, else what the built-in value says. *)
Theorem decorator_takes_precedence (modelClass : ModelClass)
    (options : ConfigGenerator.GenerateGraphQLConfigOptions) :
  let generated := ConfigGenerator.generateGraphQLModelConfig modelClass options in
  let decorator := getGQLModelMetadata modelClass in
  let overridden {A} (get : GQLModelConfig -> option A) : option A :=
    ConfigGenerator.override options ≫= get in
  SchemaGenerator.modelName generated = name modelClass
  /\ SchemaGenerator.getTypeName generated
     = str_or (ConfigGenerator.later (overridden typeName) (typeName decorator))
              (name modelClass)
  /\ Generator.isExcluded generated
     = truthy_bool (ConfigGenerator.later (overridden exclude) (exclude decorator))
  /\ (forall fromDecorator, operations decorator = Some fromDecorator ->
      Generator.getOperations generated = fromDecorator)
  /\ (operations decorator = None -> forall fromOverride,
      overridden operations = Some fromOverride ->
      Generator.getOperations generated = fromOverride)
  /\ (operations decorator = None -> overridden operations = None ->
      let enabled (get : GQLOperations -> option bool) (builtin : bool) : option bool :=
        Some (default builtin (ConfigGenerator.enableOperations options ≫= get)) in
      Generator.getOperations generated
      = {| op_query := enabled op_query true;
           op_mutation := enabled op_mutation false;
           op_subscription := enabled op_subscription false |}).
Proof.
  intros generated decorator overridden.
  destruct (loop_keeps_settings
              (ConfigGenerator.uniq
                 (default ["createdAt"; "updatedAt"]
                    (ConfigGenerator.opt_excludeFields options)))
              (map_to_list (getGQLFields modelClass))
              (ConfigGenerator.initialConfig modelClass options))
    as [Hn [_ [He [Ho _]]]].
  cbv zeta in Hn, He, Ho.
  split; [reflexivity|].
  unfold SchemaGenerator.getTypeName, Generator.isExcluded, Generator.getOperations.
  subst generated. unfold ConfigGenerator.generateGraphQLModelConfig.
  cbn [SchemaGenerator.config SchemaGenerator.modelName].
  rewrite Hn, He, Ho. unfold ConfigGenerator.initialConfig.
  cbn [typeName exclude operations].
  fold decorator. subst overridden. cbn beta.
  split.
  { destruct (typeName decorator) as [t|]; simpl; [reflexivity|].
    destruct (ConfigGenerator.override options ≫= typeName) as [t|]; simpl; [reflexivity|].
    destruct (name modelClass); reflexivity. }
  split.
  { destruct (exclude decorator) as [b|]; simpl; [reflexivity|].
    destruct (ConfigGenerator.override options ≫= exclude) as [b|]; reflexivity. }
  split.
  { intros o Ho'. rewrite Ho'. reflexivity. }
  split.
  { intros Hnone o Ho'. rewrite Hnone, Ho'. reflexivity. }
  intros Hnone Hnone'. rewrite Hnone, Hnone'. simpl.
  unfold ConfigGenerator.mergedOperations. simpl.
  destruct (ConfigGenerator.enableOperations options) as [e|]; simpl; [|reflexivity].
  destruct (op_query e), (op_mutation e), (op_subscription e); reflexivity.
Qed.

Lemma map_set_keeps_other {V} (k k' : string) (v v' : V) (l : list (string * V)) :
  k' <> k -> In (k, v) l -> In (k, v) (map_set k' v' l).
Proof.
  intros Hne. induction l as [|[n w] l IH]; simpl; [contradiction|].
  destruct (String.eqb n k') eqn:E.
  - apply String.eqb_eq in E. subst n. intros [H|H]; [|right; exact H].
    injection H as H _. congruence.
  - intros [H|H]; [left; exact H|right; apply IH; exact H].
Qed.

(** Later rounds of the loop, for other fields, keep a collected custom field. *)
Lemma loop_keeps_custom_field (exclude_ : list string)
    (entries : list (string * GQLFieldConfig)) (config_ : GQLModelConfig)
    (f : string) (fc : GQLFieldConfig) :
  ~ In f (map fst entries) ->
  In (f, fc) (default [] (customFields config_)) ->
  In (f, fc)
     (default [] (customFields (foldl (ConfigGenerator.processField exclude_) config_ entries))).
Proof.
  revert config_. induction entries as [|[n c] entries IH]; intros config_ Hnot Hin;
    cbn [foldl]; [exact Hin|].
  apply IH; [intros H; apply Hnot; right; exact H|].
  assert (Hne : n <> f) by (intros ->; apply Hnot; left; reflexivity).
  unfold ConfigGenerator.processField.
  destruct (SchemaGenerator.includes exclude_ n);
    [|destruct (truthy_bool (fc_exclude c));
      [|destruct (match fc_resolver c with Some _ => true | None => false end
                  || truthy_str (fc_customType c))%bool]]; simpl; try exact Hin.
  apply map_set_keeps_other; assumption.
Qed.

(** X27: a decorated field that has a resolver or a custom type, and is not
    excluded, is collected with its decorator's configuration among the
    custom fields of the configuration [generateGraphQLModelConfig]
    returns, and a schema generator given this configuration prints it in
    the model's object type, with the custom type, or [String] when it has
    none. *)
Theorem decorated_custom_field_reaches_the_schema (this : Generator.GraphQLSchemaGenerator)
    (modelClass : ModelClass) (options : ConfigGenerator.GenerateGraphQLConfigOptions)
    (f : string) (fieldConfig : GQLFieldConfig) :
  getGQLFields modelClass !! f = Some fieldConfig ->
  truthy_bool (fc_exclude fieldConfig) = false ->
  ~ In f (default ["createdAt"; "updatedAt"] (ConfigGenerator.opt_excludeFields options)) ->
  fc_resolver fieldConfig <> None \/ truthy_str (fc_customType fieldConfig) = true ->
  let generated := ConfigGenerator.generateGraphQLModelConfig modelClass options in
  In (f, fieldConfig) (Generator.getCustomFields generated)
  /\ In (SDL.FieldLine f (str_or (fc_customType fieldConfig) "String"))
        (Generator.generateModelTypeDef this modelClass (Some generated)).
Proof.
  intros Hf Hex Hlist Hcustom generated.
  assert (Hin : In (f, fieldConfig) (Generator.getCustomFields generated)).
  { pose proof (NoDup_fst_map_to_list (getGQLFields modelClass)) as Hnd.
    apply elem_of_map_to_list in Hf. apply list_elem_of_In in Hf.
    apply in_split in Hf. destruct Hf as [before [after Hsplit]].
    subst generated. unfold ConfigGenerator.generateGraphQLModelConfig,
      Generator.getCustomFields. cbn [SchemaGenerator.config].
    rewrite Hsplit in Hnd |- *. rewrite foldl_app. cbn [foldl].
    apply loop_keeps_custom_field.
    - rewrite fmap_app in Hnd. apply NoDup_app in Hnd. destruct Hnd as [_ [_ Hnd]].
      apply NoDup_cons in Hnd. destruct Hnd as [Hnd _]. intros H. apply Hnd.
      apply list_elem_of_In. exact H.
    - unfold ConfigGenerator.processField.
      destruct (SchemaGenerator.includes _ f) eqn:E.
      { apply (proj1 (includes_In _ _)) in E. apply (proj1 (uniq_In _ _)) in E.
        destruct (Hlist E). }
      rewrite Hex.
      assert (Hc : (match fc_resolver fieldConfig with Some _ => true | None => false end
                    || truthy_str (fc_customType fieldConfig))%bool = true).
      { destruct Hcustom as [H|H]; [|rewrite H; apply orb_true_r].
        destruct (fc_resolver fieldConfig); [reflexivity|congruence]. }
      rewrite Hc. simpl. apply map_set_registers. }
  split; [exact Hin|].
  unfold Generator.generateModelTypeDef.
  apply in_or_app. right. apply in_or_app. right. apply in_or_app. right.
  apply in_or_app. left. unfold Generator.customFieldLines. simpl.
  apply in_map_iff. exists (f, fieldConfig). split; [reflexivity|exact Hin].
Qed.

Lemma decorated_custom_field_reaches_the_schema_witness :
  let generated :=
    ConfigGenerator.generateGraphQLModelConfig ConfigFixture.Account
      ConfigGenerator.noOptions in
  In ("avatar", ConfigFixture.upload) (Generator.getCustomFields generated)
  /\ In (SDL.FieldLine "avatar" "Upload")
        (Generator.generateModelTypeDef Generator.new ConfigFixture.Account (Some generated)).
Proof.
  apply (decorated_custom_field_reaches_the_schema Generator.new ConfigFixture.Account
           ConfigGenerator.noOptions "avatar" ConfigFixture.upload).
  - vm_compute. reflexivity.
  - reflexivity.
  - simpl. intros [H|[H|[]]]; discriminate.
  - right. reflexivity.
Defined.

(** X28: the collection handler and the helper agree on which models to
    take.  After [process] the helper is what it would be had every item
    that is a class been handed to the helper's [addModel] directly,
    excluded models included: the handler's own test of [exclude] changes
    nothing the helper would not have done, the application an item comes
    from plays no part, and an item that is no class is passed over without
    stopping the ones after it. *)
Theorem handler_registers_what_the_helper_accepts (graphqlApp : App.AppGraphQL)
    (collectionItems : list (string * option ModelClass)) :
  App.graphqlHelper (App.processItems graphqlApp collectionItems)
  = foldl Helper.addModel (App.graphqlHelper graphqlApp) (omap snd collectionItems)
  /\ App.models (App.processItems graphqlApp collectionItems)
     = App.models graphqlApp
       ++ List.filter (fun model => negb (truthy_bool (exclude (getGQLModelMetadata model))))
                      (omap snd collectionItems).
Proof.
  revert graphqlApp. unfold App.processItems.
  induction collectionItems as [|[appId [model|]] items IH]; intros graphqlApp.
  - split; [reflexivity|]. symmetry. apply app_nil_r.
  - change (omap snd ((appId, Some model) :: items)) with (model :: omap snd items).
    cbn [foldl snd List.filter].
    destruct (truthy_bool (exclude (getGQLModelMetadata model))) eqn:E; cbn [negb].
    + destruct (IH graphqlApp) as [H1 H2]. rewrite H1, H2. split; [|reflexivity].
      f_equal. symmetry. apply excluded_model_is_skipped.
      destruct (exclude (getGQLModelMetadata model)) as [[|]|]; try discriminate.
      reflexivity.
    + destruct (IH (App.addModel graphqlApp model)) as [H1 H2]. rewrite H1, H2.
      split; [reflexivity|]. simpl. rewrite <- app_assoc. reflexivity.
  - change (omap snd ((appId, None) :: items)) with (omap snd items).
    cbn [foldl snd]. apply IH.
Qed.
